(** * opencmr: indexing a folder of DICOM files into Study / Series / Instance

    A shallow embedding of the three catalogue builders of the repository,

      - [CMRDir]   (modules/pycmr/cmrdir.py),
      - [CMRStudy] (opencmr/pycmr/cmr_study.py),
      - [DicomDir] (opencmr/pycmr/dicom_dir.py),

    and of [read_dicom] (modules/pycmr/dicom_ext.py), followed by the
    properties of the specification that concern them.

    Conventions of the embedding.
      - A Python [str] is a Rocq [string] holding its UTF-8 encoding;
        [replace], [split], [==] and [startswith] on code points agree with
        the same operations on the encodings.  [bytes] is a [string] too.
      - A Python [float] is an IEEE binary64 value, [spec_float].
      - A [dict] is an association list in insertion order with unique keys.
      - Exceptions are values of [exn]; a computation that may raise
        returns a [result].
      - [os.path] is [posixpath]. *)

From Stdlib Require Import String Ascii List ZArith NArith Lia Bool PeanoNat.
From Stdlib Require Import SpecFloat.
From Stdlib Require Import Permutation.
Import ListNotations.
Open Scope string_scope.
Open Scope list_scope.

Set Implicit Arguments.
Set Warnings "-register-all".

(** ** Exceptions and results *)

Inductive pyval : Type :=
| PNone
| PBool (b : bool)               (* bool *)
| PStr (s : string)              (* str, and pydicom's UID (a str subclass) *)
| PInt (z : Z)                   (* int, and pydicom's IS *)
| PFloat (f : spec_float)        (* float *)
| PDSfloat (f : spec_float)      (* pydicom.valuerep.DSfloat, a float subclass *)
| PBytes (b : string)            (* bytes *)
| PMultiValue (l : list pyval)   (* pydicom.multival.MultiValue *)
| PList (l : list pyval)         (* list *)
| PDict (d : list (string * pyval))
| POther (id : nat).             (* an object of any other class *)

Inductive exn : Type :=
| ValueError (msg : string)
| AssertionError (arg : pyval)
| AttributeError (name : string)
| KeyError (key : string)
| TypeError
| IndexError
| OverflowError
| UnicodeDecodeError
| FileNotFoundError (path : string)
| IsADirectoryError (path : string)
| PermissionError (path : string)
| JSONDecodeError
| ReadError (code : nat).        (* whatever pydicom.read_file raises *)

Inductive result (A : Type) : Type :=
| Ok (a : A)
| Raise (e : exn).

Arguments Ok {A} a.
Arguments Raise {A} e.

Definition bind {A B : Type} (r : result A) (k : A -> result B) : result B :=
  match r with
  | Ok a => k a
  | Raise e => Raise e
  end.

Declare Scope py_scope.
Delimit Scope py_scope with py.
Notation "'let*' x ':=' c 'in' k" := (bind c (fun x => k))
  (at level 61, x pattern, c at next level, right associativity) : py_scope.
Open Scope py_scope.

Fixpoint mapM {A B : Type} (f : A -> result B) (l : list A) : result (list B) :=
  match l with
  | [] => Ok []
  | x :: r =>
      let* y := f x in
      let* ys := mapM f r in
      Ok (y :: ys)
  end.

(** The lists [f x] for the [x] of [l], one after the other: the nested
    [for] clauses of a comprehension. *)
Fixpoint concatM {A B : Type} (f : A -> result (list B)) (l : list A)
  : result (list B) :=
  match l with
  | [] => Ok []
  | x :: r =>
      let* ys := f x in
      let* zs := concatM f r in
      Ok (ys ++ zs)
  end.

(** ** Strings *)

Definition backslash : ascii := ascii_of_nat 92.
Definition slash : ascii := "/"%char.

(** [s.startswith(p)] *)
Definition startswith (s p : string) : bool := String.prefix p s.

(** [s.endswith(c)] for a one-character [c] *)
Fixpoint endswith_char (s : string) (c : ascii) : bool :=
  match s with
  | EmptyString => false
  | String a EmptyString => Ascii.eqb a c
  | String _ r => endswith_char r c
  end.

(** [s.split(sep)] for a one-character separator. *)
Fixpoint str_split (sep : ascii) (s : string) : list string :=
  match s with
  | EmptyString => [EmptyString]
  | String c r =>
      if Ascii.eqb c sep then EmptyString :: str_split sep r
      else match str_split sep r with
           | [] => [String c EmptyString]
           | h :: t => String c h :: t
           end
  end.

(** [sep.join(l)] *)
Fixpoint str_join (sep : string) (l : list string) : string :=
  match l with
  | [] => EmptyString
  | [x] => x
  | x :: r => x ++ sep ++ str_join sep r
  end.

(** [s.replace(old, new)]: every non-overlapping occurrence of [old], found
    from the left, is replaced.  [skip] counts the characters of a matched
    occurrence still to be dropped. *)
Fixpoint replace_go (old new : string) (skip : nat) (s : string) : string :=
  match s with
  | EmptyString => EmptyString
  | String c r =>
      match skip with
      | S k => replace_go old new k r
      | O =>
          if String.prefix old s
          then new ++ replace_go old new (String.length old - 1) r
          else String c (replace_go old new 0 r)
      end
  end.

(** With an empty [old], Python puts [new] before every character and at
    the end. *)
Fixpoint interleave (new : string) (s : string) : string :=
  match s with
  | EmptyString => new
  | String c r => new ++ String c (interleave new r)
  end.

Definition str_replace (s old new : string) : string :=
  match old with
  | EmptyString => interleave new s
  | _ => replace_go old new 0 s
  end.

(** [posixpath.join(a, b)] *)
Definition path_join (a b : string) : string :=
  if startswith b "/" then b
  else match a with
       | EmptyString => b
       | _ => if endswith_char a slash then a ++ b else a ++ "/" ++ b
       end.

(** [posixpath.basename(p)]: what follows the last slash. *)
Fixpoint basename (p : string) : string :=
  match p with
  | EmptyString => EmptyString
  | String c r =>
      if existsb (Ascii.eqb slash) (list_ascii_of_string r) then basename r
      else if Ascii.eqb c slash then r else p
  end.

(** [bytes.decode()]: strict UTF-8.  The decoder accepts exactly the
    well-formed sequences: no stray continuation byte, no overlong form,
    no surrogate, nothing above U+10FFFF, no truncated sequence. *)
Definition is_cont (b : N) : bool := ((128 <=? b) && (b <=? 191))%N.

Fixpoint utf8_ok (l : list N) : bool :=
  match l with
  | [] => true
  | b0 :: r =>
      if (b0 <? 128)%N then utf8_ok r
      else if (b0 <? 194)%N then false
      else if (b0 <? 224)%N then
        match r with
        | b1 :: r1 => is_cont b1 && utf8_ok r1
        | _ => false
        end
      else if (b0 <? 240)%N then
        match r with
        | b1 :: b2 :: r2 =>
            is_cont b1 && is_cont b2
            && (if (b0 =? 224)%N then (160 <=? b1)%N else true)
            && (if (b0 =? 237)%N then (b1 <=? 159)%N else true)
            && utf8_ok r2
        | _ => false
        end
      else if (b0 <? 245)%N then
        match r with
        | b1 :: b2 :: b3 :: r3 =>
            is_cont b1 && is_cont b2 && is_cont b3
            && (if (b0 =? 240)%N then (144 <=? b1)%N else true)
            && (if (b0 =? 244)%N then (b1 <=? 143)%N else true)
            && utf8_ok r3
        | _ => false
        end
      else false
  end.

Definition bytes_decode (b : string) : result string :=
  if utf8_ok (map N_of_ascii (list_ascii_of_string b)) then Ok b
  else Raise UnicodeDecodeError.

(** ** Floats *)

Definition float := spec_float.

(** [float(n)] for an [int]: the nearest binary64, ties to even;
    [OverflowError] beyond the largest finite value. *)
Definition float_of_int (z : Z) : result float :=
  match binary_normalize 53 1024 z 0 false with
  | S754_infinity _ => Raise OverflowError
  | f => Ok f
  end.


(** [float(s)] for a [str] or [bytes]: the numeral grammar of Python's
    parser is not reproduced; whoever runs the model supplies it
    ([parse_float] of the [World] below).  [float(x)] for the other
    values: *)
Definition py_float (parse : string -> option float) (v : pyval) : result float :=
  match v with
  | PFloat f | PDSfloat f => Ok f
  | PInt z => float_of_int z
  | PBool b => float_of_int (if b then 1 else 0)
  | PStr s | PBytes s =>
      match parse s with
      | Some f => Ok f
      | None => Raise (ValueError "could not convert string to float")
      end
  | PNone | PMultiValue _ | PList _ | PDict _ | POther _ => Raise TypeError
  end.

(** [f == z] for a float and an int: Python compares the exact values. *)
Definition float_eq_int (f : float) (z : Z) : bool :=
  match f with
  | S754_zero _ => (z =? 0)%Z
  | S754_finite s m e =>
      let sgn (x : Z) := if s then (- x)%Z else x in
      if (0 <=? e)%Z then (z =? sgn (Z.pos m * 2 ^ e))%Z
      else ((Z.pos m mod 2 ^ (- e) =? 0) && (z =? sgn (Z.pos m / 2 ^ (- e))))%Z
  | S754_infinity _ | S754_nan => false
  end.

Inductive num : Type :=
| NInt (z : Z)
| NFloat (f : float).

Definition as_num (v : pyval) : option num :=
  match v with
  | PBool b => Some (NInt (if b then 1 else 0))
  | PInt z => Some (NInt z)
  | PFloat f | PDSfloat f => Some (NFloat f)
  | _ => None
  end.

Definition num_eqb (a b : num) : bool :=
  match a, b with
  | NInt x, NInt y => (x =? y)%Z
  | NFloat f, NFloat g => SFeqb f g
  | NInt x, NFloat f | NFloat f, NInt x => float_eq_int f x
  end.

(** [a == b] on the hashable values (the unhashable ones never reach a
    comparison in the modelled code: building the set raises first).
    Numbers compare by value across [bool], [int] and [float]. *)
Definition py_eqb (a b : pyval) : bool :=
  match as_num a, as_num b with
  | Some x, Some y => num_eqb x y
  | None, None =>
      match a, b with
      | PNone, PNone => true
      | PStr s, PStr t => String.eqb s t
      | PBytes s, PBytes t => String.eqb s t
      | POther i, POther j => Nat.eqb i j
      | _, _ => false
      end
  | _, _ => false
  end.

Definition hashable (v : pyval) : bool :=
  match v with
  | PMultiValue _ | PList _ | PDict _ => false
  | _ => true
  end.

(** ** Dictionaries *)

Section Dict.
Context {V : Type}.

Fixpoint dict_get (d : list (string * V)) (k : string) : option V :=
  match d with
  | [] => None
  | (k', v) :: r => if String.eqb k' k then Some v else dict_get r k
  end.

(** [d[k] = v]: an existing key keeps its place. *)
Fixpoint dict_set (d : list (string * V)) (k : string) (v : V)
  : list (string * V) :=
  match d with
  | [] => [(k, v)]
  | (k', v') :: r =>
      if String.eqb k' k then (k', v) :: r else (k', v') :: dict_set r k v
  end.

Definition dict_mem (d : list (string * V)) (k : string) : bool :=
  match dict_get d k with Some _ => true | None => false end.

Definition dict_keys (d : list (string * V)) : list string := map fst d.

(** [{k: f(k) for k in keys}] *)
Fixpoint dict_comp (f : string -> result V) (keys : list string)
         (acc : list (string * V)) : result (list (string * V)) :=
  match keys with
  | [] => Ok acc
  | k :: r =>
      let* v := f k in
      dict_comp f r (dict_set acc k v)
  end.

(** [d.update(e)] *)
Definition dict_update (d e : list (string * V)) : list (string * V) :=
  fold_left (fun acc kv => dict_set acc (fst kv) (snd kv)) e d.
End Dict.

(** [v[k]] with a [str] key: everything but a dict raises [TypeError]. *)
Definition py_getitem (v : pyval) (k : string) : result pyval :=
  match v with
  | PDict d =>
      match dict_get d k with
      | Some x => Ok x
      | None => Raise (KeyError k)
      end
  | _ => Raise TypeError
  end.

(** [v[k] = x] with a [str] key; the updated container is returned. *)
Definition py_setitem (v : pyval) (k : string) (x : pyval) : result pyval :=
  match v with
  | PDict d => Ok (PDict (dict_set d k x))
  | _ => Raise TypeError
  end.

(** [k in v] for a dict [v].  (In the modelled code only dicts stand on
    the right of [in].) *)
Definition py_contains (k : string) (v : pyval) : result bool :=
  match v with
  | PDict d => Ok (dict_mem d k)
  | _ => Raise TypeError
  end.

(** [v.keys()] *)
Definition py_keys (v : pyval) : result (list string) :=
  match v with
  | PDict d => Ok (dict_keys d)
  | _ => Raise (AttributeError "keys")
  end.

(** [len(v)]; a [str] counts code points, that is the bytes of its
    encoding that are not continuation bytes. *)
Definition py_len (v : pyval) : result nat :=
  match v with
  | PStr s =>
      Ok (List.length
            (filter (fun a => negb (is_cont (N_of_ascii a)))
                    (list_ascii_of_string s)))
  | PBytes b => Ok (String.length b)
  | PMultiValue l | PList l => Ok (List.length l)
  | PDict d => Ok (List.length d)
  | PNone | PBool _ | PInt _ | PFloat _ | PDSfloat _ | POther _ =>
      Raise TypeError
  end.

(** ** Sets

    A set is kept as the list of its distinct elements.  The order in
    which Python iterates over it is unspecified; [set_order] of the
    [World] decides it. *)
Section Sets.
Context {A : Type} (eqb : A -> A -> bool).

Fixpoint set_add (s : list A) (x : A) : list A :=
  match s with
  | [] => [x]
  | y :: r => if eqb y x then s else y :: set_add r x
  end.

Definition set_of_list (l : list A) : list A :=
  fold_left set_add l [].

Definition set_difference (s t : list A) : list A :=
  filter (fun x => negb (existsb (fun y => eqb y x) t)) s.
End Sets.

(** ** The outside world *)

(** A directory: its files and its sub-directories, as [os.scandir] lists
    them. *)
Inductive dirtree : Type :=
| Dir (files : list string) (subdirs : list (string * dirtree)).

(** [os.walk(top)], top-down. *)
Fixpoint os_walk (top : string) (t : dirtree)
  : list (string * list string * list string) :=
  match t with
  | Dir files subs =>
      (top, map fst subs, files)
      :: (fix go (l : list (string * dirtree)) :=
            match l with
            | [] => []
            | (n, t') :: r => os_walk (path_join top n) t' ++ go r
            end) subs
  end.

(** What [pydicom.read_file] returns.  The three identifiers used as
    dictionary keys are UI elements, whose value is a UID string; every
    other element is in [elements], by keyword. *)
Record Dataset : Type := mkDataset {
  file_meta : list (string * pyval);
  StudyInstanceUID : option string;
  SeriesInstanceUID : option string;
  SOPInstanceUID : option string;
  elements : list (string * pyval)
}.

Definition uid_keyword (k : string) : bool :=
  String.eqb k "StudyInstanceUID" || String.eqb k "SeriesInstanceUID"
  || String.eqb k "SOPInstanceUID".

(** The value of the element with keyword [k], if the dataset has it. *)
Definition dcm_lookup (dcm : Dataset) (k : string) : option pyval :=
  if String.eqb k "StudyInstanceUID" then option_map PStr (StudyInstanceUID dcm)
  else if String.eqb k "SeriesInstanceUID" then option_map PStr (SeriesInstanceUID dcm)
  else if String.eqb k "SOPInstanceUID" then option_map PStr (SOPInstanceUID dcm)
  else dict_get (elements dcm) k.

(** [k in dcm], [hasattr(dcm, k)] *)
Definition dcm_has (dcm : Dataset) (k : string) : bool :=
  match dcm_lookup dcm k with Some _ => true | None => false end.

(** [dcm.k], [getattr(dcm, k)] *)
Definition dcm_getattr (dcm : Dataset) (k : string) : result pyval :=
  match dcm_lookup dcm k with
  | Some v => Ok v
  | None => Raise (AttributeError k)
  end.

Definition dcm_uid (field : Dataset -> option string) (name : string)
           (dcm : Dataset) : result string :=
  match field dcm with
  | Some u => Ok u
  | None => Raise (AttributeError name)
  end.

Definition opt_count {A : Type} (o : option A) : nat :=
  match o with Some _ => 1 | None => 0 end.

(** [len(dcm)]: the number of data elements (the file meta group is not
    counted). *)
Definition dcm_len (dcm : Dataset) : nat :=
  opt_count (StudyInstanceUID dcm) + opt_count (SeriesInstanceUID dcm)
  + opt_count (SOPInstanceUID dcm)
  + List.length
      (set_of_list String.eqb
         (filter (fun k => negb (uid_keyword k)) (dict_keys (elements dcm)))).

Record World : Type := mkWorld {
  (** the directory found at a path, if the path is a directory *)
  dir_at : string -> option dirtree;
  (** [pydicom.read_file(path, force=...)] *)
  read_file : string -> bool -> result Dataset;
  (** [float(s)] on a string *)
  parse_float : string -> option float;
  (** the iteration order of a set with these elements *)
  set_order : forall A : Type, list A -> list A
}.

(** [os.path.isdir(p)] *)
Definition isdir (w : World) (p : string) : bool :=
  match dir_at w p with Some _ => true | None => false end.

(** The loop that opens both [from_folder]s and [scan]:
    [for root, subFolders, files in os.walk(folder):
         if len(files) > 0: all_files += [os.path.join(root, f) for f in files]] *)
Definition walk_files (w : World) (folder : string) : list string :=
  match dir_at w folder with
  | Some t =>
      flat_map (fun '(root, _, files) => map (path_join root) files)
               (os_walk folder t)
  | None => []
  end.

(** What is printed on standard output, one entry per [print], with the
    values that go into the text. *)
Inductive event : Type :=
| PrintCount (n : nat)
| PrintCannotOpen (f : string)
| PrintFound (n : nat) (folder : string)
| PrintStudy (uid : string)
| PrintNewSeries (uid : string) (desc : pyval).

(** ** dicom_ext.read_dicom *)

Definition ImplicitVRLittleEndian : pyval := PStr "1.2.840.10008.1.2".

Definition set_file_meta (dcm : Dataset) (k : string) (v : pyval) : Dataset :=
  mkDataset (dict_set (file_meta dcm) k v) (StudyInstanceUID dcm)
            (SeriesInstanceUID dcm) (SOPInstanceUID dcm) (elements dcm).

Definition read_dicom (w : World) (dcm_file : string) : result (option Dataset) :=
  let* dcm := read_file w dcm_file true in
  let dcm :=
    if negb (dict_mem (file_meta dcm) "TransferSyntaxUID")
    then set_file_meta dcm "TransferSyntaxUID" ImplicitVRLittleEndian
    else dcm in
  if (dcm_len dcm <=? 1)%nat then Ok None else Ok (Some dcm).

(** ** Computations with effects

    A computation of [St S A] receives a state and returns its result
    with the state it leaves, also when it ends by raising.  For
    [M] the state is what has been printed so far; for [IO] it is the
    files on disk. *)

Definition St (S A : Type) : Type := S -> result A * S.

Definition mret {S A : Type} (a : A) : St S A := fun s => (Ok a, s).

Definition mbind {S A B : Type} (m : St S A) (k : A -> St S B) : St S B :=
  fun s =>
    match m s with
    | (Ok a, s') => k a s'
    | (Raise e, s') => (Raise e, s')
    end.

Definition lift {S A : Type} (r : result A) : St S A := fun s => (r, s).

Notation "x <- m ;; k" := (mbind m (fun x => k))
  (at level 61, m at next level, right associativity) : py_scope.
Notation "' p <- m ;; k" := (mbind m (fun p => k))
  (at level 61, p pattern, m at next level, right associativity) : py_scope.

Definition M (A : Type) : Type := St (list event) A.

Definition print (e : event) : M unit := fun out => (Ok tt, out ++ [e]).

(** [assert cond, msg] *)
Definition assert (cond : bool) (msg : pyval) : result unit :=
  if cond then Ok tt else Raise (AssertionError msg).

(** ** The json module and the files it writes

    The text of a JSON file is not modelled, only the value it denotes:
    [json.dump] turns a Python value into that value or raises
    [TypeError], [json.load] turns it back. *)

Inductive json : Type :=
| JNull
| JBool (b : bool)
| JString (s : string)
| JInt (z : Z)
| JReal (f : float)
| JArray (l : list json)
| JObject (m : list (string * json)).

Fixpoint json_dump (v : pyval) : result json :=
  match v with
  | PNone => Ok JNull
  | PBool b => Ok (JBool b)
  | PStr s => Ok (JString s)
  | PInt z => Ok (JInt z)
  | PFloat f | PDSfloat f => Ok (JReal f)
  | PList l =>
      let* js :=
        (fix go (l : list pyval) : result (list json) :=
           match l with
           | [] => Ok []
           | x :: r =>
               let* j := json_dump x in
               let* js := go r in
               Ok (j :: js)
           end) l in
      Ok (JArray js)
  | PDict d =>
      let* m :=
        (fix go (d : list (string * pyval)) : result (list (string * json)) :=
           match d with
           | [] => Ok []
           | (k, x) :: r =>
               let* j := json_dump x in
               let* m := go r in
               Ok ((k, j) :: m)
           end) d in
      Ok (JObject m)
  | PBytes _ | PMultiValue _ | POther _ => Raise TypeError
  end.

(** An object becomes a dict by setting its members in order, so of a
    repeated name the last value stays. *)
Fixpoint json_load (j : json) : pyval :=
  match j with
  | JNull => PNone
  | JBool b => PBool b
  | JString s => PStr s
  | JInt z => PInt z
  | JReal f => PFloat f
  | JArray l => PList (map json_load l)
  | JObject m =>
      PDict
        ((fix go (m : list (string * json)) (acc : list (string * pyval)) :=
            match m with
            | [] => acc
            | (k, x) :: r => go r (dict_set acc k (json_load x))
            end) m [])
  end.

(** What a file holds: bytes that are not text in the encoding [open]
    assumes, text that is not a JSON document (an empty or half-written
    file), or a JSON document. *)
Inductive filedata : Type :=
| NotText
| NotJSON
| Document (j : json).

(** The files on disk: for each path that is a file, what it holds; the
    paths [open] refuses, each with the exception it raises for it
    ([IsADirectoryError] for a directory, [FileNotFoundError] for a path
    whose folder is missing, [PermissionError] for a file or a folder the
    user may not use); and the log of the calls of [open] that returned.
    A refusal is a matter of the path: a file that may be written but not
    read is outside the model. *)
Record FileStore : Type := mkStore {
  contents : list (string * filedata);
  refused : list (string * exn);
  opened : list (string * string)
}.

Definition IO (A : Type) : Type := St FileStore A.

(** [open(filename, 'w')] creates the file or empties it, unless the
    path is refused: then nothing is touched. *)
Definition open_w (filename : string) : IO unit :=
  fun st =>
    match dict_get (refused st) filename with
    | Some e => (Raise e, st)
    | None =>
        (Ok tt, mkStore (dict_set (contents st) filename NotJSON)
                        (refused st)
                        (opened st ++ [(filename, "w")]))
    end.

(** [open(filename, 'r')] *)
Definition open_r (filename : string) : IO unit :=
  fun st =>
    match dict_get (refused st) filename with
    | Some e => (Raise e, st)
    | None =>
        match dict_get (contents st) filename with
        | Some _ =>
            (Ok tt, mkStore (contents st) (refused st)
                            (opened st ++ [(filename, "r")]))
        | None => (Raise (FileNotFoundError filename), st)
        end
    end.

(** [json.dump(obj, f)] on the file just opened for writing; when the
    encoder raises, what it has written so far stays in the file. *)
Definition json_dump_to (filename : string) (obj : pyval) : IO unit :=
  fun st =>
    match json_dump obj with
    | Ok j =>
        (Ok tt, mkStore (dict_set (contents st) filename (Document j))
                        (refused st) (opened st))
    | Raise e => (Raise e, st)
    end.

(** [json.load(f)] on the file just opened for reading: [f.read()]
    decodes the bytes, then the text is parsed. *)
Definition json_load_from (filename : string) : IO pyval :=
  fun st =>
    match dict_get (contents st) filename with
    | Some (Document j) => (Ok (json_load j), st)
    | Some NotText => (Raise UnicodeDecodeError, st)
    | Some NotJSON | None => (Raise JSONDecodeError, st)
    end.

(** ** modules/pycmr/cmrdir.py *)

Module CMRDir.

Definition STUDY_TAGS : list string :=
  ["StudyInstanceUID"; "StudyDescription"; "StudyDate"; "StudyTime";
   "PatientID"; "Manufacturer"].

Definition SERIES_TAGS : list string :=
  ["SeriesInstanceUID"; "SeriesDescription"; "ProtocolName"; "SequenceName"].

Definition INSTANCE_TAGS : list string :=
  ["SOPInstanceUID"; "AcquisitionTime"; "Rows"; "Columns"; "TriggerTime";
   "SliceLocation"; "SliceThickness"; "PixelRepresentation"; "PixelSpacing";
   "ImageOrientation"; "ImageOrientationPatient"; "ImagePosition";
   "ImagePositionPatient"].

Record t : Type := mk {
  source : pyval;
  studyName : pyval;
  dicomDir : pyval
}.

(** [__init__] *)
Definition init (study_name : pyval) : t := mk (PStr "") study_name (PDict []).

Definition get_tag (w : World) (dcm : Dataset) (tagName : string) : result pyval :=
  if dcm_has dcm tagName then
    match dcm_lookup dcm tagName with
    | Some (PBytes b) =>
        let* s := bytes_decode b in
        Ok (PList (map PStr (str_split backslash s)))
    | Some (PMultiValue l) =>
        let* fs := mapM (py_float (parse_float w)) l in
        Ok (PList (map PFloat fs))
    | Some (PDSfloat f) => Ok (PFloat f)
    | Some val => Ok val
    | None => Ok PNone        (* [Dataset.get] of a missing keyword *)
    end
  else Ok PNone.

(** The body of the loop of [from_folder] for a file read as [dcm]. *)
Definition add_file (w : World) (dicomFolder f : string) (dcm : Dataset)
           (dir : pyval) : result pyval :=
  (* add study *)
  let* studyIUID := dcm_uid StudyInstanceUID "StudyInstanceUID" dcm in
  let* known := py_contains studyIUID dir in
  let* dir :=
    if negb known then
      let* tags := dict_comp (get_tag w dcm) STUDY_TAGS [] in
      py_setitem dir studyIUID (PDict tags)
    else Ok dir in
  (* add series *)
  let* seriesIUID := dcm_uid SeriesInstanceUID "SeriesInstanceUID" dcm in
  let* study := py_getitem dir studyIUID in
  let* known := py_contains seriesIUID study in
  let* study :=
    if negb known then
      let* tags := dict_comp (get_tag w dcm) SERIES_TAGS [] in
      py_setitem study seriesIUID (PDict tags)
    else Ok study in
  (* add new instance *)
  let* newInstance := dict_comp (get_tag w dcm) INSTANCE_TAGS [] in
  let newInstance :=
    dict_set newInstance "Filename"
             (PStr (str_replace f (path_join dicomFolder "") "")) in
  let* series := py_getitem study seriesIUID in
  let* sop := dcm_uid SOPInstanceUID "SOPInstanceUID" dcm in
  let* series := py_setitem series sop (PDict newInstance) in
  let* study := py_setitem study seriesIUID series in
  py_setitem dir studyIUID study.

(** [for f in allFiles: ...], with what has been printed so far. *)
Fixpoint add_files (w : World) (dicomFolder : string) (quiet : bool)
         (allFiles : list string) (dir : pyval) (out : list event)
  : result pyval * list event :=
  match allFiles with
  | [] => (Ok dir, out)
  | f :: rest =>
      match read_dicom w f with
      | Raise e => (Raise e, out)
      | Ok None =>
          add_files w dicomFolder quiet rest dir
                    (if quiet then out else out ++ [PrintCannotOpen f])
      | Ok (Some dcm) =>
          match add_file w dicomFolder f dcm dir with
          | Raise e => (Raise e, out)
          | Ok dir' => add_files w dicomFolder quiet rest dir' out
          end
      end
  end.

(** [studyName] is [PNone] when the argument is left out. *)
Definition from_folder (w : World) (dicomFolder : string) (studyName : pyval)
           (quiet : bool) : result t * list event :=
  if negb (isdir w dicomFolder) then (Raise (ValueError "Not a folder"), [])
  else
    let D :=
      match studyName with
      | PNone => init (PStr (basename dicomFolder))
      | _ => init studyName
      end in
    let allFiles := walk_files w dicomFolder in
    match add_files w dicomFolder quiet allFiles (dicomDir D)
                    [PrintCount (List.length allFiles)] with
    | (Ok dir, out) => (Ok (mk (PStr dicomFolder) (CMRDir.studyName D) dir), out)
    | (Raise e, out) => (Raise e, out)
    end.

Definition is_empty (self : t) : result bool :=
  let* n := py_len (dicomDir self) in
  Ok (n =? 0)%nat.

Definition get_study_uids (self : t) : result (list string) :=
  py_keys (dicomDir self).

Definition get_series_uids (w : World) (self : t) (studyUID : string)
  : result (list string) :=
  let* study := py_getitem (dicomDir self) studyUID in
  let* keys := py_keys study in
  Ok (set_order w
        (set_difference String.eqb (set_of_list String.eqb keys)
                        (set_of_list String.eqb STUDY_TAGS))).

Definition get_sop_uids (w : World) (self : t) (studyUID seriesUID : string)
  : result (list string) :=
  let* study := py_getitem (dicomDir self) studyUID in
  let* series := py_getitem study seriesUID in
  let* keys := py_keys series in
  Ok (set_order w
        (set_difference String.eqb (set_of_list String.eqb keys)
                        (set_of_list String.eqb SERIES_TAGS))).

(** [frame] is [PNone] when the argument is left out. *)
Definition get_filenames (w : World) (self : t) (studyUID seriesUID : string)
           (frame : pyval) : result (list pyval) :=
  let* sops := get_sop_uids w self studyUID seriesUID in
  let* files :=
    mapM (fun s =>
            let* study := py_getitem (dicomDir self) studyUID in
            let* series := py_getitem study seriesUID in
            let* inst := py_getitem series s in
            py_getitem inst "Filename") sops in
  match frame with
  | PNone => Ok files
  | _ => Ok files
  end.

Definition get_all_filenames (w : World) (self : t) : result (list pyval) :=
  let* studies := get_study_uids self in
  concatM (fun studyUID =>
     let* sers := get_series_uids w self studyUID in
     concatM (fun seriesUID =>
        let* sops := get_sop_uids w self studyUID seriesUID in
        mapM (fun s =>
                let* study := py_getitem (dicomDir self) studyUID in
                let* series := py_getitem study seriesUID in
                let* inst := py_getitem series s in
                py_getitem inst "Filename") sops) sers) studies.

Definition get_something_from_series (w : World) (self : t)
           (studyUID seriesUID something : string) : result (list pyval) :=
  let* sops := get_sop_uids w self studyUID seriesUID in
  mapM (fun s =>
          let* study := py_getitem (dicomDir self) studyUID in
          let* series := py_getitem study seriesUID in
          let* inst := py_getitem series s in
          py_getitem inst something) sops.

(** [studyUID] is [None] when the argument is left out. *)
Definition get_patient_id (self : t) (studyUID : option string) : result pyval :=
  let* studyUID :=
    match studyUID with
    | Some u => Ok (Some u)
    | None =>
        let* ids := py_keys (dicomDir self) in
        match ids with
        | [] => Ok None
        | u :: _ => Ok (Some u)
        end
    end in
  match studyUID with
  | None => Ok PNone
  | Some u =>
      let* study := py_getitem (dicomDir self) u in
      py_getitem study "PatientID"
  end.

Definition save (self : t) (filename : string) : IO unit :=
  _ <- open_w filename ;;
  json_dump_to filename
    (PDict [("source", source self); ("studyName", studyName self);
            ("dicomDir", dicomDir self)]).

Definition from_file (filename : string) : IO t :=
  _ <- open_r filename ;;
  D <- json_load_from filename ;;
  name <- lift (py_getitem D "studyName") ;;
  let new_dir := init name in
  src <- lift (py_getitem D "source") ;;
  dir <- lift (py_getitem D "dicomDir") ;;
  mret (mk src (studyName new_dir) dir).

End CMRDir.

(** ** opencmr/pycmr/cmr_study.py *)

(** A class method receives the class; [from_file] hands it back, so the
    objects of the module are the class itself and its instances. *)
Module CMRStudy.

Definition STUDY_TAGS : list string :=
  ["StudyInstanceUID"; "StudyDescription"; "StudyDate"; "StudyTime";
   "PatientID"; "Manufacturer"].

Definition SERIES_TAGS : list string :=
  ["SeriesDescription"; "ProtocolName"; "SequenceName"].

Definition INSTANCE_TAGS : list string :=
  ["AcquisitionTime"; "Rows"; "Columns"; "TriggerTime"; "SliceLocation";
   "SliceThickness"; "PixelRepresentation"; "PixelSpacing";
   "ImageOrientation"; "ImageOrientationPatient"; "ImagePosition";
   "ImagePositionPatient"].

Record t : Type := mk {
  source : pyval;
  study_instance_uid : pyval;
  dcmdir : pyval
}.

Inductive object : Type :=
| Class                         (* the class [CMRStudy] *)
| Instance (self : t).

(** [__init__]; an argument left out is [PNone], except [_source]
    whose default is the empty string. *)
Definition init (_source _study_instance_uid _dcmdir : pyval) : t :=
  let _dcmdir := match _dcmdir with PNone => PDict [] | _ => _dcmdir end in
  mk _source _study_instance_uid _dcmdir.

Definition get_tag (w : World) (dcm : Dataset) (tag_name : string) : result pyval :=
  if dcm_has dcm tag_name then
    match dcm_lookup dcm tag_name with
    | Some (PBytes b) =>
        let* s := bytes_decode b in
        Ok (PList (map PStr (str_split backslash s)))
    | Some (PMultiValue l) =>
        let* fs := mapM (py_float (parse_float w)) l in
        Ok (PList (map PFloat fs))
    | Some (PDSfloat f) => Ok (PFloat f)
    | Some val => Ok val
    | None => Ok PNone
    end
  else Ok PNone.

(** [for t in cls.STUDY_TAGS: dd[t] = cls.get_tag(dcm, t)] *)
Fixpoint set_tags (w : World) (dcm : Dataset) (tags : list string) (dd : pyval)
  : result pyval :=
  match tags with
  | [] => Ok dd
  | tg :: rest =>
      let* v := get_tag w dcm tg in
      let* dd := py_setitem dd tg v in
      set_tags w dcm rest dd
  end.

Definition when (b : bool) (m : M unit) : M unit := if b then m else mret tt.

(** The body of the loop of [from_folder] for a file read as [dcm];
    the state is [(study_iuid, dd)]. *)
Definition add_file (w : World) (folder_name : string) (verbose : bool)
           (f : string) (dcm : Dataset) (st : option string * pyval)
  : M (option string * pyval) :=
  (* add a study *)
  '(study_iuid, dd) <-
    match fst st with
    | None =>
        study_iuid <- lift (dcm_uid StudyInstanceUID "StudyInstanceUID" dcm) ;;
        _ <- when verbose
               (_ <- lift (dcm_getattr dcm "StudyDescription") ;;
                print (PrintStudy study_iuid)) ;;
        dd <- lift (set_tags w dcm STUDY_TAGS (snd st)) ;;
        dd <- lift (py_setitem dd "Series" (PDict [])) ;;
        mret (study_iuid, dd)
    | Some study_iuid => mret (study_iuid, snd st)
    end ;;
  uid <- lift (dcm_uid StudyInstanceUID "StudyInstanceUID" dcm) ;;
  _ <- lift (assert (String.eqb study_iuid uid)
               (PStr "Found 2 StudyInstanceUID. The folder must contain 1 study.")) ;;
  (* add a series *)
  series_iuid <- lift (dcm_uid SeriesInstanceUID "SeriesInstanceUID" dcm) ;;
  all_series <- lift (py_getitem dd "Series") ;;
  known <- lift (py_contains series_iuid all_series) ;;
  all_series <-
    (if negb known then
       tags <- lift (dict_comp (get_tag w dcm) SERIES_TAGS []) ;;
       all_series <- lift (py_setitem all_series series_iuid (PDict tags)) ;;
       series <- lift (py_getitem all_series series_iuid) ;;
       series <- lift (py_setitem series "Instances" (PDict [])) ;;
       all_series <- lift (py_setitem all_series series_iuid series) ;;
       _ <- when verbose
              (desc <- lift (dcm_getattr dcm "SeriesDescription") ;;
               print (PrintNewSeries series_iuid desc)) ;;
       mret all_series
     else mret all_series) ;;
  (* add new instance *)
  sop_iuid <- lift (dcm_uid SOPInstanceUID "SOPInstanceUID" dcm) ;;
  series <- lift (py_getitem all_series series_iuid) ;;
  instances <- lift (py_getitem series "Instances") ;;
  dup <- lift (py_contains sop_iuid instances) ;;
  _ <- lift (assert (negb dup) (PStr "Duplicate SOPInstanceUID is found!!")) ;;
  new_instance <- lift (dict_comp (get_tag w dcm) INSTANCE_TAGS []) ;;
  let new_instance :=
    dict_set new_instance "Filename"
             (PStr (str_replace f (path_join folder_name "") "")) in
  sop <- lift (dcm_uid SOPInstanceUID "SOPInstanceUID" dcm) ;;
  instances <- lift (py_setitem instances sop (PDict new_instance)) ;;
  series <- lift (py_setitem series "Instances" instances) ;;
  all_series <- lift (py_setitem all_series series_iuid series) ;;
  dd <- lift (py_setitem dd "Series" all_series) ;;
  mret (Some study_iuid, dd).

(** [for f in all_files: ...] *)
Fixpoint add_files (w : World) (folder_name : string) (verbose : bool)
         (all_files : list string) (st : option string * pyval)
  : M (option string * pyval) :=
  match all_files with
  | [] => mret st
  | f :: rest =>
      dcm <- lift (read_dicom w f) ;;
      match dcm with
      | None => add_files w folder_name verbose rest st
      | Some dcm =>
          st <- add_file w folder_name verbose f dcm st ;;
          add_files w folder_name verbose rest st
      end
  end.

Definition from_folder (w : World) (folder_name : string) (verbose : bool)
  : M t :=
  if negb (isdir w folder_name)
  then lift (Raise (ValueError (folder_name ++ " is not a folder")))
  else
    let all_files := walk_files w folder_name in
    _ <- when verbose (print (PrintFound (List.length all_files) folder_name)) ;;
    '(study_iuid, dd) <- add_files w folder_name verbose all_files (None, PDict []) ;;
    mret (init (PStr folder_name)
               (match study_iuid with Some u => PStr u | None => PNone end)
               dd).

(** [from_file(cls, file_name)]: [dd = cls; return dd] *)
Definition from_file (cls : object) (file_name : string) : IO object :=
  let dd := cls in
  mret dd.

Definition is_empty (self : t) : result bool :=
  let* n := py_len (dcmdir self) in
  Ok (n =? 0)%nat.

End CMRStudy.

(** ** opencmr/pycmr/dicom_dir.py

    The calls of the logger are left out. *)

Module DicomDir.

Definition SERIES_TAGS : list string :=
  ["SeriesInstanceUID"; "SeriesNumber"; "SeriesDescription"; "ProtocolName";
   "SequenceName"].

Definition STUDY_TAGS : list string :=
  ["StudyInstanceUID"; "StudyDescription"; "PatientID"; "StudyDate";
   "StudyTime"; "Modality"].

Definition IMAGE_TAGS : list string :=
  ["SOPInstanceUID"; "AcquisitionTime"; "Rows"; "Columns"; "TriggerTime";
   "SliceLocation"; "SliceThickness"; "PixelRepresentation"; "PixelSpacing";
   "ImageOrientationPatient"; "ImagePositionPatient";
   "SmallestImagePixelValue"; "LargestImagePixelValue"].

(** The state of an object is its one attribute, [self.dcmdir]. *)
Definition get_self : St pyval pyval := fun dcmdir => (Ok dcmdir, dcmdir).
Definition put_self (dcmdir : pyval) : St pyval unit := fun _ => (Ok tt, dcmdir).

(** [getattr(dcm, tag) if hasattr(dcm, tag) else None] *)
Definition attr_or_none (dcm : Dataset) (tag : string) : pyval :=
  if dcm_has dcm tag then
    match dcm_lookup dcm tag with Some v => v | None => PNone end
  else PNone.

(** [{k: f(k) for k in keys}] when [f] cannot raise. *)
Definition dict_of (f : string -> pyval) (keys : list string)
  : list (string * pyval) :=
  fold_left (fun acc k => dict_set acc k (f k)) keys [].

(** [t[k]] for a dict [t] *)
Definition item (t : list (string * pyval)) (k : string) : result pyval :=
  py_getitem (PDict t) k.

(** [f.replace(root, '')] where [root] is [self.dcmdir['RootFolder']] *)
Definition strip_root (dcmdir : pyval) (f : string) : result string :=
  let* root := py_getitem dcmdir "RootFolder" in
  match root with
  | PStr r => Ok (str_replace f r "")
  | _ => Raise TypeError
  end.

(** The second attempt for the two geometry tags. *)
Fixpoint second_attempt (dcm : Dataset) (pairs : list (string * string))
         (new_tag : list (string * pyval)) : result (list (string * pyval)) :=
  match pairs with
  | [] => Ok new_tag
  | (tag, old_tag) :: rest =>
      let* v := item new_tag tag in
      let new_tag :=
        match v with
        | PNone => dict_set new_tag tag (attr_or_none dcm old_tag)
        | _ => new_tag
        end in
      second_attempt dcm rest new_tag
  end.

(** The tags collected for one file read as [dcm]. *)
Definition make_tag (dcmdir : pyval) (f : string) (dcm : Dataset)
  : result (list (string * pyval)) :=
  let TAGS := SERIES_TAGS ++ STUDY_TAGS ++ IMAGE_TAGS in
  let new_tag := dict_of (attr_or_none dcm) TAGS in
  let* name := strip_root dcmdir f in
  let new_tag := dict_set new_tag "Filename" (PStr name) in
  second_attempt dcm
    [("ImageOrientationPatient", "ImageOrientation");
     ("ImagePositionPatient", "ImagePosition")] new_tag.

(** [for f in all_files: ...; all_tags.append(new_tag)] *)
Fixpoint collect (w : World) (dcmdir : pyval) (all_files : list string)
  : result (list (list (string * pyval))) :=
  match all_files with
  | [] => Ok []
  | f :: rest =>
      let* dcm := read_dicom w f in
      match dcm with
      | None =>
          (* the debug message is formatted, whether logged or not *)
          let* _ := strip_root dcmdir f in
          collect w dcmdir rest
      | Some dcm =>
          let* new_tag := make_tag dcmdir f dcm in
          let* all_tags := collect w dcmdir rest in
          Ok (new_tag :: all_tags)
      end
  end.

(** [set(l)] *)
Definition py_set (l : list pyval) : result (list pyval) :=
  if forallb hashable l then Ok (set_of_list py_eqb l) else Raise TypeError.

Definition pair_eqb (a b : pyval * pyval) : bool :=
  py_eqb (fst a) (fst b) && py_eqb (snd a) (snd b).

Definition py_set_pairs (l : list (pyval * pyval)) : result (list (pyval * pyval)) :=
  if forallb (fun p => hashable (fst p) && hashable (snd p)) l
  then Ok (set_of_list pair_eqb l) else Raise TypeError.

(** [t['SeriesInstanceUID'] == ser_uid and t['SeriesNumber'] == ser_num] *)
Definition in_series (ser_uid ser_num : pyval) (t : list (string * pyval))
  : result bool :=
  let* u := item t "SeriesInstanceUID" in
  if py_eqb u ser_uid then
    let* n := item t "SeriesNumber" in
    Ok (py_eqb n ser_num)
  else Ok false.

Fixpoint filterM {A : Type} (p : A -> result bool) (l : list A) : result (list A) :=
  match l with
  | [] => Ok []
  | x :: r =>
      let* b := p x in
      let* r' := filterM p r in
      Ok (if b then x :: r' else r')
  end.

(** [{k: t[k] for k in keys}] *)
Definition restrict (t : list (string * pyval)) (keys : list string)
  : result (list (string * pyval)) :=
  dict_comp (item t) keys [].

(** The body of [for ser_uid, ser_num in series: ...] *)
Definition add_series (all_tags : list (list (string * pyval)))
           (ser : pyval * pyval) : St pyval unit :=
  ser_items <- lift (filterM (in_series (fst ser) (snd ser)) all_tags) ;;
  first <- lift (match ser_items with
                 | t :: _ => Ok t
                 | [] => Raise IndexError
                 end) ;;
  new_series <- lift (restrict first SERIES_TAGS) ;;
  images <- lift (mapM (fun ss => let* d := restrict ss ("Filename" :: IMAGE_TAGS) in
                                  Ok (PDict d)) ser_items) ;;
  let new_series := dict_set new_series "Images" (PList images) in
  dcmdir <- get_self ;;
  all_series <- lift (py_getitem dcmdir "Series") ;;
  all_series <- lift (match all_series with
                      | PList l => Ok (PList (l ++ [PDict new_series]))
                      | _ => Raise (AttributeError "append")
                      end) ;;
  dcmdir <- lift (py_setitem dcmdir "Series" all_series) ;;
  put_self dcmdir.

Fixpoint for_each {S A : Type} (body : A -> St S unit) (l : list A) : St S unit :=
  match l with
  | [] => mret tt
  | x :: r => _ <- body x ;; for_each body r
  end.

(** [scan(self, folder=None)] *)
Definition scan (w : World) (folder : option string) : St pyval unit :=
  folder <- match folder with
            | Some f => mret f
            | None =>
                dcmdir <- get_self ;;
                root <- lift (py_getitem dcmdir "RootFolder") ;;
                lift (match root with PStr r => Ok r | _ => Raise TypeError end)
            end ;;
  (* generate all files from the given folder *)
  let all_files := walk_files w folder in
  (* collect necessary tags for all files *)
  dcmdir <- get_self ;;
  all_tags <- lift (collect w dcmdir all_files) ;;
  (* we can check now if there are multiple studies / patients *)
  uids <- lift (mapM (fun t => item t "StudyInstanceUID") all_tags) ;;
  studies <- lift (py_set uids) ;;
  _ <- lift (assert (List.length studies =? 1)%nat PNone) ;;
  ids <- lift (mapM (fun t => item t "PatientID") all_tags) ;;
  patients <- lift (py_set ids) ;;
  _ <- lift (assert (List.length patients =? 1)%nat PNone) ;;
  (* build the dicom directory *)
  dcmdir <- lift (py_setitem dcmdir "RootFolder" (PStr folder)) ;;
  _ <- put_self dcmdir ;;
  first <- lift (match all_tags with
                 | t :: _ => Ok t
                 | [] => Raise IndexError
                 end) ;;
  study <- lift (restrict first STUDY_TAGS) ;;
  dcmdir <- lift (match dcmdir with
                  | PDict d => Ok (PDict (dict_update d study))
                  | _ => Raise (AttributeError "update")
                  end) ;;
  _ <- put_self dcmdir ;;
  dcmdir <- lift (py_setitem dcmdir "Series" (PList [])) ;;
  _ <- put_self dcmdir ;;
  (* scan series: identify with couple of (SeriesInstanceUID, SeriesNumber) *)
  keys <- lift (mapM (fun t => let* u := item t "SeriesInstanceUID" in
                               let* n := item t "SeriesNumber" in
                               Ok (u, n)) all_tags) ;;
  series <- lift (py_set_pairs keys) ;;
  for_each (add_series all_tags) (set_order w series).

Record t : Type := mk { dcmdir : pyval }.

(** [__init__(self, folder)]: the object exists only if [scan] returns. *)
Definition init (w : World) (folder : string) : result t :=
  let* _ := assert (isdir w folder) PNone in
  match scan w None (PDict [("RootFolder", PStr folder)]) with
  | (Ok _, dcmdir) => Ok (mk dcmdir)
  | (Raise e, _) => Raise e
  end.

End DicomDir.

(** ** Predicates used by the statements *)

(** The values [get_tag] hands on as they are: every type but the three
    it converts. *)
Definition passes_through (v : pyval) : Prop :=
  match v with
  | PBytes _ | PMultiValue _ | PDSfloat _ => False
  | _ => True
  end.

Definition has_char (c : ascii) (s : string) : bool :=
  existsb (Ascii.eqb c) (list_ascii_of_string s).

Definition utf8_bytes (b : string) : bool :=
  utf8_ok (map N_of_ascii (list_ascii_of_string b)).

(** The record [read_dicom] returns for a file that [read_file] decodes
    as [dcm]: the same elements, and a transfer syntax in any case. *)
Definition same_elements (a b : Dataset) : Prop :=
  StudyInstanceUID a = StudyInstanceUID b
  /\ SeriesInstanceUID a = SeriesInstanceUID b
  /\ SOPInstanceUID a = SOPInstanceUID b
  /\ elements a = elements b.

(** What [DicomDir.scan] keeps under a Patient-qualified geometry tag:
    the value of that tag, or else the value of the unqualified one. *)
Definition stored_geometry (dcm : Dataset) (qualified unqualified : string) : pyval :=
  match DicomDir.attr_or_none dcm qualified with
  | PNone => DicomDir.attr_or_none dcm unqualified
  | v => v
  end.

(** The iteration order of a set leaves no element out. *)
Definition set_order_complete (w : World) : Prop :=
  forall (A : Type) (l : list A) (x : A), In x l -> In x (set_order w l).

(** [image] is the entry of the file whose tags are [t]: the file name
    and the image tags of [t]. *)
Definition image_of (t image : list (string * pyval)) : Prop :=
  DicomDir.restrict t ("Filename" :: DicomDir.IMAGE_TAGS) = Ok image.

(** The key under which [DicomDir.scan] groups the tags of a file. *)
Definition series_key (t : list (string * pyval)) : result (pyval * pyval) :=
  let* u := DicomDir.item t "SeriesInstanceUID" in
  let* n := DicomDir.item t "SeriesNumber" in
  Ok (u, n).

(** No file under [folder] is recognized by [read_dicom]. *)
Definition no_image (w : World) (folder : string) : Prop :=
  forall f, In f (walk_files w folder) -> read_dicom w f = Ok None.

(** The study dictionary [dd] of [CMRStudy.from_folder] holds an instance
    [sop] under the series [series]. *)
Definition has_instance (dd : pyval) (series sop : string) : Prop :=
  exists all_series ser instances,
    py_getitem dd "Series" = Ok all_series
    /\ py_getitem all_series series = Ok ser
    /\ py_getitem ser "Instances" = Ok instances
    /\ py_contains sop instances = Ok true.

(** *** Paths *)

(** A name as a directory lists it: not empty, no separator in it. *)
Definition plain_name (n : string) : Prop :=
  n <> EmptyString /\ has_char slash n = false.

Fixpoint well_named (t : dirtree) : Prop :=
  match t with
  | Dir files subs =>
      Forall plain_name files
      /\ (fix all (l : list (string * dirtree)) : Prop :=
            match l with
            | [] => True
            | (n, t') :: r => plain_name n /\ well_named t' /\ all r
            end) subs
  end.

(** The paths of the files of a directory, relative to it. *)
Fixpoint relative_files (t : dirtree) : list string :=
  match t with
  | Dir files subs =>
      files
      ++ (fix go (l : list (string * dirtree)) : list string :=
            match l with
            | [] => []
            | (n, t') :: r =>
                map (fun p => (n ++ "/" ++ p)%string) (relative_files t') ++ go r
            end) subs
  end.

(** [old] occurs in [s]. *)
Definition occurs (old s : string) : Prop :=
  exists a b, s = (a ++ old ++ b)%string.

(** Induction on a directory that reaches its sub-directories. *)
Section DirtreeInd.
Variable P : dirtree -> Prop.
Hypothesis HDir :
  forall files subs, Forall (fun nt => P (snd nt)) subs -> P (Dir files subs).

Fixpoint dirtree_deep_ind (t : dirtree) : P t :=
  match t with
  | Dir files subs =>
      HDir files
           ((fix all (l : list (string * dirtree))
               : Forall (fun nt => P (snd nt)) l :=
               match l with
               | [] => Forall_nil _
               | nt :: r =>
                   Forall_cons (P := fun nt => P (snd nt)) nt
                               (dirtree_deep_ind (snd nt)) (all r)
               end) subs)
  end.
End DirtreeInd.

(** An association list stands for a dict when no key occurs twice; the
    same must hold of the dicts inside it. *)
Fixpoint unique_keys (v : pyval) : Prop :=
  match v with
  | PMultiValue l | PList l =>
      (fix all (l : list pyval) : Prop :=
         match l with
         | [] => True
         | x :: r => unique_keys x /\ all r
         end) l
  | PDict d =>
      NoDup (map fst d)
      /\ (fix all (d : list (string * pyval)) : Prop :=
            match d with
            | [] => True
            | (_, x) :: r => unique_keys x /\ all r
            end) d
  | _ => True
  end.

(** Deep equality: the same tree, the same keys in the same order, the
    same values; a [DSfloat] and a [float] count as the same when they
    hold the same number. *)
Definition float_of (v : pyval) : option float :=
  match v with
  | PFloat f | PDSfloat f => Some f
  | _ => None
  end.

Inductive same_value : pyval -> pyval -> Prop :=
| same_none : same_value PNone PNone
| same_bool (b : bool) : same_value (PBool b) (PBool b)
| same_str (s : string) : same_value (PStr s) (PStr s)
| same_int (z : Z) : same_value (PInt z) (PInt z)
| same_float (a b : pyval) (f : float) :
    float_of a = Some f -> float_of b = Some f -> same_value a b
| same_list (l1 l2 : list pyval) :
    Forall2 same_value l1 l2 -> same_value (PList l1) (PList l2)
| same_dict (d1 d2 : list (string * pyval)) :
    Forall2 (fun a b => fst a = fst b /\ same_value (snd a) (snd b)) d1 d2 ->
    same_value (PDict d1) (PDict d2).

Definition same_catalogue (a b : CMRDir.t) : Prop :=
  same_value (CMRDir.source a) (CMRDir.source b)
  /\ same_value (CMRDir.studyName a) (CMRDir.studyName b)
  /\ same_value (CMRDir.dicomDir a) (CMRDir.dicomDir b).

(** Every element value pydicom hands out stands for proper dicts (it
    holds none, in fact). *)
Definition proper_values (w : World) : Prop :=
  forall (p : string) (force : bool) (dcm : Dataset),
    read_file w p force = Ok dcm ->
    Forall (fun kv => unique_keys (snd kv)) (elements dcm).

(** Induction on a value that reaches the values inside lists and dicts. *)
Section PyvalInd.
Variable P : pyval -> Prop.
Hypothesis HNone : P PNone.
Hypothesis HBool : forall b, P (PBool b).
Hypothesis HStr : forall s, P (PStr s).
Hypothesis HInt : forall z, P (PInt z).
Hypothesis HFloat : forall f, P (PFloat f).
Hypothesis HDSfloat : forall f, P (PDSfloat f).
Hypothesis HBytes : forall b, P (PBytes b).
Hypothesis HMulti : forall l, Forall P l -> P (PMultiValue l).
Hypothesis HList : forall l, Forall P l -> P (PList l).
Hypothesis HDict : forall d, Forall (fun kv => P (snd kv)) d -> P (PDict d).
Hypothesis HOther : forall n, P (POther n).

Fixpoint pyval_deep_ind (v : pyval) : P v :=
  match v with
  | PNone => HNone
  | PBool b => HBool b
  | PStr s => HStr s
  | PInt z => HInt z
  | PFloat f => HFloat f
  | PDSfloat f => HDSfloat f
  | PBytes b => HBytes b
  | PMultiValue l =>
      HMulti
        ((fix all (l : list pyval) : Forall P l :=
            match l with
            | [] => Forall_nil P
            | x :: r => Forall_cons x (pyval_deep_ind x) (all r)
            end) l)
  | PList l =>
      HList
        ((fix all (l : list pyval) : Forall P l :=
            match l with
            | [] => Forall_nil P
            | x :: r => Forall_cons x (pyval_deep_ind x) (all r)
            end) l)
  | PDict d =>
      HDict
        ((fix all (d : list (string * pyval))
            : Forall (fun kv => P (snd kv)) d :=
            match d with
            | [] => Forall_nil _
            | kv :: r =>
                Forall_cons (P := fun kv => P (snd kv)) kv
                            (pyval_deep_ind (snd kv)) (all r)
            end) d)
  | POther n => HOther n
  end.
End PyvalInd.

(** [P] holds of the element values of [dcm] that [get_tag] hands on as
    they are. *)
Definition passed (P : pyval -> Prop) (dcm : Dataset) : Prop :=
  forall k x, dict_get (elements dcm) k = Some x -> passes_through x -> P x.

(** [json.dump] can write the value. *)
Definition serializable (v : pyval) : Prop :=
  exists j, json_dump v = Ok j.

(** How [json.dump] writes one member of a dict, and how [json.load]
    reads one member of an object into the dict built so far. *)
Definition dump_member (kv : string * pyval) : result (string * json) :=
  let* j := json_dump (snd kv) in Ok (fst kv, j).

Definition load_member (acc : list (string * pyval)) (kx : string * json)
  : list (string * pyval) :=
  dict_set acc (fst kx) (json_load (snd kx)).

(** [bind_ok H x E]: from [H : (let* x := c in k) = Ok _], the value [x]
    of [c] with [E : c = Ok x]. *)
Tactic Notation "bind_ok" hyp(H) ident(x) ident(E) :=
  match type of H with
  | bind ?c _ = Ok _ =>
      destruct c as [x|] eqn:E; cbn [bind] in H; [|discriminate H]
  end.

(** ** Sample folders *)

(** A file with the three identifiers, the two descriptions that
    [CMRStudy.from_folder] prints, and the elements [els]. *)
Definition image (study series sop : string) (els : list (string * pyval))
  : Dataset :=
  mkDataset [] (Some study) (Some series) (Some sop)
            (("StudyDescription", PStr "Cardiac")
             :: ("SeriesDescription", PStr "cine") :: els).

(** A world with one directory tree at [root], where [read] says how
    pydicom decodes each file; sets are iterated in insertion order. *)
Definition world_of (root : string) (tree : dirtree)
           (read : string -> result Dataset) : World :=
  mkWorld (fun p => if String.eqb p root then Some tree else None)
          (fun p _ => read p)
          (fun _ => None)
          (fun _ l => l).

(** What a forced read makes of a file that is not DICOM: no element. *)
Definition no_dicom : Dataset := mkDataset [] None None None [].

(** [data/a.dcm] and [data/b.dcm] are two images with the same three
    identifiers; they differ in [Rows]. *)
Definition duplicate_world : World :=
  world_of "data" (Dir ["a.dcm"; "b.dcm"] [])
    (fun p =>
       if String.eqb p "data/a.dcm"
       then Ok (image "1.2" "1.2.3" "1.2.3.4" [("Rows", PInt 1)])
       else Ok (image "1.2" "1.2.3" "1.2.3.4" [("Rows", PInt 2)])).

(** Two images of one study and one series whose [PatientID]s differ. *)
Definition two_patients_world : World :=
  world_of "data" (Dir ["a.dcm"; "b.dcm"] [])
    (fun p =>
       if String.eqb p "data/a.dcm"
       then Ok (image "1.2" "1.2.3" "1.2.3.4" [("PatientID", PStr "P1")])
       else Ok (image "1.2" "1.2.3" "1.2.3.5" [("PatientID", PStr "P2")])).

(** A folder without any file, and one with a text file only. *)
Definition empty_world : World :=
  world_of "data" (Dir [] []) (fun p => Raise (FileNotFoundError p)).

Definition text_only_world : World :=
  world_of "data" (Dir ["notes.txt"] []) (fun _ => Ok no_dicom).

(** [scan/rescan/img.dcm]: the name of the sub-folder ends with the name
    of the root. *)
Definition nested_world : World :=
  world_of "scan" (Dir [] [("rescan", Dir ["img.dcm"] [])])
    (fun _ => Ok (image "1.2" "1.2.3" "1.2.3.4" [("Rows", PInt 1)])).

(** [data/a.dcm] alone. *)
Definition single_world : World :=
  world_of "data" (Dir ["a.dcm"] [])
    (fun _ => Ok (image "1.2" "1.2.3" "1.2.3.4" [("Rows", PInt 1)])).

(** One image of a cine series.  It has the unqualified geometry tags
    only: the orientation as six decimal strings, the position as raw
    bytes (an element whose representation pydicom did not know). *)
Definition DS (n : Z) (e : Z) : pyval :=
  PDSfloat (binary_normalize 53 1024 n e false).

Definition cine_image : Dataset :=
  image "1.2" "1.2.3" "1.2.3.4"
        [("PatientID", PStr "P1");
         ("SeriesNumber", PInt 7);
         ("Rows", PInt 256);
         ("Columns", PInt 208);
         ("TriggerTime", DS 25 (-1));
         ("PixelSpacing", PMultiValue [DS 3 (-1); DS 3 (-1)]);
         ("ImageOrientation",
          PMultiValue [DS 1 0; DS 0 0; DS 0 0; DS 0 0; DS 1 0; DS 0 0]);
         ("ImagePosition", PBytes "-120.5\-98\14")].

(** An image with a multi-valued text attribute, and with an element
    that pydicom hands out as raw bytes which are not UTF-8 (the one byte
    255). *)
Definition not_utf8 : string := String (ascii_of_N 255) EmptyString.

Definition typed_image : Dataset :=
  image "1.2" "1.2.3" "1.2.3.4"
        [("ImageType", PMultiValue [PStr "ORIGINAL"; PStr "PRIMARY"]);
         ("ImagePosition", PBytes not_utf8)].

Definition cine_world : World :=
  world_of "data" (Dir ["a.dcm"] []) (fun _ => Ok cine_image).

(** What [read_dicom] returns for the image. *)
Definition cine_record : Dataset :=
  set_file_meta cine_image "TransferSyntaxUID" ImplicitVRLittleEndian.

Definition cine_catalogue : CMRDir.t :=
  Eval vm_compute in
    match fst (CMRDir.from_folder cine_world "data" PNone true) with
    | Ok D => D
    | Raise _ => CMRDir.init PNone
    end.

Definition cine_directory : DicomDir.t :=
  Eval vm_compute in
    match DicomDir.init cine_world "data" with
    | Ok self => self
    | Raise _ => DicomDir.mk PNone
    end.

Definition no_files : FileStore := mkStore [] [] [].

Definition cine_saved : FileStore :=
  Eval vm_compute in snd (CMRDir.save cine_catalogue "cine.json" no_files).


(** ** Predicates of the further properties *)

(** The three identifiers of a record. *)
Definition uids (dcm : Dataset) : option string * option string * option string :=
  (StudyInstanceUID dcm, SeriesInstanceUID dcm, SOPInstanceUID dcm).

(** The files of [files] that [read_dicom] recognizes, in order, each
    with its record. *)
Fixpoint recognized (w : World) (files : list string) : list (string * Dataset) :=
  match files with
  | [] => []
  | f :: rest =>
      match read_dicom w f with
      | Ok (Some dcm) => (f, dcm) :: recognized w rest
      | _ => recognized w rest
      end
  end.

(** The recognized files of a folder, in the order of the walk. *)
Definition scanned (w : World) (folder : string) : list (string * Dataset) :=
  recognized w (walk_files w folder).

(** [dir[study][key]] and [dir[study][series][sop]] *)
Definition study_item (dir : pyval) (study key : string) : result pyval :=
  let* st := py_getitem dir study in
  py_getitem st key.

Definition instance_at (dir : pyval) (study series sop : string) : result pyval :=
  let* st := py_getitem dir study in
  let* se := py_getitem st series in
  py_getitem se sop.

(** The iteration order of a set is an order of its elements. *)
Definition set_order_permutes (w : World) : Prop :=
  forall (A : Type) (l : list A), Permutation l (set_order w l).

(** The values of [field] in the records of [l], where present. *)
Definition uids_of (field : Dataset -> option string) (l : list (string * Dataset))
  : list string :=
  flat_map (fun fd => match field (snd fd) with Some u => [u] | None => [] end) l.

(** The instance [CMRDir.from_folder] builds for the file [f] read as
    [dcm]. *)
Definition instance_of (w : World) (dicomFolder f : string) (dcm : Dataset)
           (inst : list (string * pyval)) : Prop :=
  dict_get inst "Filename"
  = Some (PStr (str_replace f (path_join dicomFolder "") ""))
  /\ (forall tag, In tag CMRDir.INSTANCE_TAGS ->
        exists v, CMRDir.get_tag w dcm tag = Ok v /\ dict_get inst tag = Some v)
  /\ forall k, dict_mem inst k = true ->
       k = "Filename" \/ In k CMRDir.INSTANCE_TAGS.

(** Among the records [l], one of the study [a], of its series [b], with
    the three identifiers [a], [b], [c]. *)
Definition file_of_study (l : list (string * Dataset)) (a : string) : Prop :=
  exists fd, In fd l /\ StudyInstanceUID (snd fd) = Some a.

Definition file_of_series (l : list (string * Dataset)) (a b : string) : Prop :=
  exists fd, In fd l /\ StudyInstanceUID (snd fd) = Some a
             /\ SeriesInstanceUID (snd fd) = Some b.

Definition file_of_instance (l : list (string * Dataset)) (a b c : string) : Prop :=
  exists fd, In fd l /\ uids (snd fd) = (Some a, Some b, Some c).

(** [fd] is the last record of [l] with its three identifiers. *)
Definition last_with (l : list (string * Dataset)) (fd : string * Dataset) : Prop :=
  exists l1 l2,
    l = l1 ++ fd :: l2
    /\ forall fd', In fd' l2 -> uids (snd fd') <> uids (snd fd).

(** What the dict of a series, of a study and the whole catalogue of
    [CMRDir] hold once the records [l] have been added: the tags and one
    key for every series (instance) seen, and under every key that is not
    the name of a tag the series (instance) itself. *)
Definition series_ok (w : World) (dicomFolder : string)
           (l : list (string * Dataset)) (a b : string)
           (ed : list (string * pyval)) : Prop :=
  (forall k, dict_mem ed k = true
             <-> In k CMRDir.SERIES_TAGS \/ file_of_instance l a b k)
  /\ forall c, ~ In c CMRDir.SERIES_TAGS -> dict_mem ed c = true ->
       exists inst fd,
         dict_get ed c = Some (PDict inst)
         /\ last_with l fd
         /\ uids (snd fd) = (Some a, Some b, Some c)
         /\ instance_of w dicomFolder (fst fd) (snd fd) inst.

Definition study_ok (w : World) (dicomFolder : string)
           (l : list (string * Dataset)) (a : string)
           (sd : list (string * pyval)) : Prop :=
  (forall k, dict_mem sd k = true
             <-> In k CMRDir.STUDY_TAGS \/ file_of_series l a k)
  /\ forall b, ~ In b CMRDir.STUDY_TAGS -> dict_mem sd b = true ->
       exists ed,
         dict_get sd b = Some (PDict ed) /\ series_ok w dicomFolder l a b ed.

Definition catalogue_ok (w : World) (dicomFolder : string)
           (l : list (string * Dataset)) (d : list (string * pyval)) : Prop :=
  (forall a, dict_mem d a = true <-> file_of_study l a)
  /\ forall a, dict_mem d a = true ->
       exists sd,
         dict_get d a = Some (PDict sd) /\ study_ok w dicomFolder l a sd.

(** The loop of [CMRDir.from_folder] over the recognized files alone. *)
Fixpoint add_all (w : World) (dicomFolder : string) (l : list (string * Dataset))
         (dir : pyval) : result pyval :=
  match l with
  | [] => Ok dir
  | (f, dcm) :: rest =>
      let* dir := CMRDir.add_file w dicomFolder f dcm dir in
      add_all w dicomFolder rest dir
  end.

(** [v] is what the catalogue of the records [l] holds under [something]
    in the instance with the identifiers [a], [b], [c]: the value in the
    instance of the last record with these identifiers. *)
Definition stored_value (w : World) (dicomFolder : string)
           (l : list (string * Dataset)) (a b something c : string) (v : pyval)
  : Prop :=
  exists fd inst,
    last_with l fd
    /\ uids (snd fd) = (Some a, Some b, Some c)
    /\ instance_of w dicomFolder (fst fd) (snd fd) inst
    /\ dict_get inst something = Some v.

(** The name [CMRDir.from_folder] stores for the file [f]. *)
Definition stored_name (dicomFolder f : string) : pyval :=
  PStr (str_replace f (path_join dicomFolder "") "").

(** A record that the queries of [CMRDir] can reach: its series
    identifier is not the name of a study tag, nor its instance identifier
    the name of a series tag. *)
Definition reachable (dcm : Dataset) : Prop :=
  exists a b c,
    uids dcm = (Some a, Some b, Some c)
    /\ ~ In b CMRDir.STUDY_TAGS /\ ~ In c CMRDir.SERIES_TAGS.

(** *** More sample folders *)

(** [ward] holds two images of the study 1.2 (two series), a text file,
    and in a sub-folder one image of another study and patient. *)
Definition ward_world : World :=
  world_of "ward"
    (Dir ["a.dcm"; "b.dcm"; "notes.txt"] [("sub", Dir ["c.dcm"] [])])
    (fun p =>
       if String.eqb p "ward/a.dcm"
       then Ok (image "1.2" "1.2.3" "1.2.3.4"
                      [("PatientID", PStr "P1"); ("SeriesNumber", PInt 3);
                       ("Rows", PInt 256)])
       else if String.eqb p "ward/b.dcm"
       then Ok (image "1.2" "1.2.9" "1.2.9.1"
                      [("PatientID", PStr "P1"); ("SeriesNumber", PInt 9);
                       ("Rows", PInt 128)])
       else if String.eqb p "ward/sub/c.dcm"
       then Ok (image "1.7" "1.7.1" "1.7.1.1"
                      [("PatientID", PStr "P2"); ("SeriesNumber", PInt 1);
                       ("Rows", PInt 64)])
       else Ok no_dicom).

Definition ward_catalogue : CMRDir.t :=
  Eval vm_compute in
    match fst (CMRDir.from_folder ward_world "ward" PNone true) with
    | Ok D => D
    | Raise _ => CMRDir.init PNone
    end.

(** What [read_dicom] returns for the three images of [ward]. *)
Definition ward_a : Dataset :=
  Eval vm_compute in
    match read_dicom ward_world "ward/a.dcm" with
    | Ok (Some dcm) => dcm
    | _ => no_dicom
    end.

Definition ward_b : Dataset :=
  Eval vm_compute in
    match read_dicom ward_world "ward/b.dcm" with
    | Ok (Some dcm) => dcm
    | _ => no_dicom
    end.

Definition ward_c : Dataset :=
  Eval vm_compute in
    match read_dicom ward_world "ward/sub/c.dcm" with
    | Ok (Some dcm) => dcm
    | _ => no_dicom
    end.

(** The same folder when the image of the sub-folder belongs to the
    study and the patient of the others: a second image of the series
    1.2.3. *)
Definition study_world : World :=
  world_of "ward"
    (Dir ["a.dcm"; "b.dcm"; "notes.txt"] [("sub", Dir ["c.dcm"] [])])
    (fun p =>
       if String.eqb p "ward/a.dcm"
       then Ok (image "1.2" "1.2.3" "1.2.3.4"
                      [("PatientID", PStr "P1"); ("SeriesNumber", PInt 3);
                       ("Rows", PInt 256)])
       else if String.eqb p "ward/b.dcm"
       then Ok (image "1.2" "1.2.9" "1.2.9.1"
                      [("PatientID", PStr "P1"); ("SeriesNumber", PInt 9);
                       ("Rows", PInt 128)])
       else if String.eqb p "ward/sub/c.dcm"
       then Ok (image "1.2" "1.2.3" "1.2.3.5"
                      [("PatientID", PStr "P1"); ("SeriesNumber", PInt 3);
                       ("Rows", PInt 256)])
       else Ok no_dicom).

Definition study_c : Dataset :=
  Eval vm_compute in
    match read_dicom study_world "ward/sub/c.dcm" with
    | Ok (Some dcm) => dcm
    | _ => no_dicom
    end.

(** A folder given with a trailing separator. *)
Definition trailing_world : World :=
  world_of "ward/" (Dir ["a.dcm"] []) (fun _ => Ok cine_image).

Definition trailing_catalogue : CMRDir.t :=
  Eval vm_compute in
    match fst (CMRDir.from_folder trailing_world "ward/" PNone true) with
    | Ok D => D
    | Raise _ => CMRDir.init PNone
    end.

(** A folder whose one image has no SOPInstanceUID, and one whose image
    has the three identifiers but no description; with what [read_dicom]
    returns for the images. *)
Definition unidentified_world : World :=
  world_of "data" (Dir ["a.dcm"] [])
    (fun _ => Ok (mkDataset [] (Some "1.2") (Some "1.2.3") None
                            [("Rows", PInt 1); ("Columns", PInt 1)])).

Definition unidentified_record : Dataset :=
  Eval vm_compute in
    match read_dicom unidentified_world "data/a.dcm" with
    | Ok (Some dcm) => dcm
    | _ => no_dicom
    end.

Definition plain_world : World :=
  world_of "data" (Dir ["a.dcm"] [])
    (fun _ => Ok (mkDataset [] (Some "1.2") (Some "1.2.3") (Some "1.2.3.4")
                            [("Rows", PInt 1)])).

Definition plain_record : Dataset :=
  Eval vm_compute in
    match read_dicom plain_world "data/a.dcm" with
    | Ok (Some dcm) => dcm
    | _ => no_dicom
    end.

(** [get_tag] returns for every tag the scan asks of the record. *)
Definition tags_readable (w : World) (dcm : Dataset) : Prop :=
  forall tag,
    In tag (CMRDir.STUDY_TAGS ++ CMRDir.SERIES_TAGS ++ CMRDir.INSTANCE_TAGS) ->
    exists v, CMRDir.get_tag w dcm tag = Ok v.

(** pydicom reads every file of the folder without an exception. *)
Definition all_read (w : World) (folder : string) : Prop :=
  forall f, In f (walk_files w folder) -> exists r, read_dicom w f = Ok r.

(** A record [CMRDir.from_folder] can file: it has the three
    identifiers, the series identifier is not the name of a study tag,
    and [get_tag] returns for every tag. *)
Definition indexable (w : World) (dcm : Dataset) : Prop :=
  (exists a b c,
     uids dcm = (Some a, Some b, Some c) /\ ~ In b CMRDir.STUDY_TAGS)
  /\ tags_readable w dcm.

(** *** [CMRStudy] *)

(** [dd['Series'][series]['Instances'][sop]] in the dict of a study. *)
Definition study_instance_at (dd : pyval) (series sop : string) : result pyval :=
  let* all_series := py_getitem dd "Series" in
  let* ser := py_getitem all_series series in
  let* instances := py_getitem ser "Instances" in
  py_getitem instances sop.

(** The instance [CMRStudy.from_folder] builds for the file [f] read as
    [dcm]. *)
Definition study_instance_of (w : World) (folder_name f : string) (dcm : Dataset)
           (inst : list (string * pyval)) : Prop :=
  dict_get inst "Filename"
  = Some (PStr (str_replace f (path_join folder_name "") ""))
  /\ (forall tag, In tag CMRStudy.INSTANCE_TAGS ->
        exists v, CMRStudy.get_tag w dcm tag = Ok v /\ dict_get inst tag = Some v)
  /\ forall k, dict_mem inst k = true ->
       k = "Filename" \/ In k CMRStudy.INSTANCE_TAGS.

(** The loop of [CMRStudy.from_folder] over the recognized files alone. *)
Fixpoint study_add_all (w : World) (folder_name : string) (verbose : bool)
         (l : list (string * Dataset)) (st : option string * pyval)
  : M (option string * pyval) :=
  match l with
  | [] => mret st
  | (f, dcm) :: rest =>
      st <- CMRStudy.add_file w folder_name verbose f dcm st ;;
      study_add_all w folder_name verbose rest st
  end.

Definition study_catalogue : CMRStudy.t :=
  Eval vm_compute in
    match fst (CMRStudy.from_folder study_world "ward" true []) with
    | Ok study => study
    | Raise _ => CMRStudy.init PNone PNone PNone
    end.


(** [get_tag] returns for every tag [CMRStudy.from_folder] asks of the
    record. *)
Definition study_tags_readable (w : World) (dcm : Dataset) : Prop :=
  forall tag,
    In tag (CMRStudy.STUDY_TAGS ++ CMRStudy.SERIES_TAGS ++ CMRStudy.INSTANCE_TAGS) ->
    exists v, CMRStudy.get_tag w dcm tag = Ok v.

(** The series and the instance identifier of a record. *)
Definition instance_key (fd : string * Dataset) : option string * option string :=
  (SeriesInstanceUID (snd fd), SOPInstanceUID (snd fd)).

(** Records that [CMRStudy.from_folder] can file together: each has the
    three identifiers and readable tags, all are of the study [a], no two
    have the same series and instance identifier, and, when [verbose] is
    on, each has the two descriptions that are printed. *)
Definition one_study (w : World) (verbose : bool) (a : string)
           (l : list (string * Dataset)) : Prop :=
  (forall fd, In fd l ->
     (exists b c, uids (snd fd) = (Some a, Some b, Some c))
     /\ study_tags_readable w (snd fd)
     /\ (verbose = true ->
         dcm_has (snd fd) "StudyDescription" = true
         /\ dcm_has (snd fd) "SeriesDescription" = true))
  /\ NoDup (map instance_key l).

(** The dict of the series of a study holds, for every series, a dict
    with the instances; each instance is one of the records [l]. *)
Definition series_wf (l : list (string * Dataset)) (sers : list (string * pyval))
  : Prop :=
  forall b se,
    dict_get sers b = Some se ->
    exists ser insts,
      se = PDict ser
      /\ dict_get ser "Instances" = Some (PDict insts)
      /\ forall c, dict_mem insts c = true ->
           exists fd, In fd l /\ instance_key fd = (Some b, Some c).

(** The state of the loop of [CMRStudy.from_folder] once the records [l]
    of the study [a] have been added. *)
Definition study_state_ok (a : string) (l : list (string * Dataset))
           (st : option string * pyval) : Prop :=
  match fst st with
  | None => l = [] /\ snd st = PDict []
  | Some a0 =>
      a0 = a
      /\ exists d0 sers,
           snd st = PDict d0
           /\ dict_get d0 "Series" = Some (PDict sers)
           /\ series_wf l sers
  end.

(** *** [DicomDir] *)

(** The entry [DicomDir.scan] appends to the series for the pair [ser]:
    the series tags of the first file with this pair, and the images of
    all of them. *)
Definition series_entry (all_tags : list (list (string * pyval)))
           (ser : pyval * pyval) : result pyval :=
  let* ser_items := DicomDir.filterM (DicomDir.in_series (fst ser) (snd ser))
                                     all_tags in
  let* first := match ser_items with
                | t :: _ => Ok t
                | [] => Raise IndexError
                end in
  let* new_series := DicomDir.restrict first DicomDir.SERIES_TAGS in
  let* images :=
    mapM (fun ss =>
            let* d := DicomDir.restrict ss ("Filename" :: DicomDir.IMAGE_TAGS) in
            Ok (PDict d)) ser_items in
  Ok (PDict (dict_set new_series "Images" (PList images))).

(** The pair by which [DicomDir.scan] tells the series of a record. *)
Definition file_key (fd : string * Dataset) : pyval * pyval :=
  (DicomDir.attr_or_none (snd fd) "SeriesInstanceUID",
   DicomDir.attr_or_none (snd fd) "SeriesNumber").

(** [t] holds the tags [DicomDir.scan] collects for the file [fd], when
    the directory of the object is [d]. *)
Definition tagged (d : list (string * pyval)) (fd : string * Dataset)
           (t : list (string * pyval)) : Prop :=
  DicomDir.make_tag (PDict d) (fst fd) (snd fd) = Ok t.

(** The study tags [DicomDir.scan] takes from a record. *)
Definition raw_study_tags (dcm : Dataset) : list (string * pyval) :=
  map (fun k => (k, DicomDir.attr_or_none dcm k)) DicomDir.STUDY_TAGS.

Definition study_directory : DicomDir.t :=
  Eval vm_compute in
    match DicomDir.init study_world "ward" with
    | Ok self => self
    | Raise _ => DicomDir.mk PNone
    end.

(** What [DicomDir.scan] finds in the folder before it builds the
    directory: the tags of the recognized files, which pass the two
    assertions; the first of them; the study tags taken from it; and the
    set of the pairs that tell the series. *)
Definition scan_finds (w : World) (folder : string) (s : pyval)
           (all_tags : list (list (string * pyval)))
           (first study : list (string * pyval))
           (series : list (pyval * pyval)) : Prop :=
  DicomDir.collect w s (walk_files w folder) = Ok all_tags
  /\ (exists uids studies,
        mapM (fun t => DicomDir.item t "StudyInstanceUID") all_tags = Ok uids
        /\ DicomDir.py_set uids = Ok studies /\ List.length studies = 1)
  /\ (exists ids patients,
        mapM (fun t => DicomDir.item t "PatientID") all_tags = Ok ids
        /\ DicomDir.py_set ids = Ok patients /\ List.length patients = 1)
  /\ (exists rest, all_tags = first :: rest)
  /\ DicomDir.restrict first DicomDir.STUDY_TAGS = Ok study
  /\ exists keys,
       mapM series_key all_tags = Ok keys
       /\ DicomDir.py_set_pairs keys = Ok series.

(** The series tags [DicomDir.scan] takes from a record. *)
Definition raw_series_tags (dcm : Dataset) : list (string * pyval) :=
  map (fun k => (k, DicomDir.attr_or_none dcm k)) DicomDir.SERIES_TAGS.

(** The value [DicomDir.scan] keeps for an image tag of a record. *)
Definition image_value (dcm : Dataset) (k : string) : pyval :=
  if String.eqb k "ImageOrientationPatient"
  then stored_geometry dcm k "ImageOrientation"
  else if String.eqb k "ImagePositionPatient"
       then stored_geometry dcm k "ImagePosition"
       else DicomDir.attr_or_none dcm k.

(** The entry of a file in the [Images] of its series. *)
Definition image_entry (folder : string) (fd : string * Dataset) : pyval :=
  PDict (("Filename", PStr (str_replace (fst fd) folder ""))
           :: map (fun k => (k, image_value (snd fd) k)) DicomDir.IMAGE_TAGS).

(** [fd] compares equal to the pair [ser] in both components. *)
Definition same_series (ser : pyval * pyval) (fd : string * Dataset) : bool :=
  DicomDir.pair_eqb (file_key fd) ser.

(** [e] is the entry of the pair [ser]: the series tags of the first
    recognized file of [folder] with that pair, and one image for each
    such file, in the order of the walk. *)
Definition series_listed (w : World) (folder : string) (ser : pyval * pyval)
           (e : pyval) : Prop :=
  exists fd rest,
    filter (same_series ser) (scanned w folder) = fd :: rest
    /\ e = PDict (raw_series_tags (snd fd)
                    ++ [("Images", PList (map (image_entry folder) (fd :: rest)))]).

(** The pairs of the recognized files of [folder], as [scan] goes
    through them. *)
Definition series_pairs (w : World) (folder : string) : list (pyval * pyval) :=
  set_order w (set_of_list DicomDir.pair_eqb (map file_key (scanned w folder))).

(** The records of [l] agree with [fd0] on [tag]: each value can be put
    in a set, and compares equal to that of [fd0]. *)
Definition agree_on (tag : string) (fd0 : string * Dataset)
           (l : list (string * Dataset)) : Prop :=
  forall fd, In fd l ->
             hashable (DicomDir.attr_or_none (snd fd) tag) = true
             /\ py_eqb (DicomDir.attr_or_none (snd fd0) tag)
                       (DicomDir.attr_or_none (snd fd) tag) = true.

(** The pair of [fd] can be put in a set, and compares equal to itself. *)
Definition series_told (fd : string * Dataset) : Prop :=
  hashable (fst (file_key fd)) = true
  /\ hashable (snd (file_key fd)) = true
  /\ same_series (file_key fd) fd = true.
(** * Properties *)

Unset Implicit Arguments.

(** ** Dictionaries and strings *)

Section DictFacts.
Context {V : Type}.

Lemma dict_get_set_same (d : list (string * V)) (k : string) (v : V) :
  dict_get (dict_set d k v) k = Some v.
Proof.
  induction d as [|[k' v'] d IH]; simpl.
  - now rewrite String.eqb_refl.
  - destruct (String.eqb k' k) eqn:E; simpl; rewrite E; auto.
Qed.

Lemma dict_get_set_other (d : list (string * V)) (k k' : string) (v : V) :
  k <> k' -> dict_get (dict_set d k v) k' = dict_get d k'.
Proof.
  intros Hne. induction d as [|[k0 v0] d IH]; simpl.
  - destruct (String.eqb k k') eqn:E; auto.
    apply String.eqb_eq in E. contradiction.
  - destruct (String.eqb k0 k) eqn:E; simpl.
    + apply String.eqb_eq in E. subst k0.
      destruct (String.eqb k k') eqn:E'; auto.
      apply String.eqb_eq in E'. contradiction.
    + destruct (String.eqb k0 k'); auto.
Qed.
End DictFacts.

Lemma str_split_not_nil (sep : ascii) (s : string) : str_split sep s <> [].
Proof.
  destruct s as [|c r]; simpl; try discriminate.
  destruct (Ascii.eqb c sep); try discriminate.
  destruct (str_split sep r); discriminate.
Qed.

Lemma str_join_split (sep : ascii) (s : string) :
  str_join (String sep EmptyString) (str_split sep s) = s.
Proof.
  induction s as [|c r IH]; simpl; auto.
  destruct (Ascii.eqb c sep) eqn:E.
  - apply Ascii.eqb_eq in E. subst c.
    destruct (str_split sep r) eqn:S.
    + exfalso. eapply str_split_not_nil. eassumption.
    + simpl in *. now rewrite IH.
  - destruct (str_split sep r) as [|h t] eqn:S.
    + exfalso. eapply str_split_not_nil. eassumption.
    + destruct t; simpl in *; now rewrite <- IH.
Qed.

Lemma str_split_no_sep (sep : ascii) (s : string) :
  Forall (fun p => has_char sep p = false) (str_split sep s).
Proof.
  induction s as [|c r IH]; simpl.
  - constructor; auto.
  - destruct (Ascii.eqb c sep) eqn:E.
    + constructor; auto.
    + destruct (str_split sep r) as [|h t].
      * constructor; auto. unfold has_char. simpl.
        rewrite Ascii.eqb_sym, E. reflexivity.
      * inversion IH; subst. constructor; auto.
        unfold has_char in *. simpl. rewrite Ascii.eqb_sym, E. auto.
Qed.

Lemma mapM_Forall2 {A B : Type} (f : A -> result B) (l : list A) (r : list B) :
  Forall2 (fun a b => f a = Ok b) l r <-> mapM f l = Ok r.
Proof.
  revert r. induction l as [|a l IH]; intros r; simpl.
  - split; intros H.
    + now inversion H.
    + injection H as <-. constructor.
  - split; intros H.
    + inversion H as [|? b ? r' Ha Hr]; subst.
      rewrite Ha. simpl. apply IH in Hr. rewrite Hr. reflexivity.
    + destruct (f a) as [b|] eqn:Ha; simpl in H; try discriminate.
      destruct (mapM f l) as [r'|] eqn:Hr; simpl in H; try discriminate.
      injection H as <-. constructor; auto. now apply IH.
Qed.

(** ** The attribute extractor *)

(** C5.  [get_tag] (the same function in [CMRDir] and in [CMRStudy])
    returns [None] for an attribute the record does not have.  A bytes
    value is decoded: when it is UTF-8 it is split at the backslashes
    into the list of its components, in order, and otherwise the call
    raises [UnicodeDecodeError].  Every multi-valued field, numeric or
    not, is converted component by component with [float]: the result is
    the list of the floats, in order, when each component converts, and
    otherwise the call raises what [float] raises, so that a multi-valued
    text field raises instead of being returned.  A [DSfloat] becomes the
    float of the same value; a value of any other type is returned as it
    is. *)
Theorem get_tag_normalizes (w : World) (dcm : Dataset) (tagName : string) :
  CMRStudy.get_tag w dcm tagName = CMRDir.get_tag w dcm tagName
  /\ (dcm_lookup dcm tagName = None -> CMRDir.get_tag w dcm tagName = Ok PNone)
  /\ (forall b, dcm_lookup dcm tagName = Some (PBytes b) ->
        utf8_bytes b = true ->
        exists parts,
          CMRDir.get_tag w dcm tagName = Ok (PList (map PStr parts))
          /\ str_join (String backslash EmptyString) parts = b
          /\ Forall (fun p => has_char backslash p = false) parts)
  /\ (forall l fs, dcm_lookup dcm tagName = Some (PMultiValue l) ->
        Forall2 (fun v f => py_float (parse_float w) v = Ok f) l fs ->
        CMRDir.get_tag w dcm tagName = Ok (PList (map PFloat fs)))
  /\ (forall f, dcm_lookup dcm tagName = Some (PDSfloat f) ->
        CMRDir.get_tag w dcm tagName = Ok (PFloat f))
  /\ (forall v, dcm_lookup dcm tagName = Some v -> passes_through v ->
        CMRDir.get_tag w dcm tagName = Ok v)
  /\ (forall b, dcm_lookup dcm tagName = Some (PBytes b) ->
        utf8_bytes b = false ->
        CMRDir.get_tag w dcm tagName = Raise UnicodeDecodeError)
  /\ (forall l e, dcm_lookup dcm tagName = Some (PMultiValue l) ->
        mapM (py_float (parse_float w)) l = Raise e ->
        CMRDir.get_tag w dcm tagName = Raise e).
Proof.
  split; [reflexivity|].
  unfold CMRDir.get_tag, dcm_has.
  repeat split.
  - intros ->. reflexivity.
  - intros b -> Hb. exists (str_split backslash b).
    unfold bytes_decode. unfold utf8_bytes in Hb. rewrite Hb. simpl.
    split; [reflexivity|]. split.
    + apply str_join_split.
    + apply str_split_no_sep.
  - intros l fs -> Hfs. apply mapM_Forall2 in Hfs. rewrite Hfs. reflexivity.
  - intros f ->. reflexivity.
  - intros v -> Hv. destruct v; simpl in Hv; try contradiction; reflexivity.
  - intros b -> Hb. unfold bytes_decode. unfold utf8_bytes in Hb. now rewrite Hb.
  - intros l e -> He. now rewrite He.
Qed.

(** A multi-valued text field, and bytes that are not UTF-8: [get_tag]
    raises for both, in [CMRDir] and in [CMRStudy]. *)
Lemma get_tag_text_multivalue_raises :
  dcm_lookup typed_image "ImageType"
  = Some (PMultiValue [PStr "ORIGINAL"; PStr "PRIMARY"])
  /\ parse_float cine_world "ORIGINAL" = None
  /\ CMRDir.get_tag cine_world typed_image "ImageType"
     = Raise (ValueError "could not convert string to float")
  /\ CMRStudy.get_tag cine_world typed_image "ImageType"
     = Raise (ValueError "could not convert string to float")
  /\ CMRDir.get_tag cine_world typed_image "ImageType"
     <> Ok (PMultiValue [PStr "ORIGINAL"; PStr "PRIMARY"])
  /\ dcm_lookup typed_image "ImagePosition" = Some (PBytes not_utf8)
  /\ utf8_bytes not_utf8 = false
  /\ CMRDir.get_tag cine_world typed_image "ImagePosition"
     = Raise UnicodeDecodeError
  /\ CMRStudy.get_tag cine_world typed_image "ImagePosition"
     = Raise UnicodeDecodeError.
Proof.
  repeat split; try reflexivity. discriminate.
Qed.

(** A multi-valued decimal-string field, as pydicom reads it, has
    [DSfloat] components: its conversion cannot fail. *)
Lemma get_tag_multi_DS (w : World) (dcm : Dataset) (tagName : string)
      (fs : list float) :
  dcm_lookup dcm tagName = Some (PMultiValue (map PDSfloat fs)) ->
  CMRDir.get_tag w dcm tagName = Ok (PList (map PFloat fs)).
Proof.
  intros H. unfold CMRDir.get_tag, dcm_has. rewrite H.
  assert (E : mapM (py_float (parse_float w)) (map PDSfloat fs) = Ok fs).
  { clear H. induction fs as [|f fs IH]; simpl; auto. now rewrite IH. }
  now rewrite E.
Qed.

(** ** The file classifier *)

(** C6.  [read_dicom] asks pydicom for a forced read.  When pydicom
    decodes the file as [dcm], the answer is [None] exactly when [dcm] has
    at most one data element; otherwise it is the decoded record: the same
    elements, the same file meta information except that a missing
    [TransferSyntaxUID] is set to implicit VR little endian.  What pydicom
    raises, [read_dicom] raises. *)
Theorem read_dicom_classifies (w : World) (dcm_file : string) :
  (forall dcm, read_file w dcm_file true = Ok dcm ->
     (read_dicom w dcm_file = Ok None <-> dcm_len dcm <= 1)
     /\ (1 < dcm_len dcm ->
         exists r, read_dicom w dcm_file = Ok (Some r)
           /\ same_elements r dcm
           /\ dict_get (file_meta r) "TransferSyntaxUID"
              = Some (match dict_get (file_meta dcm) "TransferSyntaxUID" with
                      | Some ts => ts
                      | None => ImplicitVRLittleEndian
                      end)
           /\ (forall k, k <> "TransferSyntaxUID" ->
                 dict_get (file_meta r) k = dict_get (file_meta dcm) k)))
  /\ (forall e, read_file w dcm_file true = Raise e ->
        read_dicom w dcm_file = Raise e).
Proof.
  split.
  - intros dcm Hread. unfold read_dicom. rewrite Hread. simpl.
    set (r := if negb (dict_mem (file_meta dcm) "TransferSyntaxUID")
              then set_file_meta dcm "TransferSyntaxUID" ImplicitVRLittleEndian
              else dcm).
    assert (Hlen : dcm_len r = dcm_len dcm).
    { unfold r. destruct (negb _); reflexivity. }
    rewrite Hlen. split.
    + destruct (Nat.leb_spec (dcm_len dcm) 1); split; intros; auto; try lia;
        discriminate.
    + intros Hgt. destruct (Nat.leb_spec (dcm_len dcm) 1); try lia.
      exists r. split; [reflexivity|]. unfold r, dict_mem.
      destruct (dict_get (file_meta dcm) "TransferSyntaxUID") as [ts|] eqn:Hts;
        simpl.
      * repeat split; auto.
      * repeat split; auto.
        -- apply dict_get_set_same.
        -- intros k Hk. apply dict_get_set_other. congruence.
  - intros e Hread. unfold read_dicom. now rewrite Hread.
Qed.

(** ** Queries of the catalogue *)

(** C9.  [get_filenames] gives the same answer whatever [frame] is: the
    answer it gives when [frame] is left out. *)
Theorem get_filenames_ignores_frame (w : World) (self : CMRDir.t)
        (studyUID seriesUID : string) (frame : pyval) :
  CMRDir.get_filenames w self studyUID seriesUID frame
  = CMRDir.get_filenames w self studyUID seriesUID PNone.
Proof.
  unfold CMRDir.get_filenames.
  destruct (CMRDir.get_sop_uids w self studyUID seriesUID) as [sops|e];
    simpl; auto.
  destruct (mapM _ sops); simpl; auto.
  destruct frame; reflexivity.
Qed.

(** ** Restoring a study *)

(** C10.  [CMRStudy.from_file] returns the class it was called on and
    leaves the files alone: nothing is opened, nothing is read, and what
    it returns is not an instance. *)
Theorem CMRStudy_from_file_returns_class (file_name : string) (st : FileStore) :
  CMRStudy.from_file CMRStudy.Class file_name st = (Ok CMRStudy.Class, st)
  /\ opened (snd (CMRStudy.from_file CMRStudy.Class file_name st)) = opened st
  /\ forall self : CMRStudy.t,
       fst (CMRStudy.from_file CMRStudy.Class file_name st)
       <> Ok (CMRStudy.Instance self).
Proof.
  repeat split. intros self H. discriminate H.
Qed.

(** ** Stepping through a computation with effects *)

Lemma mbind_Ok {S A B : Type} (m : St S A) (k : A -> St S B) (s s' : S) (b : B) :
  mbind m k s = (Ok b, s') ->
  exists a s1, m s = (Ok a, s1) /\ k a s1 = (Ok b, s').
Proof.
  unfold mbind. destruct (m s) as [[a|e] s1]; intros H; try discriminate. eauto.
Qed.

Lemma lift_Ok {S A : Type} (r : result A) (s s' : S) (a : A) :
  lift r s = (Ok a, s') -> r = Ok a /\ s' = s.
Proof. unfold lift. intros H. injection H as -> ->. auto. Qed.

Lemma mbind_lift_Ok {S A B : Type} (r : result A) (k : A -> St S B) (s s' : S) (b : B) :
  mbind (lift r) k s = (Ok b, s') ->
  exists a, r = Ok a /\ k a s = (Ok b, s').
Proof.
  intros H. apply mbind_Ok in H. destruct H as [a [s1 [H1 H2]]].
  apply lift_Ok in H1. destruct H1 as [-> ->]. eauto.
Qed.

(** ** Equality of Python values *)

Lemma SFeqb_true (f g : float) :
  SFeqb f g = true ->
  f <> S754_nan /\ g <> S754_nan
  /\ (f = g \/ exists s t, f = S754_zero s /\ g = S754_zero t).
Proof.
  unfold SFeqb, SFcompare.
  destruct f as [s| s| |s m e], g as [t| t| |t n d]; try discriminate;
    try (destruct s; discriminate); try (destruct t; discriminate).
  - intros _. repeat split; try discriminate. right. eauto.
  - destruct s, t; try discriminate; intros _; repeat split; try discriminate; auto.
  - destruct s, t; try discriminate.
    + destruct (Z.compare_spec e d); try discriminate. subst d.
      destruct (Pos.compare_cont Eq m n) eqn:E; try discriminate.
      apply Pos.compare_eq in E. subst n.
      intros _. repeat split; try discriminate; auto.
    + destruct (Z.compare_spec e d); try discriminate. subst d.
      destruct (Pos.compare_cont Eq m n) eqn:E; try discriminate.
      apply Pos.compare_eq in E. subst n.
      intros _. repeat split; try discriminate; auto.
Qed.

Lemma SFeqb_refl (f : float) : f <> S754_nan -> SFeqb f f = true.
Proof.
  unfold SFeqb, SFcompare. destruct f as [s| s| |s m e]; intros H; auto.
  - destruct s; reflexivity.
  - destruct s; rewrite Z.compare_refl, Pos.compare_cont_refl; reflexivity.
Qed.

Lemma SFeqb_zero (s t : bool) : SFeqb (S754_zero s) (S754_zero t) = true.
Proof. reflexivity. Qed.

Lemma SFeqb_sym (f g : float) : SFeqb f g = true -> SFeqb g f = true.
Proof.
  intros H. destruct (SFeqb_true _ _ H) as [Hf [Hg [->|[s [t [-> ->]]]]]].
  - now apply SFeqb_refl.
  - apply SFeqb_zero.
Qed.

Lemma SFeqb_right_refl (f g : float) : SFeqb f g = true -> SFeqb g g = true.
Proof.
  intros H. destruct (SFeqb_true _ _ H) as [_ [Hg _]]. now apply SFeqb_refl.
Qed.

Lemma float_eq_int_finite (f : float) (z : Z) :
  float_eq_int f z = true -> f <> S754_nan.
Proof. destruct f; simpl; intros H; congruence. Qed.

Lemma num_eqb_sym (a b : num) : num_eqb a b = true -> num_eqb b a = true.
Proof.
  destruct a, b; simpl; auto.
  - rewrite Z.eqb_sym. auto.
  - apply SFeqb_sym.
Qed.

Lemma num_eqb_right_refl (a b : num) : num_eqb a b = true -> num_eqb b b = true.
Proof.
  destruct a, b; simpl; intros H.
  - apply Z.eqb_refl.
  - apply SFeqb_refl. eapply float_eq_int_finite; eauto.
  - apply Z.eqb_refl.
  - eapply SFeqb_right_refl; eauto.
Qed.

Lemma py_eqb_sym (a b : pyval) : py_eqb a b = true -> py_eqb b a = true.
Proof.
  unfold py_eqb.
  destruct (as_num a) as [x|] eqn:Ea, (as_num b) as [y|] eqn:Eb;
    try discriminate.
  - apply num_eqb_sym.
  - destruct a, b; try discriminate; auto.
    + rewrite String.eqb_sym. auto.
    + rewrite String.eqb_sym. auto.
    + rewrite Nat.eqb_sym. auto.
Qed.

Lemma py_eqb_right_refl (a b : pyval) : py_eqb a b = true -> py_eqb b b = true.
Proof.
  unfold py_eqb.
  destruct (as_num a) as [x|] eqn:Ea, (as_num b) as [y|] eqn:Eb;
    try discriminate.
  - apply num_eqb_right_refl.
  - destruct a, b; try discriminate; intros _; auto.
    + apply String.eqb_refl.
    + apply String.eqb_refl.
    + apply Nat.eqb_refl.
Qed.

(** ** Sets *)

Lemma set_add_keeps {A : Type} (eqb : A -> A -> bool) (s : list A) (x y : A) :
  In y s -> In y (set_add eqb s x).
Proof.
  induction s as [|z r IH]; simpl; intros H; try contradiction.
  destruct (eqb z x); simpl; auto. destruct H; auto.
Qed.

Lemma set_add_covers {A : Type} (eqb : A -> A -> bool) (s : list A) (x : A) :
  exists y, In y (set_add eqb s x) /\ (y = x \/ eqb y x = true).
Proof.
  induction s as [|z r IH]; simpl.
  - exists x. auto.
  - destruct (eqb z x) eqn:E.
    + exists z. simpl. auto.
    + destruct IH as [y [Hy Hxy]]. exists y. simpl. auto.
Qed.

Lemma set_of_list_covers {A : Type} (eqb : A -> A -> bool) (l : list A) (x : A) :
  In x l ->
  exists y, In y (set_of_list eqb l) /\ (y = x \/ eqb y x = true).
Proof.
  unfold set_of_list. generalize (@nil A) as acc.
  induction l as [|z r IH]; intros acc Hin; simpl in *; try contradiction.
  destruct Hin as [->|Hin].
  - destruct (set_add_covers eqb acc x) as [y [Hy Hxy]].
    exists y. split; auto.
    clear - Hy. revert Hy. generalize (set_add eqb acc x) as acc'.
    induction r as [|z r IH]; intros acc' Hy; simpl; auto.
    apply IH. now apply set_add_keeps.
  - now apply IH.
Qed.

Lemma set_of_list_sub {A : Type} (eqb : A -> A -> bool) (l : list A) (y : A) :
  In y (set_of_list eqb l) -> In y l.
Proof.
  unfold set_of_list.
  assert (G : forall acc, In y (fold_left (set_add eqb) l acc) -> In y acc \/ In y l).
  { induction l as [|z r IH]; intros acc H; simpl in *; auto.
    destruct (IH _ H) as [H1|H1]; auto.
    assert (In y acc \/ y = z).
    { clear - H1. induction acc as [|a acc IHa]; simpl in *.
      - destruct H1 as [->|[]]; auto.
      - destruct (eqb a z); simpl in H1; auto.
        destruct H1 as [->|H1]; auto. destruct (IHa H1); auto. }
    destruct H0 as [H0| ->]; auto. }
  intros H. destruct (G [] H) as [[]|H1]; auto.
Qed.

(** ** Saving and restoring a catalogue *)

Lemma unique_keys_list (l : list pyval) :
  unique_keys (PList l) <-> Forall unique_keys l.
Proof.
  simpl. induction l as [|x r IH]; split; intros H; auto.
  - destruct H as [Hx Hr]. constructor; auto. now apply IH.
  - inversion H; subst. split; auto. now apply IH.
Qed.

Lemma unique_keys_dict (d : list (string * pyval)) :
  unique_keys (PDict d)
  <-> NoDup (map fst d) /\ Forall (fun kv => unique_keys (snd kv)) d.
Proof.
  simpl.
  assert (E : forall d : list (string * pyval),
             (fix all (d : list (string * pyval)) : Prop :=
                match d with
                | [] => True
                | (_, x) :: r => unique_keys x /\ all r
                end) d <-> Forall (fun kv => unique_keys (snd kv)) d).
  { clear d. induction d as [|[k x] r IH]; split; intros H; auto.
    - destruct H as [Hx Hr]. constructor; auto. now apply IH.
    - inversion H; subst. split; auto. now apply IH. }
  rewrite E. reflexivity.
Qed.

Lemma json_dump_list (l : list pyval) :
  json_dump (PList l) = let* js := mapM json_dump l in Ok (JArray js).
Proof.
  simpl. f_equal. induction l as [|x r IH]; simpl; auto.
  destruct (json_dump x); simpl; auto. now rewrite IH.
Qed.

Lemma json_dump_dict (d : list (string * pyval)) :
  json_dump (PDict d) = let* m := mapM dump_member d in Ok (JObject m).
Proof.
  simpl. f_equal. induction d as [|[k x] r IH]; simpl; auto.
  unfold dump_member at 1. simpl.
  destruct (json_dump x); simpl; auto. now rewrite IH.
Qed.

Lemma json_load_object (m : list (string * json)) :
  json_load (JObject m) = PDict (fold_left load_member m []).
Proof.
  simpl. f_equal. generalize (@nil (string * pyval)) as acc.
  induction m as [|[k x] r IH]; intros acc; simpl; auto.
Qed.

Lemma dict_set_fresh {V : Type} (d : list (string * V)) (k : string) (v : V) :
  ~ In k (map fst d) -> dict_set d k v = d ++ [(k, v)].
Proof.
  induction d as [|[k' v'] d IH]; simpl; intros Hk; auto.
  destruct (String.eqb k' k) eqn:E.
  - apply String.eqb_eq in E. subst. tauto.
  - f_equal. apply IH. tauto.
Qed.

Lemma load_members_fresh (m : list (string * json)) (acc : list (string * pyval)) :
  NoDup (map fst acc ++ map fst m) ->
  fold_left load_member m acc
  = acc ++ map (fun kx => (fst kx, json_load (snd kx))) m.
Proof.
  revert acc. induction m as [|[k x] r IH]; intros acc Hnd; simpl.
  - now rewrite app_nil_r.
  - unfold load_member at 2. simpl.
    assert (Hk : ~ In k (map fst acc)).
    { apply NoDup_remove_2 in Hnd. intros Hin. apply Hnd.
      apply in_or_app. now left. }
    rewrite (dict_set_fresh _ _ _ Hk). rewrite IH.
    + now rewrite <- app_assoc.
    + rewrite map_app. simpl. rewrite <- app_assoc. exact Hnd.
Qed.

Lemma mapM_dump_member_keys (d : list (string * pyval)) (m : list (string * json)) :
  mapM dump_member d = Ok m -> map fst m = map fst d.
Proof.
  revert m. induction d as [|[k x] r IH]; intros m H; simpl in H.
  - now injection H as <-.
  - unfold dump_member at 1 in H. simpl in H.
    destruct (json_dump x); simpl in H; try discriminate.
    destruct (mapM dump_member r) as [m'|]; simpl in H; try discriminate.
    injection H as <-. simpl. f_equal. now apply IH.
Qed.

(** What [json.load] reads back from what [json.dump] wrote is deeply
    equal to the value dumped. *)
Lemma json_load_dump (v : pyval) :
  forall j, json_dump v = Ok j -> unique_keys v -> same_value (json_load j) v.
Proof.
  induction v using pyval_deep_ind; intros j Hj Hu;
    try (simpl in Hj; injection Hj as <-; simpl; constructor; fail);
    try (simpl in Hj; discriminate).
  - simpl in Hj. injection Hj as <-. simpl. now apply same_float with f.
  - simpl in Hj. injection Hj as <-. simpl. now apply same_float with f.
  - (* list *)
    rewrite json_dump_list in Hj. apply unique_keys_list in Hu.
    destruct (mapM json_dump l) as [js|] eqn:Hjs; simpl in Hj; try discriminate.
    injection Hj as <-. simpl. constructor.
    revert js Hjs. induction l as [|x r IHr]; intros js Hjs; simpl in Hjs.
    + injection Hjs as <-. constructor.
    + destruct (json_dump x) as [jx|] eqn:Hx; simpl in Hjs; try discriminate.
      destruct (mapM json_dump r) as [jr|] eqn:Hr; simpl in Hjs; try discriminate.
      injection Hjs as <-. inversion H; subst. inversion Hu; subst.
      simpl. constructor; auto.
  - (* dict *)
    rewrite json_dump_dict in Hj. apply unique_keys_dict in Hu.
    destruct Hu as [Hnd Hu].
    destruct (mapM dump_member d) as [m|] eqn:Hm; simpl in Hj; try discriminate.
    injection Hj as <-. rewrite json_load_object.
    rewrite load_members_fresh.
    2:{ simpl. now rewrite (mapM_dump_member_keys _ _ Hm). }
    simpl. constructor. clear Hnd.
    revert m Hm. induction d as [|[k x] r IHr]; intros m Hm; simpl in Hm.
    + injection Hm as <-. constructor.
    + unfold dump_member at 1 in Hm. simpl in Hm.
      destruct (json_dump x) as [jx|] eqn:Hx; simpl in Hm; try discriminate.
      destruct (mapM dump_member r) as [jr|] eqn:Hr; simpl in Hm; try discriminate.
      injection Hm as <-. inversion H; subst. inversion Hu; subst.
      simpl. constructor; [split; simpl; auto|auto].
Qed.

Lemma save_then_from_file (D : CMRDir.t) (filename : string) (st st' : FileStore) :
  unique_keys (CMRDir.source D) -> unique_keys (CMRDir.studyName D) ->
  unique_keys (CMRDir.dicomDir D) ->
  CMRDir.save D filename st = (Ok tt, st') ->
  exists D',
    CMRDir.from_file filename st'
    = (Ok D', mkStore (contents st') (refused st')
                      (opened st' ++ [(filename, "r")]))
    /\ same_catalogue D' D.
Proof.
  intros Hs Hn Hd Hsave.
  unfold CMRDir.save, mbind, open_w in Hsave.
  destruct (dict_get (refused st) filename) as [e|] eqn:Href; [discriminate|].
  unfold json_dump_to in Hsave. cbn [contents refused opened] in Hsave.
  rewrite json_dump_dict in Hsave. cbn [mapM] in Hsave.
  unfold dump_member in Hsave. cbn [fst snd] in Hsave.
  destruct (json_dump (CMRDir.source D)) as [js|] eqn:Ejs;
    cbn [bind] in Hsave; try discriminate.
  destruct (json_dump (CMRDir.studyName D)) as [jn|] eqn:Ejn;
    cbn [bind] in Hsave; try discriminate.
  destruct (json_dump (CMRDir.dicomDir D)) as [jd|] eqn:Ejd;
    cbn [bind] in Hsave; try discriminate.
  injection Hsave as <-.
  exists (CMRDir.mk (json_load js) (json_load jn) (json_load jd)).
  split.
  - unfold CMRDir.from_file, mbind, open_r, json_load_from, lift, mret.
    cbn [contents refused opened]. rewrite Href, !dict_get_set_same.
    cbn [contents refused opened]. rewrite !dict_get_set_same.
    rewrite json_load_object. reflexivity.
  - repeat split; cbn [CMRDir.source CMRDir.studyName CMRDir.dicomDir];
      apply json_load_dump; assumption.
Qed.

Lemma read_dicom_elements (w : World) (f : string) (dcm : Dataset) :
  read_dicom w f = Ok (Some dcm) ->
  exists dcm0, read_file w f true = Ok dcm0 /\ same_elements dcm dcm0.
Proof.
  unfold read_dicom. intros H.
  destruct (read_file w f true) as [dcm0|] eqn:E; simpl in H; try discriminate.
  exists dcm0. split; auto.
  destruct (negb (dict_mem (file_meta dcm0) "TransferSyntaxUID"));
    match type of H with (if ?c then _ else _) = _ => destruct c end;
    try discriminate; injection H as <-; repeat split.
Qed.

(** *** What holds of every value of a scanned catalogue

    A property of values that the empty dict has, that item assignment
    and item access keep, and that holds of [None], of strings, of floats,
    of lists of such and of the values [get_tag] passes through, holds of
    the three attributes of the catalogue [CMRDir.from_folder] returns. *)

Section ScanInvariant.
Variable P : pyval -> Prop.
Hypothesis P_none : P PNone.
Hypothesis P_str : forall s, P (PStr s).
Hypothesis P_float : forall f, P (PFloat f).
Hypothesis P_list : forall l, Forall P l -> P (PList l).
Hypothesis P_empty : P (PDict []).
Hypothesis P_set :
  forall v k x v', P v -> P x -> py_setitem v k x = Ok v' -> P v'.
Hypothesis P_get : forall v k x, P v -> py_getitem v k = Ok x -> P x.

Variable w : World.
Hypothesis P_world : forall p force dcm, read_file w p force = Ok dcm -> passed P dcm.

Lemma inv_get_tag (dcm : Dataset) (k : string) (v : pyval) :
  passed P dcm -> CMRDir.get_tag w dcm k = Ok v -> P v.
Proof.
  intros Hp. unfold CMRDir.get_tag, dcm_has.
  destruct (dcm_lookup dcm k) as [x|] eqn:E.
  2:{ intros H. injection H as <-. exact P_none. }
  assert (Hx : passes_through x -> P x).
  { revert E. unfold dcm_lookup.
    destruct (String.eqb k "StudyInstanceUID").
    { destruct (StudyInstanceUID dcm); simpl; intros E; inversion E; auto. }
    destruct (String.eqb k "SeriesInstanceUID").
    { destruct (SeriesInstanceUID dcm); simpl; intros E; inversion E; auto. }
    destruct (String.eqb k "SOPInstanceUID").
    { destruct (SOPInstanceUID dcm); simpl; intros E; inversion E; auto. }
    intros E. exact (Hp k x E). }
  destruct x; intros H; try (injection H as <-; apply Hx; exact I).
  - injection H as <-. apply P_float.
  - destruct (bytes_decode b); simpl in H; try discriminate.
    injection H as <-. apply P_list.
    apply Forall_forall. intros y Hy. apply in_map_iff in Hy.
    destruct Hy as [s [<- _]]. apply P_str.
  - destruct (mapM _ l); simpl in H; try discriminate.
    injection H as <-. apply P_list.
    apply Forall_forall. intros y Hy. apply in_map_iff in Hy.
    destruct Hy as [s [<- _]]. apply P_float.
Qed.

Lemma inv_dict_comp (f : string -> result pyval) (keys : list string) :
  (forall k v, f k = Ok v -> P v) ->
  forall acc d, P (PDict acc) -> dict_comp f keys acc = Ok d -> P (PDict d).
Proof.
  intros Hf. induction keys as [|k r IH]; intros acc d Hacc H; simpl in H.
  - now injection H as <-.
  - destruct (f k) as [v|] eqn:E; simpl in H; try discriminate.
    apply IH in H; auto.
    apply P_set with (v := PDict acc) (k := k) (x := v); auto.
    now apply Hf with k.
Qed.

Lemma inv_add_file (dicomFolder f : string) (dcm : Dataset) (dir dir' : pyval) :
  passed P dcm -> P dir ->
  CMRDir.add_file w dicomFolder f dcm dir = Ok dir' -> P dir'.
Proof.
  intros Hp Hdir H. unfold CMRDir.add_file in H.
  pose proof (inv_dict_comp (CMRDir.get_tag w dcm)) as Hcomp.
  assert (Htag : forall k v, CMRDir.get_tag w dcm k = Ok v -> P v)
    by (intros k v; apply inv_get_tag; assumption).
  bind_ok H study_uid E1. bind_ok H known E2.
  bind_ok H dir1 E3.
  assert (Hdir1 : P dir1).
  { destruct (negb known).
    - bind_ok E3 tags E4.
      eapply P_set; [exact Hdir| |exact E3].
      eapply Hcomp; [exact Htag|exact P_empty|exact E4].
    - now injection E3 as <-. }
  bind_ok H series_uid E5. bind_ok H study E6. bind_ok H known' E7.
  pose proof (P_get _ _ _ Hdir1 E6) as Hstudy.
  bind_ok H study1 E8.
  assert (Hstudy1 : P study1).
  { destruct (negb known').
    - bind_ok E8 tags E9.
      eapply P_set; [exact Hstudy| |exact E8].
      eapply Hcomp; [exact Htag|exact P_empty|exact E9].
    - now injection E8 as <-. }
  bind_ok H inst E10. bind_ok H series E11. bind_ok H sop E12.
  bind_ok H series1 E13. bind_ok H study2 E14.
  pose proof (P_get _ _ _ Hstudy1 E11) as Hseries.
  assert (Hinst : P (PDict inst))
    by (eapply Hcomp; [exact Htag|exact P_empty|exact E10]).
  assert (Hnew : P (PDict (dict_set inst "Filename"
                             (PStr (str_replace f (path_join dicomFolder "") ""))))).
  { apply P_set with (v := PDict inst) (k := "Filename")
        (x := PStr (str_replace f (path_join dicomFolder "") ""));
      [exact Hinst|apply P_str|reflexivity]. }
  pose proof (P_set _ _ _ _ Hseries Hnew E13) as Hseries1.
  pose proof (P_set _ _ _ _ Hstudy1 Hseries1 E14) as Hstudy2.
  exact (P_set _ _ _ _ Hdir1 Hstudy2 H).
Qed.

Lemma inv_add_files (dicomFolder : string) (quiet : bool) (allFiles : list string) :
  forall dir out dir' out',
    P dir ->
    CMRDir.add_files w dicomFolder quiet allFiles dir out = (Ok dir', out') ->
    P dir'.
Proof.
  induction allFiles as [|f rest IH]; intros dir out dir' out' Hdir H;
    simpl in H.
  - now injection H as <- _.
  - destruct (read_dicom w f) as [[dcm|]|] eqn:E; try discriminate.
    + destruct (CMRDir.add_file w dicomFolder f dcm dir) as [dir1|] eqn:E1;
        try discriminate.
      apply IH in H; auto.
      eapply inv_add_file; [|exact Hdir|exact E1].
      destruct (read_dicom_elements _ _ _ E) as [dcm0 [Hr [_ [_ [_ He]]]]].
      unfold passed. rewrite He. exact (P_world _ _ _ Hr).
    + apply IH in H; auto.
Qed.

Lemma inv_from_folder (dicomFolder : string) (studyName : pyval) (quiet : bool)
      (D : CMRDir.t) (out : list event) :
  P studyName ->
  CMRDir.from_folder w dicomFolder studyName quiet = (Ok D, out) ->
  P (CMRDir.source D) /\ P (CMRDir.studyName D) /\ P (CMRDir.dicomDir D).
Proof.
  intros Hn H. unfold CMRDir.from_folder in H.
  destruct (negb (isdir w dicomFolder)); try discriminate.
  destruct (CMRDir.add_files _ _ _ _ _ _) as [[dir|] out1] eqn:E; try discriminate.
  injection H as <- <-. cbn [CMRDir.source CMRDir.studyName CMRDir.dicomDir].
  split; [apply P_str|]. split.
  - destruct studyName; simpl; auto.
  - eapply inv_add_files; [|exact E].
    destruct studyName; exact P_empty.
Qed.
End ScanInvariant.

(** *** The catalogue of a scan stands for proper dicts *)

Lemma dict_set_keys_in {V : Type} (d : list (string * V)) (k x : string) (v : V) :
  In x (map fst (dict_set d k v)) -> x = k \/ In x (map fst d).
Proof.
  induction d as [|[k' v'] d IH]; simpl.
  - intros [H|[]]; auto.
  - destruct (String.eqb k' k); simpl; intros [H|H]; auto.
    destruct (IH H); auto.
Qed.

Lemma dict_set_keys_nodup {V : Type} (d : list (string * V)) (k : string) (v : V) :
  NoDup (map fst d) -> NoDup (map fst (dict_set d k v)).
Proof.
  induction d as [|[k' v'] d IH]; simpl; intros Hnd.
  - constructor; [intros []|constructor].
  - inversion Hnd; subst. destruct (String.eqb k' k) eqn:E; simpl.
    + constructor; auto.
    + constructor; auto. intros Hin.
      destruct (dict_set_keys_in _ _ _ _ Hin) as [->|Hin']; auto.
      rewrite String.eqb_refl in E. discriminate.
Qed.

Lemma dict_set_forall {V : Type} (P : V -> Prop) (d : list (string * V))
      (k : string) (v : V) :
  Forall (fun kv => P (snd kv)) d -> P v ->
  Forall (fun kv => P (snd kv)) (dict_set d k v).
Proof.
  intros Hd Hv. induction d as [|[k' v'] d IH]; simpl.
  - constructor; auto.
  - inversion Hd; subst. destruct (String.eqb k' k); constructor; auto.
Qed.

Lemma dict_get_forall {V : Type} (P : V -> Prop) (d : list (string * V))
      (k : string) (v : V) :
  Forall (fun kv => P (snd kv)) d -> dict_get d k = Some v -> P v.
Proof.
  intros Hd. induction d as [|[k' v'] d IH]; simpl; try discriminate.
  inversion Hd; subst. destruct (String.eqb k' k); auto.
  intros E. injection E as <-. assumption.
Qed.

Lemma unique_setitem (v : pyval) (k : string) (x v' : pyval) :
  unique_keys v -> unique_keys x -> py_setitem v k x = Ok v' -> unique_keys v'.
Proof.
  intros Hv Hx H. destruct v; simpl in H; try discriminate.
  injection H as <-. apply unique_keys_dict in Hv. destruct Hv as [Hnd Hall].
  apply unique_keys_dict. split.
  - now apply dict_set_keys_nodup.
  - now apply dict_set_forall.
Qed.

Lemma unique_getitem (v : pyval) (k : string) (x : pyval) :
  unique_keys v -> py_getitem v k = Ok x -> unique_keys x.
Proof.
  intros Hv H. destruct v; simpl in H; try discriminate.
  destruct (dict_get d k) as [y|] eqn:E; try discriminate.
  injection H as <-. apply unique_keys_dict in Hv. destruct Hv as [_ Hall].
  exact (dict_get_forall _ _ _ _ Hall E).
Qed.

Lemma unique_nil : unique_keys (PDict []).
Proof. simpl. split; [constructor | exact I]. Qed.

Lemma unique_from_folder (w : World) (dicomFolder : string) (studyName : pyval)
      (quiet : bool) (D : CMRDir.t) (out : list event) :
  proper_values w -> unique_keys studyName ->
  CMRDir.from_folder w dicomFolder studyName quiet = (Ok D, out) ->
  unique_keys (CMRDir.source D) /\ unique_keys (CMRDir.studyName D)
  /\ unique_keys (CMRDir.dicomDir D).
Proof.
  intros Hw.
  apply (inv_from_folder unique_keys I (fun _ => I) (fun _ => I)
           (fun l => proj2 (unique_keys_list l)) unique_nil
           unique_setitem unique_getitem).
  intros p force dcm Hr k x Hk _.
  exact (dict_get_forall _ _ _ _ (Hw _ _ _ Hr) Hk).
Qed.

(** *** The catalogue of a scan can be saved *)

Lemma serializable_list (l : list pyval) :
  Forall serializable l -> serializable (PList l).
Proof.
  intros H. unfold serializable. rewrite json_dump_list.
  assert (E : exists js, mapM json_dump l = Ok js).
  { induction H as [|x r [j Hj] _ [js Hjs]]; simpl; eauto.
    rewrite Hj, Hjs. simpl. eauto. }
  destruct E as [js ->]. simpl. eauto.
Qed.

Lemma serializable_dict (d : list (string * pyval)) :
  serializable (PDict d) <-> Forall (fun kv => serializable (snd kv)) d.
Proof.
  unfold serializable. rewrite json_dump_dict. split.
  - intros [j H]. destruct (mapM dump_member d) as [m|] eqn:E; try discriminate.
    clear j H. revert m E. induction d as [|[k x] r IH]; intros m E; simpl in E.
    + constructor.
    + unfold dump_member at 1 in E. simpl in E.
      destruct (json_dump x) as [jx|] eqn:Ex; simpl in E; try discriminate.
      destruct (mapM dump_member r) as [mr|]; simpl in E; try discriminate.
      constructor; simpl; eauto.
  - intros H.
    assert (E : exists m, mapM dump_member d = Ok m).
    { induction H as [|[k x] r [j Hj] _ [m Hm]]; simpl; eauto.
      unfold dump_member at 1. simpl in *. rewrite Hj, Hm. simpl. eauto. }
    destruct E as [m ->]. simpl. eauto.
Qed.

Lemma serializable_setitem (v : pyval) (k : string) (x v' : pyval) :
  serializable v -> serializable x -> py_setitem v k x = Ok v' -> serializable v'.
Proof.
  intros Hv Hx H. destruct v; simpl in H; try discriminate.
  injection H as <-. apply serializable_dict. apply serializable_dict in Hv.
  now apply dict_set_forall.
Qed.

Lemma serializable_getitem (v : pyval) (k : string) (x : pyval) :
  serializable v -> py_getitem v k = Ok x -> serializable x.
Proof.
  intros Hv H. destruct v; simpl in H; try discriminate.
  destruct (dict_get d k) as [y|] eqn:E; try discriminate.
  injection H as <-. apply serializable_dict in Hv.
  exact (dict_get_forall _ _ _ _ Hv E).
Qed.

(** When the values that [get_tag] passes through are of the types the
    encoder knows, [save] writes the catalogue of a scan to any file that
    [open] does not refuse. *)
Lemma CMRDir_save_succeeds
      (w : World) (dicomFolder : string) (studyName : pyval) (quiet : bool)
      (D : CMRDir.t) (out : list event) (filename : string) (st : FileStore) :
  (forall p force dcm, read_file w p force = Ok dcm -> passed serializable dcm) ->
  serializable studyName ->
  CMRDir.from_folder w dicomFolder studyName quiet = (Ok D, out) ->
  dict_get (refused st) filename = None ->
  exists st', CMRDir.save D filename st = (Ok tt, st').
Proof.
  intros Hw Hn Hscan Href.
  assert (H : serializable (CMRDir.source D) /\ serializable (CMRDir.studyName D)
              /\ serializable (CMRDir.dicomDir D)).
  { revert Hn Hscan.
    apply (inv_from_folder serializable
             (ex_intro _ JNull eq_refl)
             (fun s => ex_intro _ (JString s) eq_refl)
             (fun f => ex_intro _ (JReal f) eq_refl)
             serializable_list
             (ex_intro _ (JObject []) eq_refl)
             serializable_setitem serializable_getitem w Hw). }
  destruct H as [[js Hs] [[jn Hn'] [jd Hd]]].
  unfold CMRDir.save, mbind, open_w, json_dump_to. rewrite Href.
  rewrite json_dump_dict. cbn [mapM]. unfold dump_member. cbn [fst snd].
  rewrite Hs, Hn', Hd. simpl. eauto.
Qed.

(** C3.  A catalogue that [CMRDir.from_folder] built, once saved, is
    restored by [CMRDir.from_file] as a catalogue deeply equal to it:
    source, study name, and the whole tree of studies, series and
    instances with every tag value. *)
Theorem CMRDir_snapshot_round_trip
        (w : World) (dicomFolder : string) (studyName : pyval) (quiet : bool)
        (D : CMRDir.t) (out : list event)
        (filename : string) (st st' : FileStore) :
  proper_values w -> unique_keys studyName ->
  CMRDir.from_folder w dicomFolder studyName quiet = (Ok D, out) ->
  CMRDir.save D filename st = (Ok tt, st') ->
  exists D' st'',
    CMRDir.from_file filename st' = (Ok D', st'') /\ same_catalogue D' D.
Proof.
  intros Hw Hn Hscan Hsave.
  destruct (unique_from_folder _ _ _ _ _ _ Hw Hn Hscan) as [Hs [Hn' Hd]].
  destruct (save_then_from_file _ _ _ _ Hs Hn' Hd Hsave) as [D' [H1 H2]].
  eauto.
Qed.

(** ** The tags [DicomDir.scan] collects *)

Lemma make_tag_spec (dcmdir : pyval) (f : string) (dcm : Dataset)
      (t : list (string * pyval)) :
  DicomDir.make_tag dcmdir f dcm = Ok t ->
  exists name,
    DicomDir.strip_root dcmdir f = Ok name
    /\ dict_get t "Filename" = Some (PStr name)
    /\ dict_get t "ImageOrientationPatient"
       = Some (stored_geometry dcm "ImageOrientationPatient" "ImageOrientation")
    /\ dict_get t "ImagePositionPatient"
       = Some (stored_geometry dcm "ImagePositionPatient" "ImagePosition")
    /\ dict_get t "SeriesInstanceUID"
       = Some (DicomDir.attr_or_none dcm "SeriesInstanceUID")
    /\ dict_get t "SeriesNumber"
       = Some (DicomDir.attr_or_none dcm "SeriesNumber")
    /\ dict_get t "StudyInstanceUID"
       = Some (DicomDir.attr_or_none dcm "StudyInstanceUID")
    /\ dict_get t "PatientID"
       = Some (DicomDir.attr_or_none dcm "PatientID").
Proof.
  unfold DicomDir.make_tag, stored_geometry. intros H.
  destruct (DicomDir.strip_root dcmdir f) as [name|] eqn:Es;
    cbn [bind] in H; try discriminate.
  exists name. split; [reflexivity|].
  unfold DicomDir.second_attempt in H.
  remember (DicomDir.attr_or_none dcm) as g eqn:Hg. clear Hg.
  cbv in H.
  destruct (g "ImageOrientationPatient") eqn:E1;
    destruct (g "ImagePositionPatient") eqn:E2;
    injection H as <-; cbv; rewrite ?E1, ?E2; repeat split; reflexivity.
Qed.

Lemma mapM_In {A B : Type} (f : A -> result B) (l : list A) (r : list B) (x : A) :
  mapM f l = Ok r -> In x l -> exists y, f x = Ok y /\ In y r.
Proof.
  revert r. induction l as [|a l IH]; intros r H Hin; simpl in *; try contradiction.
  destruct (f a) as [b|] eqn:Ea; simpl in H; try discriminate.
  destruct (mapM f l) as [r'|] eqn:Er; simpl in H; try discriminate.
  injection H as <-. destruct Hin as [->|Hin].
  - exists b. simpl. auto.
  - destruct (IH _ eq_refl Hin) as [y [Hy Hr]]. exists y. simpl. auto.
Qed.

Lemma filterM_In {A : Type} (p : A -> result bool) (l r : list A) (x : A) :
  DicomDir.filterM p l = Ok r -> In x l -> p x = Ok true -> In x r.
Proof.
  revert r. induction l as [|a l IH]; intros r H Hin Hp; simpl in *;
    try contradiction.
  destruct (p a) as [b|] eqn:Ea; simpl in H; try discriminate.
  destruct (DicomDir.filterM p l) as [r'|] eqn:Er; simpl in H; try discriminate.
  injection H as <-. destruct Hin as [->|Hin].
  - rewrite Hp in Ea. injection Ea as <-. simpl. auto.
  - destruct b; simpl; auto.
Qed.

Lemma filterM_sub {A : Type} (p : A -> result bool) (l r : list A) (x : A) :
  DicomDir.filterM p l = Ok r -> In x r -> In x l /\ p x = Ok true.
Proof.
  revert r. induction l as [|a l IH]; intros r H Hin; simpl in *.
  - injection H as <-. contradiction.
  - destruct (p a) as [b|] eqn:Ea; simpl in H; try discriminate.
    destruct (DicomDir.filterM p l) as [r'|] eqn:Er; simpl in H; try discriminate.
    injection H as <-. destruct b.
    + destruct Hin as [->|Hin]; auto. destruct (IH _ eq_refl Hin). auto.
    + destruct (IH _ eq_refl Hin). auto.
Qed.

Lemma dict_comp_get {V : Type} (f : string -> result V) (keys : list string) :
  forall (acc d : list (string * V)) (k : string),
    dict_comp f keys acc = Ok d ->
    (In k keys -> exists v, f k = Ok v /\ dict_get d k = Some v)
    /\ (~ In k keys -> dict_get d k = dict_get acc k).
Proof.
  induction keys as [|k0 r IH]; intros acc d k H; simpl in H.
  - injection H as <-. split; [intros []|auto].
  - destruct (f k0) as [v0|] eqn:E0; simpl in H; try discriminate.
    destruct (IH _ _ k H) as [Hin Hout]. split.
    + intros [->|Hk]; auto.
      destruct (in_dec string_dec k r) as [Hr|Hr]; auto.
      exists v0. split; auto. rewrite (Hout Hr). apply dict_get_set_same.
    + intros Hk. simpl in Hk. rewrite Hout by tauto.
      apply dict_get_set_other. tauto.
Qed.

Lemma collect_In (w : World) (dcmdir : pyval) (all_files : list string)
      (all_tags : list (list (string * pyval))) (f : string) (dcm : Dataset) :
  DicomDir.collect w dcmdir all_files = Ok all_tags ->
  In f all_files -> read_dicom w f = Ok (Some dcm) ->
  exists t, DicomDir.make_tag dcmdir f dcm = Ok t /\ In t all_tags.
Proof.
  revert all_tags. induction all_files as [|a l IH]; intros all_tags H Hin Hr;
    simpl in *; try contradiction.
  destruct (read_dicom w a) as [[d|]|] eqn:Ea; simpl in H; try discriminate.
  - destruct (DicomDir.make_tag dcmdir a d) as [t|] eqn:Et; simpl in H;
      try discriminate.
    destruct (DicomDir.collect w dcmdir l) as [ts|] eqn:Ec; simpl in H;
      try discriminate.
    injection H as <-. destruct Hin as [->|Hin].
    + rewrite Hr in Ea. injection Ea as <-. exists t. simpl. auto.
    + destruct (IH _ eq_refl Hin Hr) as [t' [H1 H2]]. exists t'. simpl. auto.
  - destruct (DicomDir.strip_root dcmdir a); simpl in H; try discriminate.
    destruct Hin as [->|Hin].
    + rewrite Hr in Ea. discriminate.
    + now apply IH.
Qed.

(** *** The series [DicomDir.scan] builds *)


Lemma add_series_appends (all_tags : list (list (string * pyval)))
      (ser : pyval * pyval) (s s' : pyval) :
  DicomDir.add_series all_tags ser s = (Ok tt, s') ->
  exists l new_series images,
    py_getitem s "Series" = Ok (PList l)
    /\ py_getitem s' "Series" = Ok (PList (l ++ [PDict new_series]))
    /\ dict_get new_series "Images" = Some (PList images)
    /\ (exists t, In t all_tags
                  /\ DicomDir.in_series (fst ser) (snd ser) t = Ok true)
    /\ forall t, In t all_tags ->
                 DicomDir.in_series (fst ser) (snd ser) t = Ok true ->
                 exists image, image_of t image /\ In (PDict image) images.
Proof.
  unfold DicomDir.add_series. intros H.
  apply mbind_lift_Ok in H. destruct H as [ser_items [Hitems H]].
  apply mbind_lift_Ok in H. destruct H as [first [Hfirst H]].
  apply mbind_lift_Ok in H. destruct H as [new_series [Hnew H]].
  apply mbind_lift_Ok in H. destruct H as [images [Himages H]].
  apply mbind_Ok in H. destruct H as [dcmdir [s1 [Hget H]]].
  unfold DicomDir.get_self in Hget. injection Hget as <- <-.
  apply mbind_lift_Ok in H. destruct H as [all_series [Hall H]].
  apply mbind_lift_Ok in H. destruct H as [all_series' [Happ H]].
  apply mbind_lift_Ok in H. destruct H as [dcmdir' [Hset H]].
  unfold DicomDir.put_self in H. injection H as <-.
  destruct all_series as [| | | | | | | | l | |]; try discriminate.
  injection Happ as <-.
  exists l, (dict_set new_series "Images" (PList images)), images.
  split; [assumption|]. split.
  { destruct s; try discriminate. simpl in Hset. injection Hset as <-.
    simpl. now rewrite dict_get_set_same. }
  split; [apply dict_get_set_same|]. split.
  - destruct ser_items as [|t0 r]; try discriminate.
    exists t0. eapply filterM_sub; [exact Hitems|]. simpl. auto.
  - intros t Hin Hser.
    pose proof (filterM_In _ _ _ _ Hitems Hin Hser) as Hin'.
    destruct (mapM_In _ _ _ _ Himages Hin') as [y [Hy Hy']].
    unfold image_of.
    destruct (DicomDir.restrict t ("Filename" :: DicomDir.IMAGE_TAGS)) as [d|];
      simpl in Hy; try discriminate.
    injection Hy as <-. exists d. auto.
Qed.

Lemma for_each_add_series_grows (all_tags : list (list (string * pyval)))
      (sers : list (pyval * pyval)) :
  forall (s s' : pyval) (l : list pyval),
    DicomDir.for_each (DicomDir.add_series all_tags) sers s = (Ok tt, s') ->
    py_getitem s "Series" = Ok (PList l) ->
    exists l', py_getitem s' "Series" = Ok (PList (l ++ l')).
Proof.
  induction sers as [|ser r IH]; intros s s' l H Hs; simpl in H.
  - unfold mret in H. injection H as <-. exists []. now rewrite app_nil_r.
  - apply mbind_Ok in H. destruct H as [[] [s1 [H1 H2]]].
    destruct (add_series_appends _ _ _ _ H1) as [l0 [new [imgs [Ha [Hb _]]]]].
    rewrite Hs in Ha. injection Ha as <-.
    destruct (IH _ _ _ H2 Hb) as [l' Hl']. exists ([PDict new] ++ l').
    now rewrite app_assoc.
Qed.

Lemma for_each_add_series_In (all_tags : list (list (string * pyval)))
      (sers : list (pyval * pyval)) (ser : pyval * pyval) :
  forall (s s' : pyval),
    DicomDir.for_each (DicomDir.add_series all_tags) sers s = (Ok tt, s') ->
    In ser sers ->
    exists all_series new_series images,
      py_getitem s' "Series" = Ok (PList all_series)
      /\ In (PDict new_series) all_series
      /\ dict_get new_series "Images" = Some (PList images)
      /\ (exists t, In t all_tags
                    /\ DicomDir.in_series (fst ser) (snd ser) t = Ok true)
      /\ forall t, In t all_tags ->
                   DicomDir.in_series (fst ser) (snd ser) t = Ok true ->
                   exists image, image_of t image /\ In (PDict image) images.
Proof.
  induction sers as [|ser0 r IH]; intros s s' H Hin; simpl in *; try contradiction.
  apply mbind_Ok in H. destruct H as [[] [s1 [H1 H2]]].
  destruct Hin as [->|Hin].
  - destruct (add_series_appends _ _ _ _ H1)
      as [l0 [new [imgs [Ha [Hb [Hc [Hd He]]]]]]].
    destruct (for_each_add_series_grows _ _ _ _ _ H2 Hb) as [l' Hl'].
    exists ((l0 ++ [PDict new]) ++ l'), new, imgs.
    repeat split; auto.
    apply in_or_app. left. apply in_or_app. right. simpl. auto.
  - exact (IH _ _ H2 Hin).
Qed.

Lemma scan_steps (w : World) (folder : string) (s' : pyval) :
  DicomDir.scan w None (PDict [("RootFolder", PStr folder)]) = (Ok tt, s') ->
  exists all_tags keys series s1,
    DicomDir.collect w (PDict [("RootFolder", PStr folder)]) (walk_files w folder)
    = Ok all_tags
    /\ (exists uids studies,
          mapM (fun t => DicomDir.item t "StudyInstanceUID") all_tags = Ok uids
          /\ DicomDir.py_set uids = Ok studies /\ List.length studies = 1)
    /\ (exists ids patients,
          mapM (fun t => DicomDir.item t "PatientID") all_tags = Ok ids
          /\ DicomDir.py_set ids = Ok patients /\ List.length patients = 1)
    /\ mapM series_key all_tags = Ok keys
    /\ DicomDir.py_set_pairs keys = Ok series
    /\ py_getitem s1 "Series" = Ok (PList [])
    /\ DicomDir.for_each (DicomDir.add_series all_tags) (set_order w series) s1
       = (Ok tt, s').
Proof.
  unfold DicomDir.scan. intros H.
  apply mbind_Ok in H. destruct H as [folder' [s0 [H0 H]]].
  assert (folder' = folder /\ s0 = PDict [("RootFolder", PStr folder)]) as [-> ->].
  { cbv in H0. injection H0 as <- <-. auto. }
  clear H0.
  apply mbind_Ok in H. destruct H as [dcmdir [s0 [H0 H]]].
  unfold DicomDir.get_self in H0. injection H0 as <- <-.
  apply mbind_lift_Ok in H. destruct H as [all_tags [Htags H]].
  apply mbind_lift_Ok in H. destruct H as [uids [Huids H]].
  apply mbind_lift_Ok in H. destruct H as [studies [Hstudies H]].
  apply mbind_lift_Ok in H. destruct H as [[] [Hone H]].
  apply mbind_lift_Ok in H. destruct H as [ids [Hids H]].
  apply mbind_lift_Ok in H. destruct H as [patients [Hpatients H]].
  apply mbind_lift_Ok in H. destruct H as [[] [Hone' H]].
  apply mbind_lift_Ok in H. destruct H as [dcmdir1 [Hd1 H]].
  apply mbind_Ok in H. destruct H as [[] [s1 [H1 H]]].
  unfold DicomDir.put_self in H1. injection H1 as <-.
  apply mbind_lift_Ok in H. destruct H as [first [_ H]].
  apply mbind_lift_Ok in H. destruct H as [study [_ H]].
  apply mbind_lift_Ok in H. destruct H as [dcmdir2 [Hd2 H]].
  apply mbind_Ok in H. destruct H as [[] [s2 [H2 H]]].
  unfold DicomDir.put_self in H2. injection H2 as <-.
  apply mbind_lift_Ok in H. destruct H as [dcmdir3 [Hd3 H]].
  apply mbind_Ok in H. destruct H as [[] [s3 [H3 H]]].
  unfold DicomDir.put_self in H3. injection H3 as <-.
  apply mbind_lift_Ok in H. destruct H as [keys [Hkeys H]].
  apply mbind_lift_Ok in H. destruct H as [series [Hseries H]].
  exists all_tags, keys, series, dcmdir3.
  split; [assumption|]. split.
  { exists uids, studies. repeat split; auto.
    unfold assert in Hone. destruct (Nat.eqb_spec (List.length studies) 1); auto.
    discriminate. }
  split.
  { exists ids, patients. repeat split; auto.
    unfold assert in Hone'. destruct (Nat.eqb_spec (List.length patients) 1); auto.
    discriminate. }
  repeat split; auto.
  destruct dcmdir2; try discriminate. simpl in Hd3. injection Hd3 as <-.
  simpl. now rewrite dict_get_set_same.
Qed.

Lemma in_series_true (ser : pyval * pyval) (t : list (string * pyval))
      (u n : pyval) :
  dict_get t "SeriesInstanceUID" = Some u -> dict_get t "SeriesNumber" = Some n ->
  (DicomDir.in_series (fst ser) (snd ser) t = Ok true
   <-> py_eqb u (fst ser) = true /\ py_eqb n (snd ser) = true).
Proof.
  intros Hu Hn. unfold DicomDir.in_series, DicomDir.item, py_getitem.
  rewrite Hu, Hn. simpl. destruct (py_eqb u (fst ser)); simpl.
  - split; [intros H; injection H as ->; auto | intros [_ ->]; auto].
  - split; [discriminate | intros [H _]; discriminate].
Qed.

Lemma in_series_keys (ser : pyval * pyval) (t : list (string * pyval)) :
  DicomDir.in_series (fst ser) (snd ser) t = Ok true ->
  exists u n, py_eqb u (fst ser) = true /\ py_eqb n (snd ser) = true.
Proof.
  unfold DicomDir.in_series, DicomDir.item, py_getitem.
  destruct (dict_get t "SeriesInstanceUID") as [u|]; simpl; try discriminate.
  destruct (py_eqb u (fst ser)) eqn:Eu; try discriminate.
  destruct (dict_get t "SeriesNumber") as [n|]; simpl; try discriminate.
  intros H. injection H as H. eauto.
Qed.

Lemma image_of_get (t image : list (string * pyval)) (k : string) (v : pyval) :
  image_of t image -> In k ("Filename" :: DicomDir.IMAGE_TAGS) ->
  dict_get t k = Some v -> dict_get image k = Some v.
Proof.
  unfold image_of, DicomDir.restrict. intros H Hk Hv.
  destruct (dict_comp_get _ _ _ _ k H) as [Hin _].
  destruct (Hin Hk) as [v' [H1 H2]].
  unfold DicomDir.item, py_getitem in H1. rewrite Hv in H1.
  injection H1 as <-. exact H2.
Qed.

(** C7.  A file that [DicomDir] scanned has an image entry in the
    directory, under some series; the entry names the file, and under the
    Patient-qualified orientation (position) tag it holds the value of
    that tag, or else of the unqualified tag.  So a file with the
    unqualified tag only has that tag's value there, and [None] is there
    only when the file exposes neither.  This is [DicomDir]'s second
    attempt; [CMRDir] and [CMRStudy] make none. *)
Theorem DicomDir_geometry_falls_back
        (w : World) (folder : string) (self : DicomDir.t)
        (f : string) (dcm : Dataset) (qualified unqualified : string) :
  set_order_complete w ->
  In (qualified, unqualified)
     [("ImageOrientationPatient", "ImageOrientation");
      ("ImagePositionPatient", "ImagePosition")] ->
  DicomDir.init w folder = Ok self ->
  In f (walk_files w folder) ->
  read_dicom w f = Ok (Some dcm) ->
  exists all_series series images image,
    py_getitem (DicomDir.dcmdir self) "Series" = Ok (PList all_series)
    /\ In (PDict series) all_series
    /\ dict_get series "Images" = Some (PList images)
    /\ In (PDict image) images
    /\ dict_get image "Filename" = Some (PStr (str_replace f folder ""))
    /\ dict_get image qualified = Some (stored_geometry dcm qualified unqualified)
    /\ (dcm_has dcm qualified = false ->
        forall v, dcm_lookup dcm unqualified = Some v ->
                  dict_get image qualified = Some v)
    /\ (dict_get image qualified = Some PNone ->
        DicomDir.attr_or_none dcm qualified = PNone
        /\ DicomDir.attr_or_none dcm unqualified = PNone).
Proof.
  intros Horder Hpair Hinit Hf Hread.
  unfold DicomDir.init in Hinit.
  destruct (assert (isdir w folder) PNone); cbn [bind] in Hinit; try discriminate.
  destruct (DicomDir.scan w None (PDict [("RootFolder", PStr folder)]))
    as [[[]|] s'] eqn:Hscan; try discriminate.
  injection Hinit as <-. cbn [DicomDir.dcmdir].
  destruct (scan_steps _ _ _ Hscan)
    as [all_tags [keys [sers [s1 [Htags [_ [_ [Hkeys [Hsers [Hs1 Hloop]]]]]]]]]].
  destruct (collect_In _ _ _ _ _ _ Htags Hf Hread) as [t [Ht Hint]].
  destruct (make_tag_spec _ _ _ _ Ht)
    as [name [Hname [Hfile [Hio [Hip [Huid [Hnum _]]]]]]].
  assert (name = str_replace f folder "") as ->.
  { cbv [DicomDir.strip_root py_getitem dict_get] in Hname. simpl in Hname.
    now injection Hname as <-. }
  (* the series of the file *)
  destruct (mapM_In _ _ _ _ Hkeys Hint) as [k [Hk Hkin]].
  unfold series_key, DicomDir.item, py_getitem in Hk.
  rewrite Huid, Hnum in Hk. simpl in Hk. injection Hk as <-.
  unfold DicomDir.py_set_pairs in Hsers.
  destruct (forallb _ keys); try discriminate. injection Hsers as <-.
  destruct (set_of_list_covers DicomDir.pair_eqb keys _ Hkin) as [y [Hy Hyk]].
  apply Horder in Hy.
  destruct (for_each_add_series_In _ _ _ _ _ Hloop Hy)
    as [all_series [series [images [Hall [Hin [Himgs [[t1 [_ Ht1]] Hmine]]]]]]].
  assert (Hser : DicomDir.in_series (fst y) (snd y) t = Ok true).
  { apply (in_series_true y t _ _ Huid Hnum).
    destruct Hyk as [->|Hyk].
    - destruct (in_series_keys _ _ Ht1) as [u1 [n1 [Hu1 Hn1]]]. simpl in *.
      split; eapply py_eqb_right_refl; eassumption.
    - unfold DicomDir.pair_eqb in Hyk. apply andb_true_iff in Hyk.
      simpl in Hyk. destruct Hyk. split; now apply py_eqb_sym. }
  destruct (Hmine t Hint Hser) as [image [Himage Hinimg]].
  assert (Hq : dict_get image qualified
               = Some (stored_geometry dcm qualified unqualified)).
  { simpl in Hpair. destruct Hpair as [E|[E|[]]]; injection E as <- <-;
      (eapply image_of_get; [exact Himage| |assumption]); simpl; tauto. }
  exists all_series, series, images, image.
  repeat split; auto.
  - eapply image_of_get; [exact Himage| |exact Hfile]. simpl. auto.
  - intros Hno v Hv. rewrite Hq. unfold stored_geometry, DicomDir.attr_or_none.
    rewrite Hno. unfold dcm_has. rewrite Hv. reflexivity.
  - rewrite Hq in H. injection H as H. unfold stored_geometry in H.
    destruct (DicomDir.attr_or_none dcm qualified); try discriminate; auto.
  - rewrite Hq in H. injection H as H. unfold stored_geometry in H.
    destruct (DicomDir.attr_or_none dcm qualified); try discriminate; auto.
Qed.

(** The cine image has the unqualified orientation and position only.
    [CMRDir.from_folder] and [CMRStudy.from_folder] file it with [None]
    under the Patient-qualified tags: the unqualified values stay under
    their own names. *)
Lemma CMRDir_geometry_does_not_fall_back :
  read_dicom cine_world "data/a.dcm" = Ok (Some cine_record)
  /\ dcm_has cine_record "ImageOrientationPatient" = false
  /\ dcm_has cine_record "ImagePositionPatient" = false
  /\ dcm_lookup cine_record "ImageOrientation"
     = Some (PMultiValue [DS 1 0; DS 0 0; DS 0 0; DS 0 0; DS 1 0; DS 0 0])
  /\ dcm_lookup cine_record "ImagePosition" = Some (PBytes "-120.5\-98\14")
  /\ (exists D out inst,
        CMRDir.from_folder cine_world "data" PNone true = (Ok D, out)
        /\ (let* study := py_getitem (CMRDir.dicomDir D) "1.2" in
            let* series := py_getitem study "1.2.3" in
            py_getitem series "1.2.3.4") = Ok (PDict inst)
        /\ dict_get inst "ImageOrientationPatient" = Some PNone
        /\ dict_get inst "ImagePositionPatient" = Some PNone
        /\ dict_get inst "ImagePosition"
           = Some (PList [PStr "-120.5"; PStr "-98"; PStr "14"]))
  /\ forall verbose : bool,
     exists S inst,
       fst (CMRStudy.from_folder cine_world "data" verbose []) = Ok S
       /\ (let* all_series := py_getitem (CMRStudy.dcmdir S) "Series" in
           let* series := py_getitem all_series "1.2.3" in
           let* instances := py_getitem series "Instances" in
           py_getitem instances "1.2.3.4") = Ok (PDict inst)
       /\ dict_get inst "ImageOrientationPatient" = Some PNone
       /\ dict_get inst "ImagePositionPatient" = Some PNone.
Proof.
  repeat (split; [reflexivity|]).
  split.
  - do 3 eexists. split; [vm_compute; reflexivity|].
    split; [vm_compute; reflexivity|]. repeat split.
  - intros []; do 2 eexists;
      (split; [vm_compute; reflexivity|]);
      (split; [vm_compute; reflexivity|]); split; reflexivity.
Qed.

(** ** Folders without images *)

Lemma CMRDir_add_files_none (w : World) (dicomFolder : string) (quiet : bool)
      (allFiles : list string) :
  (forall f, In f allFiles -> read_dicom w f = Ok None) ->
  forall dir out, exists out',
    CMRDir.add_files w dicomFolder quiet allFiles dir out = (Ok dir, out').
Proof.
  induction allFiles as [|f rest IH]; intros Hnone dir out; simpl.
  - eauto.
  - rewrite (Hnone f) by (left; reflexivity).
    apply IH. intros g Hg. apply Hnone. now right.
Qed.

(** A folder in which [read_dicom] recognizes no file gives an empty
    [CMRDir] catalogue, without studies and without a patient. *)
Lemma CMRDir_folder_without_images (w : World) (dicomFolder : string)
      (studyName : pyval) (quiet : bool) :
  isdir w dicomFolder = true -> no_image w dicomFolder ->
  exists D out,
    CMRDir.from_folder w dicomFolder studyName quiet = (Ok D, out)
    /\ CMRDir.is_empty D = Ok true
    /\ CMRDir.get_study_uids D = Ok []
    /\ CMRDir.get_patient_id D None = Ok PNone.
Proof.
  intros Hdir Hnone. unfold CMRDir.from_folder. rewrite Hdir. cbn [negb].
  assert (E : CMRDir.dicomDir
                match studyName with
                | PNone => CMRDir.init (PStr (basename dicomFolder))
                | _ => CMRDir.init studyName
                end = PDict []) by (destruct studyName; reflexivity).
  rewrite E.
  destruct (CMRDir_add_files_none w dicomFolder quiet _ Hnone (PDict [])
              [PrintCount (List.length (walk_files w dicomFolder))]) as [out' ->].
  eexists. eexists. split; [reflexivity|]. repeat split.
Qed.

Lemma CMRStudy_add_files_none (w : World) (folder_name : string) (verbose : bool)
      (all_files : list string) :
  (forall f, In f all_files -> read_dicom w f = Ok None) ->
  forall st out,
    CMRStudy.add_files w folder_name verbose all_files st out = (Ok st, out).
Proof.
  induction all_files as [|f rest IH]; intros Hnone st out; simpl.
  - reflexivity.
  - unfold mbind, lift. rewrite (Hnone f) by (left; reflexivity).
    apply IH. intros g Hg. apply Hnone. now right.
Qed.

(** The same folder gives an empty [CMRStudy]. *)
Lemma CMRStudy_folder_without_images (w : World) (folder_name : string)
      (verbose : bool) (out : list event) :
  isdir w folder_name = true -> no_image w folder_name ->
  exists S out',
    CMRStudy.from_folder w folder_name verbose out = (Ok S, out')
    /\ CMRStudy.is_empty S = Ok true
    /\ CMRStudy.study_instance_uid S = PNone.
Proof.
  intros Hdir Hnone. unfold CMRStudy.from_folder. rewrite Hdir. cbn [negb].
  destruct verbose; unfold CMRStudy.when, mbind, print, mret; cbv beta;
    rewrite (CMRStudy_add_files_none w folder_name _ _ Hnone);
    eexists; eexists; (split; [reflexivity|]); split; reflexivity.
Qed.

Lemma DicomDir_collect_none (w : World) (root : string) (all_files : list string) :
  (forall f, In f all_files -> read_dicom w f = Ok None) ->
  DicomDir.collect w (PDict [("RootFolder", PStr root)]) all_files = Ok [].
Proof.
  induction all_files as [|f rest IH]; intros Hnone; simpl.
  - reflexivity.
  - rewrite (Hnone f) by (left; reflexivity). simpl.
    apply IH. intros g Hg. apply Hnone. now right.
Qed.

(** X28.  On a folder without a recognized file [DicomDir] raises
    [AssertionError]: no tag was collected, and the first assertion wants
    exactly one StudyInstanceUID. *)
Lemma DicomDir_folder_without_images (w : World) (folder : string) :
  isdir w folder = true -> no_image w folder ->
  DicomDir.init w folder = Raise (AssertionError PNone).
Proof.
  intros Hdir Hnone. unfold DicomDir.init. rewrite Hdir. simpl.
  unfold DicomDir.scan, mbind, lift, mret, DicomDir.get_self. simpl.
  rewrite (DicomDir_collect_none w folder _ Hnone). simpl. reflexivity.
Qed.

(** ** More than one study or patient in [DicomDir] *)

Lemma py_eqb_text (z x : pyval) :
  match x with PStr _ | PNone => True | _ => False end ->
  z = x \/ py_eqb z x = true -> z = x.
Proof.
  intros Hx [H|H]; auto.
  destruct x; try contradiction; destruct z; try discriminate H; auto.
  unfold py_eqb in H. simpl in H. apply String.eqb_eq in H. now subst.
Qed.

Lemma py_set_single (l s : list pyval) (x y : pyval) :
  DicomDir.py_set l = Ok s -> List.length s = 1 -> In x l -> In y l ->
  exists z, (z = x \/ py_eqb z x = true) /\ (z = y \/ py_eqb z y = true).
Proof.
  unfold DicomDir.py_set. destruct (forallb hashable l); try discriminate.
  intros H Hlen Hx Hy. injection H as <-.
  destruct (set_of_list_covers py_eqb l x Hx) as [z1 [Hz1 H1]].
  destruct (set_of_list_covers py_eqb l y Hy) as [z2 [Hz2 H2]].
  destruct (set_of_list py_eqb l) as [|z [|z' r]]; try discriminate.
  simpl in Hz1, Hz2. destruct Hz1 as [<-|[]]. destruct Hz2 as [<-|[]].
  exists z. auto.
Qed.

Lemma attr_study_uid (dcm : Dataset) :
  DicomDir.attr_or_none dcm "StudyInstanceUID"
  = match StudyInstanceUID dcm with Some u => PStr u | None => PNone end.
Proof.
  unfold DicomDir.attr_or_none, dcm_has, dcm_lookup. simpl.
  destruct (StudyInstanceUID dcm); reflexivity.
Qed.

(** X25.  Two recognized files with different StudyInstanceUIDs, or with
    different PatientID strings: [DicomDir] raises, so that no directory
    comes back. *)
Lemma DicomDir_rejects_second_study_or_patient
      (w : World) (folder f1 f2 : string) (d1 d2 : Dataset) :
  In f1 (walk_files w folder) -> In f2 (walk_files w folder) ->
  read_dicom w f1 = Ok (Some d1) -> read_dicom w f2 = Ok (Some d2) ->
  StudyInstanceUID d1 <> StudyInstanceUID d2
  \/ (exists a b, dcm_lookup d1 "PatientID" = Some (PStr a)
                  /\ dcm_lookup d2 "PatientID" = Some (PStr b) /\ a <> b) ->
  exists e, DicomDir.init w folder = Raise e.
Proof.
  intros Hf1 Hf2 Hr1 Hr2 Hdiff.
  destruct (DicomDir.init w folder) as [self|e] eqn:Hinit; [exfalso|eauto].
  unfold DicomDir.init in Hinit.
  destruct (assert (isdir w folder) PNone); cbn [bind] in Hinit; try discriminate.
  destruct (DicomDir.scan w None (PDict [("RootFolder", PStr folder)]))
    as [[[]|] s'] eqn:Hscan; try discriminate.
  destruct (scan_steps _ _ _ Hscan)
    as [all_tags [keys [sers [s1 [Htags [Hstudies [Hpatients _]]]]]]].
  destruct (collect_In _ _ _ _ _ _ Htags Hf1 Hr1) as [t1 [Ht1 Hin1]].
  destruct (collect_In _ _ _ _ _ _ Htags Hf2 Hr2) as [t2 [Ht2 Hin2]].
  destruct (make_tag_spec _ _ _ _ Ht1) as [_ [_ [_ [_ [_ [_ [_ [Hs1 Hp1]]]]]]]].
  destruct (make_tag_spec _ _ _ _ Ht2) as [_ [_ [_ [_ [_ [_ [_ [Hs2 Hp2]]]]]]]].
  destruct Hdiff as [Hdiff|[pa [pb [Ha [Hb Hab]]]]].
  - destruct Hstudies as [uids [studies [Huids [Hset Hlen]]]].
    destruct (mapM_In _ _ _ _ Huids Hin1) as [v1 [Hv1 Hv1in]].
    destruct (mapM_In _ _ _ _ Huids Hin2) as [v2 [Hv2 Hv2in]].
    unfold DicomDir.item, py_getitem in Hv1, Hv2. rewrite Hs1 in Hv1.
    rewrite Hs2 in Hv2. injection Hv1 as <-. injection Hv2 as <-.
    destruct (py_set_single _ _ _ _ Hset Hlen Hv1in Hv2in) as [z [Hz1 Hz2]].
    rewrite attr_study_uid in Hz1, Hz2.
    apply py_eqb_text in Hz1; [|destruct (StudyInstanceUID d1); exact I].
    apply py_eqb_text in Hz2; [|destruct (StudyInstanceUID d2); exact I].
    apply Hdiff. subst z.
    destruct (StudyInstanceUID d1), (StudyInstanceUID d2); congruence.
  - destruct Hpatients as [ids [patients [Hids [Hset Hlen]]]].
    destruct (mapM_In _ _ _ _ Hids Hin1) as [v1 [Hv1 Hv1in]].
    destruct (mapM_In _ _ _ _ Hids Hin2) as [v2 [Hv2 Hv2in]].
    unfold DicomDir.item, py_getitem in Hv1, Hv2. rewrite Hp1 in Hv1.
    rewrite Hp2 in Hv2. injection Hv1 as <-. injection Hv2 as <-.
    destruct (py_set_single _ _ _ _ Hset Hlen Hv1in Hv2in) as [z [Hz1 Hz2]].
    unfold DicomDir.attr_or_none, dcm_has in Hz1, Hz2.
    rewrite Ha in Hz1. rewrite Hb in Hz2.
    apply py_eqb_text in Hz1; [|exact I]. apply py_eqb_text in Hz2; [|exact I].
    apply Hab. congruence.
Qed.

(** ** One study, no duplicate: the checks of [CMRStudy.from_folder] *)

Lemma py_get_set_same (v : pyval) (k : string) (x v' : pyval) :
  py_setitem v k x = Ok v' -> py_getitem v' k = Ok x.
Proof.
  destruct v; simpl; try discriminate. intros H. injection H as <-.
  simpl. now rewrite dict_get_set_same.
Qed.

Lemma py_get_set_other (v : pyval) (k k' : string) (x v' : pyval) :
  py_setitem v k x = Ok v' -> k <> k' -> py_getitem v' k' = py_getitem v k'.
Proof.
  destruct v; simpl; try discriminate. intros H Hk. injection H as <-.
  simpl. now rewrite dict_get_set_other.
Qed.

Lemma py_contains_getitem (v : pyval) (k : string) (x : pyval) :
  py_getitem v k = Ok x -> py_contains k v = Ok true.
Proof.
  destruct v; simpl; try discriminate. unfold dict_mem.
  destruct (dict_get d k); try discriminate. reflexivity.
Qed.

Lemma py_contains_set (v : pyval) (k k' : string) (x v' : pyval) :
  py_setitem v k x = Ok v' -> py_contains k' v = Ok true ->
  py_contains k' v' = Ok true.
Proof.
  destruct v; simpl; try discriminate. intros H Hk. injection H as <-.
  simpl. unfold dict_mem in *. destruct (string_dec k k') as [->|Hne].
  - now rewrite dict_get_set_same.
  - now rewrite dict_get_set_other.
Qed.

Lemma assert_Ok (cond : bool) (msg : pyval) (u : unit) :
  assert cond msg = Ok u -> cond = true.
Proof. destruct cond; simpl; auto; discriminate. Qed.

Lemma CMRStudy_add_file_Ok (w : World) (folder_name : string) (verbose : bool)
      (f : string) (dcm : Dataset) (st st' : option string * pyval)
      (out out' : list event) :
  CMRStudy.add_file w folder_name verbose f dcm st out = (Ok st', out') ->
  exists u ser sop,
    StudyInstanceUID dcm = Some u
    /\ SeriesInstanceUID dcm = Some ser
    /\ SOPInstanceUID dcm = Some sop
    /\ fst st' = Some u
    /\ (forall u0, fst st = Some u0 -> u0 = u)
    /\ has_instance (snd st') ser sop
    /\ (fst st <> None -> ~ has_instance (snd st) ser sop)
    /\ (fst st <> None -> forall ser' sop',
          has_instance (snd st) ser' sop' -> has_instance (snd st') ser' sop').
Proof.
  unfold CMRStudy.add_file. intros H.
  apply mbind_Ok in H. destruct H as [[study_iuid dd] [out1 [Hfirst H]]].
  apply mbind_lift_Ok in H. destruct H as [u [Hu H]].
  apply mbind_lift_Ok in H. destruct H as [[] [Hsame H]].
  apply assert_Ok in Hsame. apply String.eqb_eq in Hsame. subst study_iuid.
  apply mbind_lift_Ok in H. destruct H as [ser [Hser H]].
  apply mbind_lift_Ok in H. destruct H as [all_series [Hall H]].
  apply mbind_lift_Ok in H. destruct H as [known [Hknown H]].
  apply mbind_Ok in H. destruct H as [all_series1 [out2 [Hnew H]]].
  apply mbind_lift_Ok in H. destruct H as [sop [Hsop H]].
  apply mbind_lift_Ok in H. destruct H as [series1 [Hseries1 H]].
  apply mbind_lift_Ok in H. destruct H as [instances1 [Hinst1 H]].
  apply mbind_lift_Ok in H. destruct H as [dup [Hdup H]].
  apply mbind_lift_Ok in H. destruct H as [[] [Hnodup H]].
  apply assert_Ok in Hnodup. apply negb_true_iff in Hnodup. subst dup.
  apply mbind_lift_Ok in H. destruct H as [new_instance [_ H]].
  apply mbind_lift_Ok in H. destruct H as [sop' [Hsop' H]].
  rewrite Hsop in Hsop'. injection Hsop' as <-.
  apply mbind_lift_Ok in H. destruct H as [instances2 [Hinst2 H]].
  apply mbind_lift_Ok in H. destruct H as [series2 [Hseries2 H]].
  apply mbind_lift_Ok in H. destruct H as [all_series2 [Hall2 H]].
  apply mbind_lift_Ok in H. destruct H as [dd2 [Hdd2 H]].
  unfold mret in H. injection H as <- <-.
  unfold dcm_uid in Hu, Hser, Hsop.
  destruct (StudyInstanceUID dcm) as [u'|] eqn:Eu; try discriminate.
  destruct (SeriesInstanceUID dcm) as [ser'|] eqn:Eser; try discriminate.
  destruct (SOPInstanceUID dcm) as [sop'|] eqn:Esop; try discriminate.
  injection Hu as ->. injection Hser as ->. injection Hsop as ->.
  (* the series dictionary after the series was added, if it was new *)
  assert (Hkeep : known = true -> all_series1 = all_series).
  { intros ->. simpl in Hnew. unfold mret in Hnew. now injection Hnew as <-. }
  exists u, ser, sop. cbn [fst snd].
  split; [reflexivity|]. split; [reflexivity|]. split; [reflexivity|].
  split; [reflexivity|]. split.
  { intros u0 Hst. rewrite Hst in Hfirst. unfold mret in Hfirst.
    now injection Hfirst as -> _ _. }
  split.
  { exists all_series2, series2, instances2.
    split; [exact (py_get_set_same _ _ _ _ Hdd2)|].
    split; [exact (py_get_set_same _ _ _ _ Hall2)|].
    split; [exact (py_get_set_same _ _ _ _ Hseries2)|].
    apply py_contains_getitem with (x := PDict
      (dict_set new_instance "Filename"
                (PStr (str_replace f (path_join folder_name "") "")))).
    exact (py_get_set_same _ _ _ _ Hinst2). }
  assert (Hold : fst st <> None -> dd = snd st).
  { intros Hst. destruct (fst st) as [u0|]; [|congruence].
    unfold mret in Hfirst. now injection Hfirst as _ <- _. }
  split.
  - intros Hst [a [s [i [Ha [Hs [Hi Hc]]]]]].
    rewrite <- (Hold Hst) in Ha. rewrite Hall in Ha. injection Ha as <-.
    rewrite (py_contains_getitem _ _ _ Hs) in Hknown. injection Hknown as <-.
    rewrite (Hkeep eq_refl) in Hseries1. rewrite Hs in Hseries1.
    injection Hseries1 as <-. rewrite Hi in Hinst1. injection Hinst1 as <-.
    rewrite Hc in Hdup. discriminate.
  - intros Hst ser0 sop0 [a [s [i [Ha [Hs [Hi Hc]]]]]].
    rewrite <- (Hold Hst) in Ha. rewrite Hall in Ha. injection Ha as <-.
    destruct (string_dec ser ser0) as [<-|Hne].
    + rewrite (py_contains_getitem _ _ _ Hs) in Hknown. injection Hknown as <-.
      rewrite (Hkeep eq_refl) in Hseries1. rewrite Hs in Hseries1.
      injection Hseries1 as <-. rewrite Hi in Hinst1. injection Hinst1 as <-.
      exists all_series2, series2, instances2.
      split; [exact (py_get_set_same _ _ _ _ Hdd2)|].
      split; [exact (py_get_set_same _ _ _ _ Hall2)|].
      split; [exact (py_get_set_same _ _ _ _ Hseries2)|].
      exact (py_contains_set _ _ _ _ _ Hinst2 Hc).
    + exists all_series2, s, i.
      split; [exact (py_get_set_same _ _ _ _ Hdd2)|].
      split; [|auto].
      rewrite (py_get_set_other _ _ _ _ _ Hall2 Hne).
      destruct known.
      * now rewrite (Hkeep eq_refl).
      * simpl in Hnew.
        apply mbind_lift_Ok in Hnew. destruct Hnew as [tags [_ Hnew]].
        apply mbind_lift_Ok in Hnew. destruct Hnew as [as1 [Has1 Hnew]].
        apply mbind_lift_Ok in Hnew. destruct Hnew as [s1 [Hs1 Hnew]].
        apply mbind_lift_Ok in Hnew. destruct Hnew as [s2 [Hs2 Hnew]].
        apply mbind_lift_Ok in Hnew. destruct Hnew as [as2 [Has2 Hnew]].
        apply mbind_Ok in Hnew. destruct Hnew as [[] [out3 [_ Hnew]]].
        unfold mret in Hnew. injection Hnew as <- _.
        rewrite (py_get_set_other _ _ _ _ _ Has2 Hne).
        now rewrite (py_get_set_other _ _ _ _ _ Has1 Hne).
Qed.

(** The two assertions, where they strike. *)
Lemma CMRStudy_add_file_second_study (w : World) (folder_name : string)
      (verbose : bool) (f : string) (dcm : Dataset) (u u' : string) (dd : pyval)
      (out : list event) :
  StudyInstanceUID dcm = Some u' -> u <> u' ->
  CMRStudy.add_file w folder_name verbose f dcm (Some u, dd) out
  = (Raise (AssertionError
              (PStr "Found 2 StudyInstanceUID. The folder must contain 1 study.")),
     out).
Proof.
  intros Hu Hne. unfold CMRStudy.add_file, mbind, lift, mret, dcm_uid. simpl.
  rewrite Hu. destruct (String.eqb_spec u u'); [contradiction|reflexivity].
Qed.

Lemma CMRStudy_add_file_duplicate (w : World) (folder_name : string)
      (verbose : bool) (f : string) (dcm : Dataset) (u ser sop : string)
      (dd : pyval) (out : list event) :
  StudyInstanceUID dcm = Some u -> SeriesInstanceUID dcm = Some ser ->
  SOPInstanceUID dcm = Some sop -> has_instance dd ser sop ->
  CMRStudy.add_file w folder_name verbose f dcm (Some u, dd) out
  = (Raise (AssertionError (PStr "Duplicate SOPInstanceUID is found!!")), out).
Proof.
  intros Hu Hser Hsop [a [s [i [Ha [Hs [Hi Hc]]]]]].
  unfold CMRStudy.add_file, mbind, lift, mret, dcm_uid. simpl.
  rewrite Hu, String.eqb_refl, Hser. simpl. rewrite Ha.
  rewrite (py_contains_getitem _ _ _ Hs). simpl.
  rewrite Hsop, Hs, Hi, Hc. reflexivity.
Qed.

Lemma CMRStudy_add_files_app (w : World) (folder_name : string) (verbose : bool)
      (l l' : list string) (st : option string * pyval) (out : list event) :
  CMRStudy.add_files w folder_name verbose (l ++ l') st out
  = mbind (CMRStudy.add_files w folder_name verbose l st)
          (fun st1 => CMRStudy.add_files w folder_name verbose l' st1) out.
Proof.
  revert st out. induction l as [|f r IH]; intros st out; simpl.
  - reflexivity.
  - unfold mbind, lift in *.
    destruct (read_dicom w f) as [[dcm|]|e]; auto.
    destruct (CMRStudy.add_file w folder_name verbose f dcm st out)
      as [[st1|e] out1]; auto.
Qed.

Lemma CMRStudy_add_files_Ok (w : World) (folder_name : string) (verbose : bool)
      (all_files : list string) :
  forall (st st' : option string * pyval) (out out' : list event),
    CMRStudy.add_files w folder_name verbose all_files st out = (Ok st', out') ->
    (forall u0, fst st = Some u0 -> fst st' = Some u0)
    /\ (forall f dcm, In f all_files -> read_dicom w f = Ok (Some dcm) ->
                      StudyInstanceUID dcm = fst st' /\ fst st' <> None)
    /\ (fst st <> None -> forall ser sop,
          has_instance (snd st) ser sop -> has_instance (snd st') ser sop).
Proof.
  induction all_files as [|f rest IH]; intros st st' out out' H; simpl in H.
  - unfold mret in H. injection H as <- <-.
    split; [auto|]. split; [intros f dcm []|auto].
  - apply mbind_lift_Ok in H. destruct H as [r [Hr H]].
    destruct r as [dcm|].
    + apply mbind_Ok in H. destruct H as [st1 [out1 [H1 H2]]].
      destruct (CMRStudy_add_file_Ok _ _ _ _ _ _ _ _ _ H1)
        as [u [ser [sop [Hu [_ [_ [Hst1 [Hsame [_ [_ Hmono]]]]]]]]]].
      destruct (IH _ _ _ _ H2) as [Hkeep [Hall Hmono']].
      pose proof (Hkeep _ Hst1) as Hst'.
      split; [|split].
      * intros u0 Hu0. rewrite (Hsame _ Hu0). exact Hst'.
      * intros g d [<-|Hg] Hd.
        -- rewrite Hr in Hd. injection Hd as <-. rewrite Hu, Hst'.
           split; [reflexivity|discriminate].
        -- exact (Hall g d Hg Hd).
      * intros Hst ser0 sop0 Hhas. apply Hmono'.
        -- rewrite Hst1. discriminate.
        -- now apply Hmono.
    + destruct (IH _ _ _ _ H) as [Hkeep [Hall Hmono']].
      split; [exact Hkeep|]. split; [|exact Hmono'].
      intros g d [<-|Hg] Hd.
      * rewrite Hr in Hd. discriminate.
      * exact (Hall g d Hg Hd).
Qed.

Lemma CMRStudy_from_folder_Ok (w : World) (folder_name : string) (verbose : bool)
      (S : CMRStudy.t) (out out' : list event) :
  CMRStudy.from_folder w folder_name verbose out = (Ok S, out') ->
  exists st out1 out2,
    CMRStudy.add_files w folder_name verbose (walk_files w folder_name)
                       (None, PDict []) out1 = (Ok st, out2).
Proof.
  unfold CMRStudy.from_folder. destruct (negb (isdir w folder_name)).
  - discriminate.
  - intros H. apply mbind_Ok in H. destruct H as [[] [out1 [_ H]]].
    apply mbind_Ok in H. destruct H as [st [out2 [H _]]]. eauto.
Qed.

(** X26.  A folder with recognized files of two studies:
    [CMRStudy.from_folder] raises. *)
Lemma CMRStudy_rejects_second_study
      (w : World) (folder_name : string) (verbose : bool) (out : list event)
      (f1 f2 : string) (d1 d2 : Dataset) :
  In f1 (walk_files w folder_name) -> In f2 (walk_files w folder_name) ->
  read_dicom w f1 = Ok (Some d1) -> read_dicom w f2 = Ok (Some d2) ->
  StudyInstanceUID d1 <> StudyInstanceUID d2 ->
  exists e, fst (CMRStudy.from_folder w folder_name verbose out) = Raise e.
Proof.
  intros Hf1 Hf2 Hr1 Hr2 Hdiff.
  destruct (CMRStudy.from_folder w folder_name verbose out) as [[S|e] out'] eqn:H;
    [exfalso|simpl; eauto].
  destruct (CMRStudy_from_folder_Ok _ _ _ _ _ _ H) as [st [o1 [o2 Hadd]]].
  destruct (CMRStudy_add_files_Ok _ _ _ _ _ _ _ _ Hadd) as [_ [Hall _]].
  destruct (Hall _ _ Hf1 Hr1) as [E1 _]. destruct (Hall _ _ Hf2 Hr2) as [E2 _].
  congruence.
Qed.

(** X27.  A folder where a recognized file comes after another with the
    same SeriesInstanceUID and SOPInstanceUID: [CMRStudy.from_folder]
    raises. *)
Lemma CMRStudy_rejects_duplicate_instance
      (w : World) (folder_name : string) (verbose : bool) (out : list event)
      (l1 l2 l3 : list string) (f1 f2 : string) (d1 d2 : Dataset) :
  walk_files w folder_name = l1 ++ f1 :: l2 ++ f2 :: l3 ->
  read_dicom w f1 = Ok (Some d1) -> read_dicom w f2 = Ok (Some d2) ->
  SeriesInstanceUID d1 = SeriesInstanceUID d2 ->
  SOPInstanceUID d1 = SOPInstanceUID d2 ->
  exists e, fst (CMRStudy.from_folder w folder_name verbose out) = Raise e.
Proof.
  intros Hfiles Hr1 Hr2 Hser Hsop.
  destruct (CMRStudy.from_folder w folder_name verbose out) as [[S|e] out'] eqn:H;
    [exfalso|simpl; eauto].
  destruct (CMRStudy_from_folder_Ok _ _ _ _ _ _ H) as [st [o1 [o2 Hadd]]].
  rewrite Hfiles in Hadd.
  rewrite CMRStudy_add_files_app in Hadd.
  apply mbind_Ok in Hadd. destruct Hadd as [st0 [o3 [_ Hadd]]].
  simpl in Hadd. apply mbind_lift_Ok in Hadd. destruct Hadd as [r [Hr Hadd]].
  rewrite Hr1 in Hr. injection Hr as <-.
  apply mbind_Ok in Hadd. destruct Hadd as [st1 [o4 [Hadd1 Hadd]]].
  destruct (CMRStudy_add_file_Ok _ _ _ _ _ _ _ _ _ Hadd1)
    as [u [ser [sop [_ [Hser1 [Hsop1 [Hst1 [_ [Hhas _]]]]]]]]].
  rewrite CMRStudy_add_files_app in Hadd.
  apply mbind_Ok in Hadd. destruct Hadd as [st2 [o5 [Hadd2 Hadd]]].
  destruct (CMRStudy_add_files_Ok _ _ _ _ _ _ _ _ Hadd2) as [Hkeep [_ Hmono]].
  simpl in Hadd. apply mbind_lift_Ok in Hadd. destruct Hadd as [r [Hr Hadd]].
  rewrite Hr2 in Hr. injection Hr as <-.
  apply mbind_Ok in Hadd. destruct Hadd as [st3 [o6 [Hadd3 _]]].
  destruct (CMRStudy_add_file_Ok _ _ _ _ _ _ _ _ _ Hadd3)
    as [u' [ser' [sop' [_ [Hser2 [Hsop2 [_ [_ [_ [Hfresh _]]]]]]]]]].
  assert (Hst2 : fst st2 <> None) by (rewrite (Hkeep _ Hst1); discriminate).
  apply (Hfresh Hst2).
  assert (ser' = ser) as -> by congruence.
  assert (sop' = sop) as -> by congruence.
  apply Hmono; [rewrite Hst1; discriminate | exact Hhas].
Qed.

(** ** Where the code departs from the specification *)

(** C1.  Two files with the same SOPInstanceUID (same study, same
    series).  [CMRStudy.from_folder] stops on the duplicate.
    [CMRDir.from_folder] returns a catalogue with one instance for the
    UID, holding what the second file says: the first file's [Rows] and
    file name are gone, and nothing but the number of files was printed,
    quiet or not. *)
Theorem CMRDir_overwrites_duplicate_instance :
  walk_files duplicate_world "data" = ["data/a.dcm"; "data/b.dcm"]
  /\ (forall verbose : bool,
        fst (CMRStudy.from_folder duplicate_world "data" verbose [])
        = Raise (AssertionError (PStr "Duplicate SOPInstanceUID is found!!")))
  /\ forall quiet : bool,
       exists D : CMRDir.t,
         CMRDir.from_folder duplicate_world "data" PNone quiet
         = (Ok D, [PrintCount 2])
         /\ CMRDir.get_sop_uids duplicate_world D "1.2" "1.2.3" = Ok ["1.2.3.4"]
         /\ CMRDir.get_filenames duplicate_world D "1.2" "1.2.3" PNone
            = Ok [PStr "b.dcm"]
         /\ CMRDir.get_something_from_series duplicate_world D "1.2" "1.2.3" "Rows"
            = Ok [PInt 2].
Proof.
  split; [reflexivity|]. split; [intros []; vm_compute; reflexivity|].
  intros quiet. eexists. split.
  - destruct quiet; vm_compute; reflexivity.
  - repeat split; vm_compute; reflexivity.
Qed.

(** C2.  Two files of one study with different PatientIDs.
    [DicomDir] refuses the folder; [CMRStudy.from_folder] returns a study
    that holds both images under the first file's PatientID. *)
Theorem CMRStudy_accepts_second_patient :
  DicomDir.init two_patients_world "data" = Raise (AssertionError PNone)
  /\ forall verbose : bool,
     exists S instances,
       fst (CMRStudy.from_folder two_patients_world "data" verbose []) = Ok S
       /\ py_getitem (CMRStudy.dcmdir S) "PatientID" = Ok (PStr "P1")
       /\ (let* all_series := py_getitem (CMRStudy.dcmdir S) "Series" in
           let* series := py_getitem all_series "1.2.3" in
           py_getitem series "Instances") = Ok instances
       /\ py_keys instances = Ok ["1.2.3.4"; "1.2.3.5"].
Proof.
  split; [vm_compute; reflexivity|].
  intros verbose. eexists. eexists. split.
  - destruct verbose; vm_compute; reflexivity.
  - repeat split; vm_compute; reflexivity.
Qed.

(** C4.  A folder without recognizable files.  [CMRDir.from_folder]
    returns an empty catalogue, and [get_patient_id] on it returns [None];
    [CMRStudy.from_folder] returns an empty study; [DicomDir] raises an
    assertion error: the set of StudyInstanceUIDs has no element, and the
    check wants exactly one. *)
Theorem DicomDir_rejects_folder_without_images :
  DicomDir.init empty_world "data" = Raise (AssertionError PNone)
  /\ DicomDir.init text_only_world "data" = Raise (AssertionError PNone)
  /\ (exists D out,
        CMRDir.from_folder empty_world "data" PNone true = (Ok D, out)
        /\ CMRDir.is_empty D = Ok true
        /\ CMRDir.get_study_uids D = Ok []
        /\ CMRDir.get_patient_id D None = Ok PNone)
  /\ (forall verbose : bool,
      exists S,
        fst (CMRStudy.from_folder empty_world "data" verbose []) = Ok S
        /\ CMRStudy.is_empty S = Ok true).
Proof.
  split; [vm_compute; reflexivity|]. split; [vm_compute; reflexivity|]. split.
  - eexists. eexists. split; [vm_compute; reflexivity|].
    repeat split; vm_compute; reflexivity.
  - intros verbose. eexists. split.
    + destruct verbose; vm_compute; reflexivity.
    + vm_compute; reflexivity.
Qed.

(** C8.  The file [scan/rescan/img.dcm] under the root [scan]: its path
    relative to the root is [rescan/img.dcm].  [CMRDir.from_folder] stores
    [reimg.dcm], since [replace] also removes the [scan/] inside
    [rescan/]; [DicomDir] removes every [scan] and keeps the separators.
    For [data/a.dcm] under [data], [DicomDir] stores [/a.dcm]. *)
Theorem Filename_is_not_the_relative_path :
  walk_files nested_world "scan" = [path_join "scan" "rescan/img.dcm"]
  /\ (exists D out,
        CMRDir.from_folder nested_world "scan" PNone true = (Ok D, out)
        /\ CMRDir.get_filenames nested_world D "1.2" "1.2.3" PNone
           = Ok [PStr "reimg.dcm"])
  /\ (exists S images,
        DicomDir.init nested_world "scan" = Ok S
        /\ (let* all_series := py_getitem (DicomDir.dcmdir S) "Series" in
            match all_series with
            | PList [series] => py_getitem series "Images"
            | _ => Raise IndexError
            end) = Ok (PList images)
        /\ mapM (fun i => py_getitem i "Filename") images = Ok [PStr "/re/img.dcm"])
  /\ (exists S images,
        DicomDir.init single_world "data" = Ok S
        /\ walk_files single_world "data" = [path_join "data" "a.dcm"]
        /\ (let* all_series := py_getitem (DicomDir.dcmdir S) "Series" in
            match all_series with
            | PList [series] => py_getitem series "Images"
            | _ => Raise IndexError
            end) = Ok (PList images)
        /\ mapM (fun i => py_getitem i "Filename") images = Ok [PStr "/a.dcm"]).
Proof.
  split; [reflexivity|]. split; [|split].
  - eexists. eexists. split; vm_compute; reflexivity.
  - eexists. eexists. split; [vm_compute; reflexivity|].
    split; vm_compute; reflexivity.
  - eexists. eexists. split; [vm_compute; reflexivity|].
    repeat split; vm_compute; reflexivity.
Qed.

(** ** What [CMRDir.from_folder] stores for a file *)

(** After a file is added, the catalogue holds under the file's three
    identifiers the instance built from this file: its name with the root
    removed by [replace], and every instance tag as [get_tag] returns it.
    Whatever stood there before is replaced. *)
Lemma CMRDir_add_file_stores (w : World) (dicomFolder f : string) (dcm : Dataset)
      (dir dir' : pyval) :
  CMRDir.add_file w dicomFolder f dcm dir = Ok dir' ->
  exists study series sop st se inst,
    StudyInstanceUID dcm = Some study
    /\ SeriesInstanceUID dcm = Some series
    /\ SOPInstanceUID dcm = Some sop
    /\ py_getitem dir' study = Ok st
    /\ py_getitem st series = Ok se
    /\ py_getitem se sop = Ok (PDict inst)
    /\ dict_get inst "Filename"
       = Some (PStr (str_replace f (path_join dicomFolder "") ""))
    /\ forall tag, In tag CMRDir.INSTANCE_TAGS ->
         exists v, CMRDir.get_tag w dcm tag = Ok v /\ dict_get inst tag = Some v.
Proof.
  intros H. unfold CMRDir.add_file in H.
  bind_ok H study E1. bind_ok H known E2. bind_ok H dir1 E3.
  bind_ok H series E5. bind_ok H st0 E6. bind_ok H known' E7.
  bind_ok H st1 E8. bind_ok H inst E10. bind_ok H se0 E11. bind_ok H sop E12.
  bind_ok H se1 E13. bind_ok H st2 E14.
  unfold dcm_uid in E1, E5, E12.
  destruct (StudyInstanceUID dcm) as [u|]; try discriminate.
  destruct (SeriesInstanceUID dcm) as [s|]; try discriminate.
  destruct (SOPInstanceUID dcm) as [i|]; try discriminate.
  injection E1 as ->. injection E5 as ->. injection E12 as ->.
  exists study, series, sop, st2, se1,
    (dict_set inst "Filename" (PStr (str_replace f (path_join dicomFolder "") ""))).
  repeat (split; [reflexivity|]).
  split; [exact (py_get_set_same _ _ _ _ H)|].
  split; [exact (py_get_set_same _ _ _ _ E14)|].
  split; [exact (py_get_set_same _ _ _ _ E13)|].
  split; [apply dict_get_set_same|].
  intros tag Htag.
  destruct (dict_comp_get _ _ _ _ tag E10) as [Hin _].
  destruct (Hin Htag) as [v [Hv Hget]]. exists v. split; auto.
  rewrite dict_get_set_other; auto.
  intros <-. simpl in Htag. intuition discriminate.
Qed.

(** X30.  [CMRDir] has no fall-back: it keeps the qualified and the
    unqualified geometry tag side by side, each as [get_tag] returns it,
    so that the unqualified value is stored whenever the file has it. *)
Lemma CMRDir_keeps_both_geometry_tags (w : World) (dicomFolder f : string)
      (dcm : Dataset) (dir dir' : pyval) (tag : string) :
  In tag ["ImageOrientation"; "ImageOrientationPatient";
          "ImagePosition"; "ImagePositionPatient"] ->
  CMRDir.add_file w dicomFolder f dcm dir = Ok dir' ->
  exists study series sop st se inst v,
    StudyInstanceUID dcm = Some study
    /\ SeriesInstanceUID dcm = Some series
    /\ SOPInstanceUID dcm = Some sop
    /\ py_getitem dir' study = Ok st
    /\ py_getitem st series = Ok se
    /\ py_getitem se sop = Ok (PDict inst)
    /\ CMRDir.get_tag w dcm tag = Ok v
    /\ dict_get inst tag = Some v
    /\ (v = PNone -> dcm_lookup dcm tag = None \/ dcm_lookup dcm tag = Some PNone).
Proof.
  intros Htag H.
  destruct (CMRDir_add_file_stores _ _ _ _ _ _ H)
    as [study [series [sop [st [se [inst [H1 [H2 [H3 [H4 [H5 [H6 [_ Hall]]]]]]]]]]]]].
  destruct (Hall tag) as [v [Hv Hget]].
  { simpl in *. tauto. }
  exists study, series, sop, st, se, inst, v.
  repeat (split; [assumption|]).
  intros ->. unfold CMRDir.get_tag, dcm_has in Hv.
  destruct (dcm_lookup dcm tag) as [x|]; auto. right.
  destruct x; try discriminate; auto.
  - destruct (bytes_decode b); discriminate.
  - destruct (mapM _ l); discriminate.
Qed.

(** ** File names relative to the root *)

Lemma append_nil_r (s : string) : (s ++ "")%string = s.
Proof. induction s; simpl; congruence. Qed.

Lemma append_assoc (a b c : string) :
  ((a ++ b) ++ c)%string = (a ++ b ++ c)%string.
Proof. induction a; simpl; congruence. Qed.

Lemma prefix_append (p s : string) :
  String.prefix p s = true -> exists b, s = (p ++ b)%string.
Proof.
  revert s. induction p as [|c p IH]; intros s H.
  - exists s. reflexivity.
  - destruct s as [|d s]; simpl in H; try discriminate.
    destruct (Ascii.ascii_dec c d) as [->|]; try discriminate.
    destruct (IH _ H) as [b ->]. exists b. reflexivity.
Qed.

Lemma prefix_of_append (p b : string) :
  String.prefix p (p ++ b)%string = true.
Proof.
  induction p as [|c p IH]; simpl.
  - destruct b; reflexivity.
  - destruct (Ascii.ascii_dec c c); [exact IH|contradiction].
Qed.

(** Nothing is replaced in a string where [old] does not occur. *)
Lemma replace_go_absent (old new s : string) :
  ~ occurs old s -> replace_go old new 0 s = s.
Proof.
  induction s as [|c r IH]; intros Hno; cbn [replace_go]; auto.
  destruct (String.prefix old (String c r)) eqn:E.
  - exfalso. apply Hno. destruct (prefix_append _ _ E) as [b Hb].
    exists "", b. exact Hb.
  - f_equal. apply IH. intros [a [b Hab]]. apply Hno.
    exists (String c a), b. simpl. now rewrite Hab.
Qed.

(** The characters of a matched occurrence are dropped. *)
Lemma replace_go_skip (old new p s : string) :
  replace_go old new (String.length p) (p ++ s)%string = replace_go old new 0 s.
Proof.
  induction p as [|c p IH]; simpl; auto.
Qed.

(** [replace] cuts the prefix and nothing else when the prefix does not
    occur in the rest. *)
Lemma str_replace_prefix (old rest : string) :
  old <> "" -> ~ occurs old rest ->
  str_replace (old ++ rest)%string old "" = rest.
Proof.
  intros Hne Hno. unfold str_replace.
  destruct old as [|c old']; [contradiction|].
  change (String c old' ++ rest)%string with (String c (old' ++ rest)%string).
  cbn [replace_go].
  change (String c (old' ++ rest)%string) with (String c old' ++ rest)%string.
  rewrite prefix_of_append.
  cbn [String.length]. rewrite Nat.sub_1_r. cbn [Nat.pred].
  rewrite replace_go_skip. simpl. now apply replace_go_absent.
Qed.

Lemma endswith_append (a n : string) (c : ascii) :
  n <> "" -> endswith_char (a ++ n)%string c = endswith_char n c.
Proof.
  intros Hn. induction a as [|d a IH]; simpl; auto.
  destruct (a ++ n)%string eqn:E; auto.
  destruct a; simpl in E; [contradiction|discriminate].
Qed.

Lemma endswith_has_char (n : string) (c : ascii) :
  endswith_char n c = true -> has_char c n = true.
Proof.
  unfold has_char. induction n as [|d n IH]; simpl; try discriminate.
  destruct n as [|e n].
  - intros H. rewrite Ascii.eqb_sym, H. reflexivity.
  - intros H. rewrite (IH H). apply orb_true_r.
Qed.

Lemma startswith_plain (n : string) :
  has_char slash n = false -> startswith n "/" = false.
Proof.
  unfold startswith. destruct n as [|c n]; [reflexivity|]. intros H.
  unfold has_char in H. cbn [list_ascii_of_string existsb] in H.
  apply orb_false_iff in H. destruct H as [H _]. cbn [String.prefix].
  destruct (Ascii.ascii_dec "/" c) as [<-|]; [|reflexivity].
  exfalso. unfold slash in H. rewrite Ascii.eqb_refl in H. discriminate.
Qed.

(** Joining a non-empty path and a plain name. *)
Lemma path_join_plain (top n : string) :
  top <> "" -> has_char slash n = false ->
  path_join top n = (path_join top "" ++ n)%string.
Proof.
  intros Htop Hn. unfold path_join. rewrite (startswith_plain n Hn).
  change (startswith "" "/") with false. cbv iota.
  destruct top as [|c top]; [contradiction|].
  destruct (endswith_char (String c top) slash).
  - now rewrite append_nil_r.
  - now rewrite !append_assoc.
Qed.

Lemma path_join_dir (top n : string) :
  top <> "" -> plain_name n ->
  path_join top n <> ""
  /\ path_join (path_join top n) "" = (path_join top "" ++ n ++ "/")%string.
Proof.
  intros Htop [Hne Hn]. rewrite (path_join_plain top n Htop Hn).
  assert (Hnot : (path_join top "" ++ n)%string <> "").
  { destruct (path_join top ""); simpl; [assumption|discriminate]. }
  split; [exact Hnot|].
  unfold path_join at 1. change (startswith "" "/") with false. cbv iota.
  destruct (path_join top "" ++ n)%string eqn:E; [contradiction|]. rewrite <- E.
  rewrite (endswith_append _ n slash Hne).
  destruct (endswith_char n slash) eqn:Es.
  - apply endswith_has_char in Es. congruence.
  - now rewrite !append_assoc.
Qed.

Lemma walk_relative (t : dirtree) :
  forall top, top <> "" -> well_named t ->
    flat_map (fun '(root, _, files) => map (path_join root) files) (os_walk top t)
    = map (fun p => (path_join top "" ++ p)%string) (relative_files t).
Proof.
  induction t as [files subs IH] using dirtree_deep_ind.
  intros top Htop [Hfiles Hsubs]. cbn [os_walk relative_files flat_map].
  rewrite map_app. f_equal.
  - apply map_ext_in. intros f Hf. apply path_join_plain; auto.
    rewrite Forall_forall in Hfiles. now destruct (Hfiles f Hf).
  - induction subs as [|[n t'] r IHr]; [reflexivity|].
    destruct Hsubs as [Hn [Ht' Hr]]. inversion IH as [|? ? IHt' IHrest]; subst.
    rewrite flat_map_app, map_app. f_equal.
    + destruct (path_join_dir top n Htop Hn) as [Hne Hjoin].
      simpl in IHt'. rewrite (IHt' _ Hne Ht'). rewrite Hjoin.
      rewrite map_map. apply map_ext. intros p.
      now rewrite !append_assoc.
    + apply IHr; auto.
Qed.

(** X29.  In a well-named folder every file that is walked is the root,
    its separator, and the file's relative path; when the root with its
    separator does not occur again in that relative path, the name
    [CMRDir] and [CMRStudy] store is the relative path. *)
Lemma Filename_relative_when_root_not_repeated
      (w : World) (folder : string) (t : dirtree) :
  dir_at w folder = Some t -> folder <> "" -> well_named t ->
  walk_files w folder
  = map (fun p => (path_join folder "" ++ p)%string) (relative_files t)
  /\ forall p, ~ occurs (path_join folder "") p ->
       str_replace (path_join folder "" ++ p)%string (path_join folder "") "" = p.
Proof.
  intros Hdir Hne Hwf. split.
  - unfold walk_files. rewrite Hdir. now apply walk_relative.
  - intros p Hp. apply str_replace_prefix; auto.
    unfold path_join. change (startswith "" "/") with false. cbv iota.
    destruct folder as [|c r]; [contradiction|].
    destruct (endswith_char (String c r) slash); simpl; discriminate.
Qed.

(** [DicomDir] removes the root without its separator: for a root that
    does not end with one, the name it stores begins with the separator. *)
Lemma DicomDir_filename_keeps_separator (folder p : string) :
  folder <> "" -> endswith_char folder slash = false ->
  ~ occurs folder ("/" ++ p)%string ->
  str_replace (path_join folder "" ++ p)%string folder "" = ("/" ++ p)%string.
Proof.
  intros Hne Hend Hno.
  assert (E : path_join folder "" = (folder ++ "/")%string).
  { unfold path_join. change (startswith "" "/") with false. cbv iota.
    destruct folder as [|c r]; [contradiction|]. now rewrite Hend. }
  rewrite E, append_assoc. now apply str_replace_prefix.
Qed.


(** * Further properties of the code *)

(** ** What one file changes in the catalogue of [CMRDir.from_folder] *)

Lemma dict_set_set {V : Type} (d : list (string * V)) (k : string) (v v' : V) :
  dict_set (dict_set d k v) k v' = dict_set d k v'.
Proof.
  induction d as [|[k0 v0] r IH]; simpl.
  - now rewrite String.eqb_refl.
  - destruct (String.eqb k0 k) eqn:E; simpl; rewrite E; [reflexivity|].
    now rewrite IH.
Qed.

Lemma dict_keys_set {V : Type} (d : list (string * V)) (k : string) (v : V) :
  dict_keys (dict_set d k v) = set_add String.eqb (dict_keys d) k.
Proof.
  unfold dict_keys.
  induction d as [|[k0 v0] r IH]; simpl; [reflexivity|].
  destruct (String.eqb k0 k); simpl; [reflexivity|].
  now rewrite IH.
Qed.

Lemma dict_set_get_id {V : Type} (d : list (string * V)) (k : string) (v : V) :
  dict_get d k = Some v -> dict_set d k v = d.
Proof.
  induction d as [|[k0 v0] r IH]; simpl; [discriminate|].
  destruct (String.eqb k0 k) eqn:E.
  - intros [= ->]. reflexivity.
  - intros H. now rewrite IH.
Qed.

Lemma dict_mem_get {V : Type} (d : list (string * V)) (k : string) :
  dict_mem d k = false -> dict_get d k = None.
Proof. unfold dict_mem. now destruct (dict_get d k). Qed.

Lemma dcm_uid_Some (field : Dataset -> option string) (name : string)
      (dcm : Dataset) (u : string) :
  dcm_uid field name dcm = Ok u -> field dcm = Some u.
Proof. unfold dcm_uid. destruct (field dcm); congruence. Qed.

(** The catalogue after a file was added, written out: the study and the
    series of the file are created with the tags of this file if they
    were not there, and the instance is put under the three
    identifiers. *)
Lemma CMRDir_add_file_shape (w : World) (dicomFolder f : string) (dcm : Dataset)
      (dir dir' : pyval) :
  CMRDir.add_file w dicomFolder f dcm dir = Ok dir' ->
  exists a b c d sd ed inst,
    uids dcm = (Some a, Some b, Some c)
    /\ dir = PDict d
    /\ match dict_get d a with
       | Some st => st = PDict sd
       | None => dict_comp (CMRDir.get_tag w dcm) CMRDir.STUDY_TAGS [] = Ok sd
       end
    /\ match dict_get sd b with
       | Some se => se = PDict ed
       | None => dict_comp (CMRDir.get_tag w dcm) CMRDir.SERIES_TAGS [] = Ok ed
       end
    /\ dict_comp (CMRDir.get_tag w dcm) CMRDir.INSTANCE_TAGS [] = Ok inst
    /\ dir'
       = PDict
           (dict_set d a
              (PDict
                 (dict_set sd b
                    (PDict
                       (dict_set ed c
                          (PDict
                             (dict_set inst "Filename"
                                (PStr (str_replace f (path_join dicomFolder "")
                                                   ""))))))))).
Proof.
  intros H. unfold CMRDir.add_file in H.
  bind_ok H a E1. bind_ok H known E2. bind_ok H dir1 E3.
  bind_ok H b E5. bind_ok H st0 E6. bind_ok H known' E7.
  bind_ok H st1 E8. bind_ok H inst E10. bind_ok H se0 E11. bind_ok H c E12.
  bind_ok H se1 E13. bind_ok H st2 E14.
  apply dcm_uid_Some in E1, E5, E12.
  destruct dir as [| | | | | | | | |d|]; try discriminate E2.
  simpl in E2. injection E2 as <-.
  (* the study *)
  assert (Hst : exists sd, st0 = PDict sd /\ dir1 = PDict (dict_set d a (PDict sd))
                /\ match dict_get d a with
                   | Some st => st = PDict sd
                   | None => dict_comp (CMRDir.get_tag w dcm) CMRDir.STUDY_TAGS []
                             = Ok sd
                   end).
  { unfold dict_mem in E3. destruct (dict_get d a) as [st|] eqn:Ea; simpl in E3.
    - injection E3 as <-. simpl in E6. rewrite Ea in E6. injection E6 as ->.
      destruct st0 as [| | | | | | | | |sd|]; try discriminate E7.
      exists sd. repeat split.
      now rewrite (dict_set_get_id _ _ _ Ea).
    - bind_ok E3 tags E4. simpl in E3. injection E3 as <-.
      simpl in E6. rewrite dict_get_set_same in E6. injection E6 as <-.
      exists tags. repeat split. exact E4. }
  destruct Hst as [sd [-> [-> Hsd]]].
  simpl in E7. injection E7 as <-.
  (* the series *)
  assert (Hse : exists ed, se0 = PDict ed /\ st1 = PDict (dict_set sd b (PDict ed))
                /\ match dict_get sd b with
                   | Some se => se = PDict ed
                   | None => dict_comp (CMRDir.get_tag w dcm) CMRDir.SERIES_TAGS []
                             = Ok ed
                   end).
  { unfold dict_mem in E8. destruct (dict_get sd b) as [se|] eqn:Eb; simpl in E8.
    - injection E8 as <-. simpl in E11. rewrite Eb in E11. injection E11 as ->.
      destruct se0 as [| | | | | | | | |ed|]; try discriminate E13.
      exists ed. repeat split.
      now rewrite (dict_set_get_id _ _ _ Eb).
    - bind_ok E8 tags E9. simpl in E8. injection E8 as <-.
      simpl in E11. rewrite dict_get_set_same in E11. injection E11 as <-.
      exists tags. repeat split. exact E9. }
  destruct Hse as [ed [-> [-> Hed]]].
  simpl in E13. injection E13 as <-.
  simpl in E14. injection E14 as <-.
  simpl in H. injection H as <-.
  exists a, b, c, d, sd, ed, inst.
  unfold uids. rewrite E1, E5, E12.
  repeat (split; [first [reflexivity|assumption]|]).
  now rewrite !dict_set_set.
Qed.

Lemma dict_mem_set {V : Type} (d : list (string * V)) (k k' : string) (v : V) :
  dict_mem (dict_set d k v) k' = true <-> k = k' \/ dict_mem d k' = true.
Proof.
  unfold dict_mem. destruct (string_dec k k') as [<-|Hne].
  - rewrite dict_get_set_same. tauto.
  - rewrite dict_get_set_other by assumption. tauto.
Qed.

Lemma dict_mem_Some {V : Type} (d : list (string * V)) (k : string) (v : V) :
  dict_get d k = Some v -> dict_mem d k = true.
Proof. unfold dict_mem. now intros ->. Qed.

Lemma dict_mem_keys {V : Type} (d : list (string * V)) (k : string) :
  dict_mem d k = true <-> In k (dict_keys d).
Proof.
  unfold dict_mem, dict_keys.
  induction d as [|[k0 v0] r IH]; simpl.
  - split; [discriminate|tauto].
  - destruct (String.eqb k0 k) eqn:E.
    + apply String.eqb_eq in E. tauto.
    + apply String.eqb_neq in E. tauto.
Qed.

(** The keys of a comprehension over [keys]. *)
Lemma dict_comp_mem {V : Type} (f : string -> result V) (keys : list string)
      (d : list (string * V)) (k : string) :
  dict_comp f keys [] = Ok d -> (dict_mem d k = true <-> In k keys).
Proof.
  intros H. destruct (dict_comp_get f keys [] d k H) as [Hin Hout].
  unfold dict_mem. destruct (in_dec string_dec k keys) as [Hk|Hk].
  - destruct (Hin Hk) as [v [_ ->]]. tauto.
  - rewrite (Hout Hk). simpl. split; [discriminate|tauto].
Qed.

Lemma instance_of_new (w : World) (dicomFolder f : string) (dcm : Dataset)
      (inst : list (string * pyval)) :
  dict_comp (CMRDir.get_tag w dcm) CMRDir.INSTANCE_TAGS [] = Ok inst ->
  instance_of w dicomFolder f dcm
    (dict_set inst "Filename" (PStr (str_replace f (path_join dicomFolder "") ""))).
Proof.
  intros H. split; [apply dict_get_set_same|]. split.
  - intros tag Htag.
    destruct (dict_comp_get _ _ _ _ tag H) as [Hin _].
    destruct (Hin Htag) as [v [Hv Hget]]. exists v. split; auto.
    rewrite dict_get_set_other; auto.
    intros <-. simpl in Htag. intuition discriminate.
  - intros k Hk. apply dict_mem_set in Hk. destruct Hk as [<-|Hk]; [now left|].
    right. now apply (dict_comp_mem _ _ _ k H).
Qed.

Lemma last_with_app (l : list (string * Dataset)) (fd x : string * Dataset) :
  last_with l fd -> uids (snd x) <> uids (snd fd) -> last_with (l ++ [x]) fd.
Proof.
  intros [l1 [l2 [-> Hl2]]] Hx. exists l1, (l2 ++ [x]). split.
  - now rewrite <- app_assoc.
  - intros fd' Hin. apply in_app_or in Hin. destruct Hin as [Hin|[<-|[]]]; auto.
Qed.

Lemma last_with_new (l : list (string * Dataset)) (x : string * Dataset) :
  last_with (l ++ [x]) x.
Proof. exists l, []. split; [reflexivity|]. intros fd' []. Qed.

Section CatalogueInvariant.
Variable w : World.
Variable dicomFolder : string.
Variable l : list (string * Dataset).
Variables (f : string) (dcm : Dataset) (a b c : string).
Hypothesis Huids : uids dcm = (Some a, Some b, Some c).

Lemma file_of_study_app (a0 : string) :
  file_of_study (l ++ [(f, dcm)]) a0 <-> a0 = a \/ file_of_study l a0.
Proof.
  unfold file_of_study, uids in *. injection Huids as Ha Hb Hc. split.
  - intros [fd [Hin H]]. apply in_app_or in Hin. destruct Hin as [Hin|[<-|[]]].
    + right. now exists fd.
    + left. simpl in H. congruence.
  - intros [->|[fd [Hin H]]].
    + exists (f, dcm). split; [apply in_or_app; right; now left|assumption].
    + exists fd. split; [apply in_or_app; now left|assumption].
Qed.

Lemma file_of_series_app (a0 b0 : string) :
  file_of_series (l ++ [(f, dcm)]) a0 b0
  <-> (a0 = a /\ b0 = b) \/ file_of_series l a0 b0.
Proof.
  unfold file_of_series, uids in *. injection Huids as Ha Hb Hc. split.
  - intros [fd [Hin [H1 H2]]]. apply in_app_or in Hin.
    destruct Hin as [Hin|[<-|[]]].
    + right. now exists fd.
    + left. simpl in H1, H2. split; congruence.
  - intros [[-> ->]|[fd [Hin H]]].
    + exists (f, dcm). split; [apply in_or_app; right; now left|now split].
    + exists fd. split; [apply in_or_app; now left|assumption].
Qed.

Lemma file_of_instance_app (a0 b0 c0 : string) :
  file_of_instance (l ++ [(f, dcm)]) a0 b0 c0
  <-> (a0 = a /\ b0 = b /\ c0 = c) \/ file_of_instance l a0 b0 c0.
Proof.
  unfold file_of_instance. split.
  - intros [fd [Hin H]]. apply in_app_or in Hin. destruct Hin as [Hin|[<-|[]]].
    + right. now exists fd.
    + left. simpl in H. rewrite Huids in H. injection H as -> -> ->. auto.
  - intros [[-> [-> ->]]|[fd [Hin H]]].
    + exists (f, dcm). split; [apply in_or_app; right; now left|assumption].
    + exists fd. split; [apply in_or_app; now left|assumption].
Qed.

Lemma series_ok_other (a0 b0 : string) (ed : list (string * pyval)) :
  series_ok w dicomFolder l a0 b0 ed -> ~ (a0 = a /\ b0 = b) ->
  series_ok w dicomFolder (l ++ [(f, dcm)]) a0 b0 ed.
Proof.
  intros [Hkeys Hinst] Hne. split.
  - intros k. rewrite Hkeys, file_of_instance_app. tauto.
  - intros c0 Hc0 Hmem. destruct (Hinst c0 Hc0 Hmem) as [inst [fd [H1 [H2 [H3 H4]]]]].
    exists inst, fd. split; [exact H1|]. split; [|split; assumption].
    apply last_with_app; auto. simpl. rewrite Huids, H3.
    intros E. injection E as E1 E2 E3. apply Hne. split; congruence.
Qed.

Lemma series_ok_fresh (ed : list (string * pyval)) :
  dict_comp (CMRDir.get_tag w dcm) CMRDir.SERIES_TAGS [] = Ok ed ->
  ~ file_of_series l a b ->
  series_ok w dicomFolder l a b ed.
Proof.
  intros Hed Hno.
  assert (Hnone : forall k, ~ file_of_instance l a b k).
  { intros k [fd [Hin H]]. apply Hno. exists fd. unfold uids in H.
    injection H as H1 H2 _. auto. }
  split.
  - intros k. rewrite (dict_comp_mem _ _ _ k Hed). specialize (Hnone k). tauto.
  - intros c0 Hc0 Hmem. rewrite (dict_comp_mem _ _ _ c0 Hed) in Hmem. tauto.
Qed.

Lemma series_ok_add (ed inst : list (string * pyval)) :
  series_ok w dicomFolder l a b ed ->
  instance_of w dicomFolder f dcm inst ->
  series_ok w dicomFolder (l ++ [(f, dcm)]) a b (dict_set ed c (PDict inst)).
Proof.
  intros [Hkeys Hinst] Hnew. split.
  - intros k. rewrite dict_mem_set, Hkeys, file_of_instance_app.
    split; [intros [<-|[H|H]]|intros [H|[[_ [_ ->]]|H]]]; auto.
  - intros c0 Hc0 Hmem. destruct (string_dec c c0) as [<-|Hne].
    + exists inst, (f, dcm). rewrite dict_get_set_same.
      split; [reflexivity|]. split; [apply last_with_new|].
      split; [exact Huids|exact Hnew].
    + apply dict_mem_set in Hmem. destruct Hmem as [Hmem|Hmem]; [contradiction|].
      destruct (Hinst c0 Hc0 Hmem) as [inst0 [fd [H1 [H2 [H3 H4]]]]].
      exists inst0, fd. rewrite dict_get_set_other by assumption.
      split; [exact H1|]. split; [|split; assumption].
      apply last_with_app; auto. simpl. rewrite Huids, H3.
      intros E. injection E as E1. now apply Hne.
Qed.

Lemma study_ok_other (a0 : string) (sd : list (string * pyval)) :
  study_ok w dicomFolder l a0 sd -> a0 <> a ->
  study_ok w dicomFolder (l ++ [(f, dcm)]) a0 sd.
Proof.
  intros [Hkeys Hser] Hne. split.
  - intros k. rewrite Hkeys, file_of_series_app. tauto.
  - intros b0 Hb0 Hmem. destruct (Hser b0 Hb0 Hmem) as [ed [H1 H2]].
    exists ed. split; auto. apply series_ok_other; tauto.
Qed.

Lemma study_ok_fresh (sd : list (string * pyval)) :
  dict_comp (CMRDir.get_tag w dcm) CMRDir.STUDY_TAGS [] = Ok sd ->
  ~ file_of_study l a ->
  study_ok w dicomFolder l a sd.
Proof.
  intros Hsd Hno.
  assert (Hnone : forall k, ~ file_of_series l a k).
  { intros k [fd [Hin [H _]]]. apply Hno. now exists fd. }
  split.
  - intros k. rewrite (dict_comp_mem _ _ _ k Hsd). specialize (Hnone k). tauto.
  - intros b0 Hb0 Hmem. rewrite (dict_comp_mem _ _ _ b0 Hsd) in Hmem. tauto.
Qed.

Lemma study_ok_add (sd ed inst : list (string * pyval)) :
  study_ok w dicomFolder l a sd ->
  match dict_get sd b with
  | Some se => se = PDict ed
  | None => dict_comp (CMRDir.get_tag w dcm) CMRDir.SERIES_TAGS [] = Ok ed
  end ->
  instance_of w dicomFolder f dcm inst ->
  study_ok w dicomFolder (l ++ [(f, dcm)]) a
           (dict_set sd b (PDict (dict_set ed c (PDict inst)))).
Proof.
  intros [Hkeys Hser] Hed Hnew. split.
  - intros k. rewrite dict_mem_set, Hkeys, file_of_series_app.
    split; [intros [<-|[H|H]]|intros [H|[[_ ->]|H]]]; auto.
  - intros b0 Hb0 Hmem. destruct (string_dec b b0) as [<-|Hne].
    + rewrite dict_get_set_same. eexists. split; [reflexivity|].
      apply series_ok_add; auto.
      destruct (dict_get sd b) as [se|] eqn:Eb.
      * subst se. destruct (Hser b Hb0 (dict_mem_Some _ _ _ Eb)) as [ed1 [H1 H2]].
        rewrite Eb in H1. now injection H1 as <-.
      * apply series_ok_fresh; auto. intros Hfile.
        assert (Hm : dict_mem sd b = true) by (apply Hkeys; auto).
        unfold dict_mem in Hm. now rewrite Eb in Hm.
    + apply dict_mem_set in Hmem. destruct Hmem as [Hmem|Hmem]; [contradiction|].
      destruct (Hser b0 Hb0 Hmem) as [ed0 [H1 H2]].
      exists ed0. rewrite dict_get_set_other by assumption. split; auto.
      apply series_ok_other; auto. intros [_ ->]. now apply Hne.
Qed.

Lemma catalogue_ok_add (d : list (string * pyval)) (dir' : pyval) :
  catalogue_ok w dicomFolder l d ->
  CMRDir.add_file w dicomFolder f dcm (PDict d) = Ok dir' ->
  exists d', dir' = PDict d' /\ catalogue_ok w dicomFolder (l ++ [(f, dcm)]) d'.
Proof.
  intros [Hkeys Hst] H.
  destruct (CMRDir_add_file_shape _ _ _ _ _ _ H)
    as [a' [b' [c' [d0 [sd [ed [inst [Hu [Hd [Hsd [Hed [Hinst ->]]]]]]]]]]]].
  rewrite Huids in Hu. injection Hu as <- <- <-. injection Hd as <-.
  eexists. split; [reflexivity|].
  pose proof (instance_of_new w dicomFolder f dcm inst Hinst) as Hnew.
  split.
  - intros a0. rewrite dict_mem_set, Hkeys, file_of_study_app.
    split; [intros [<-|H0]|intros [->|H0]]; auto.
  - intros a0 Hmem. destruct (string_dec a a0) as [<-|Hne].
    + rewrite dict_get_set_same. eexists. split; [reflexivity|].
      apply study_ok_add; auto.
      destruct (dict_get d a) as [st|] eqn:Ea.
      * subst st. destruct (Hst a (dict_mem_Some _ _ _ Ea)) as [sd1 [H1 H2]].
        rewrite Ea in H1. now injection H1 as <-.
      * apply study_ok_fresh; auto. intros Hfile.
        assert (Hm : dict_mem d a = true) by (apply Hkeys; auto).
        unfold dict_mem in Hm. now rewrite Ea in Hm.
    + apply dict_mem_set in Hmem. destruct Hmem as [Hmem|Hmem]; [contradiction|].
      destruct (Hst a0 Hmem) as [sd0 [H1 H2]].
      exists sd0. rewrite dict_get_set_other by assumption. split; auto.
      apply study_ok_other; auto.
Qed.
End CatalogueInvariant.

(** *** The loop over the files *)

Lemma add_all_app (w : World) (dicomFolder : string) (l1 l2 : list (string * Dataset))
      (dir : pyval) :
  add_all w dicomFolder (l1 ++ l2) dir
  = let* dir1 := add_all w dicomFolder l1 dir in add_all w dicomFolder l2 dir1.
Proof.
  revert dir. induction l1 as [|[f dcm] r IH]; intros dir; simpl; [reflexivity|].
  destruct (CMRDir.add_file w dicomFolder f dcm dir); simpl; auto.
Qed.

Lemma CMRDir_add_files_recognized (w : World) (dicomFolder : string) (quiet : bool)
      (allFiles : list string) :
  forall dir out dir' out',
    CMRDir.add_files w dicomFolder quiet allFiles dir out = (Ok dir', out') ->
    add_all w dicomFolder (recognized w allFiles) dir = Ok dir'.
Proof.
  induction allFiles as [|f rest IH]; intros dir out dir' out' H; simpl in H |- *.
  - now injection H as <- _.
  - destruct (read_dicom w f) as [[dcm|]|]; try discriminate.
    + simpl. destruct (CMRDir.add_file w dicomFolder f dcm dir); try discriminate.
      simpl. eapply IH. exact H.
    + eapply IH. exact H.
Qed.

Lemma CMRDir_from_folder_add_all (w : World) (dicomFolder : string)
      (studyName : pyval) (quiet : bool) (D : CMRDir.t) (out : list event) :
  CMRDir.from_folder w dicomFolder studyName quiet = (Ok D, out) ->
  isdir w dicomFolder = true
  /\ CMRDir.source D = PStr dicomFolder
  /\ CMRDir.studyName D
     = match studyName with
       | PNone => PStr (basename dicomFolder)
       | _ => studyName
       end
  /\ add_all w dicomFolder (scanned w dicomFolder) (PDict [])
     = Ok (CMRDir.dicomDir D).
Proof.
  unfold CMRDir.from_folder. intros H.
  destruct (isdir w dicomFolder); [|discriminate]. simpl in H.
  destruct (CMRDir.add_files _ _ _ _ _ _) as [[dir|] out1] eqn:E; try discriminate.
  injection H as <- <-. cbn [CMRDir.source CMRDir.studyName CMRDir.dicomDir].
  split; [reflexivity|]. split; [reflexivity|]. split.
  - now destruct studyName.
  - apply CMRDir_add_files_recognized in E.
    now destruct studyName.
Qed.

Lemma catalogue_ok_nil (w : World) (dicomFolder : string) :
  catalogue_ok w dicomFolder [] [].
Proof.
  split.
  - intros a. split; [discriminate|]. intros [fd [[] _]].
  - intros a. discriminate.
Qed.

Lemma add_all_uids (w : World) (dicomFolder : string) (l : list (string * Dataset)) :
  forall dir dir',
    add_all w dicomFolder l dir = Ok dir' ->
    Forall (fun fd => exists a b c, uids (snd fd) = (Some a, Some b, Some c)) l.
Proof.
  induction l as [|[f dcm] r IH]; intros dir dir' H; [constructor|].
  simpl in H. bind_ok H dir1 E. constructor; [|eapply IH; exact H].
  destruct (CMRDir_add_file_shape _ _ _ _ _ _ E) as [a [b [c [_ [_ [_ [_ [Hu _]]]]]]]].
  now exists a, b, c.
Qed.

Lemma catalogue_ok_add_all (w : World) (dicomFolder : string)
      (r : list (string * Dataset)) :
  forall l d dir',
    catalogue_ok w dicomFolder l d ->
    add_all w dicomFolder r (PDict d) = Ok dir' ->
    exists d', dir' = PDict d' /\ catalogue_ok w dicomFolder (l ++ r) d'.
Proof.
  induction r as [|[f dcm] r IH]; intros l d dir' Hok H; simpl in H.
  - injection H as <-. exists d. now rewrite app_nil_r.
  - bind_ok H dir1 E.
    destruct (CMRDir_add_file_shape _ _ _ _ _ _ E)
      as [a [b [c [_ [_ [_ [_ [Hu _]]]]]]]].
    destruct (catalogue_ok_add w dicomFolder l f dcm a b c Hu d dir1 Hok E)
      as [d1 [-> Hok1]].
    destruct (IH _ _ _ Hok1 H) as [d' [-> Hok']].
    exists d'. split; [reflexivity|]. now rewrite <- app_assoc in Hok'.
Qed.

(** The catalogue [CMRDir.from_folder] returns holds what the invariant
    says of the recognized files of the folder. *)
Lemma CMRDir_from_folder_ok (w : World) (dicomFolder : string)
      (studyName : pyval) (quiet : bool) (D : CMRDir.t) (out : list event) :
  CMRDir.from_folder w dicomFolder studyName quiet = (Ok D, out) ->
  exists d,
    CMRDir.dicomDir D = PDict d
    /\ catalogue_ok w dicomFolder (scanned w dicomFolder) d.
Proof.
  intros H. destruct (CMRDir_from_folder_add_all _ _ _ _ _ _ H) as [_ [_ [_ Hall]]].
  destruct (catalogue_ok_add_all w dicomFolder _ [] [] _
              (catalogue_ok_nil w dicomFolder) Hall) as [d [Hd Hok]].
  exists d. split; assumption.
Qed.

(** *** What a later file leaves as it is *)

Lemma CMRDir_add_file_keeps_instance (w : World) (dicomFolder f : string)
      (dcm : Dataset) (dir dir' : pyval) (a0 b0 c0 : string) (x : pyval) :
  CMRDir.add_file w dicomFolder f dcm dir = Ok dir' ->
  uids dcm <> (Some a0, Some b0, Some c0) ->
  instance_at dir a0 b0 c0 = Ok x ->
  instance_at dir' a0 b0 c0 = Ok x.
Proof.
  intros H Hne Hx.
  destruct (CMRDir_add_file_shape _ _ _ _ _ _ H)
    as [a [b [c [d [sd [ed [inst [Hu [-> [Hsd [Hed [_ ->]]]]]]]]]]]].
  unfold instance_at in *. simpl in Hx |- *.
  destruct (string_dec a a0) as [<-|Ha];
    [|now rewrite dict_get_set_other by assumption].
  rewrite dict_get_set_same.
  destruct (dict_get d a) as [st|]; [|discriminate]. subst st.
  simpl in Hx |- *.
  destruct (string_dec b b0) as [<-|Hb];
    [|now rewrite dict_get_set_other by assumption].
  rewrite dict_get_set_same.
  destruct (dict_get sd b) as [se|]; [|discriminate]. subst se.
  simpl in Hx |- *.
  destruct (string_dec c c0) as [<-|Hc];
    [|now rewrite dict_get_set_other by assumption].
  now rewrite Hu in Hne.
Qed.

Lemma CMRDir_add_file_keeps_item (w : World) (dicomFolder f : string)
      (dcm : Dataset) (dir dir' : pyval) (a0 k : string) (x : pyval) :
  CMRDir.add_file w dicomFolder f dcm dir = Ok dir' ->
  ~ (StudyInstanceUID dcm = Some a0 /\ SeriesInstanceUID dcm = Some k) ->
  study_item dir a0 k = Ok x ->
  study_item dir' a0 k = Ok x.
Proof.
  intros H Hne Hx.
  destruct (CMRDir_add_file_shape _ _ _ _ _ _ H)
    as [a [b [c [d [sd [ed [inst [Hu [-> [Hsd [Hed [_ ->]]]]]]]]]]]].
  unfold uids in Hu. injection Hu as Ha Hb Hc.
  unfold study_item in *. simpl in Hx |- *.
  destruct (string_dec a a0) as [<-|Hna];
    [|now rewrite dict_get_set_other by assumption].
  rewrite dict_get_set_same.
  destruct (dict_get d a) as [st|]; [|discriminate]. subst st.
  simpl in Hx |- *.
  destruct (string_dec b k) as [<-|Hnb];
    [|now rewrite dict_get_set_other by assumption].
  tauto.
Qed.

Lemma add_all_keeps_instance (w : World) (dicomFolder : string)
      (l : list (string * Dataset)) (a0 b0 c0 : string) (x : pyval) :
  forall dir dir',
    add_all w dicomFolder l dir = Ok dir' ->
    (forall fd, In fd l -> uids (snd fd) <> (Some a0, Some b0, Some c0)) ->
    instance_at dir a0 b0 c0 = Ok x ->
    instance_at dir' a0 b0 c0 = Ok x.
Proof.
  induction l as [|[f dcm] r IH]; intros dir dir' H Hne Hx; simpl in H.
  - now injection H as <-.
  - bind_ok H dir1 E. eapply IH; [exact H| |].
    + intros fd Hin. apply Hne. now right.
    + eapply CMRDir_add_file_keeps_instance; [exact E| |exact Hx].
      apply (Hne (f, dcm)). now left.
Qed.

Lemma add_all_keeps_item (w : World) (dicomFolder : string)
      (l : list (string * Dataset)) (a0 k : string) (x : pyval) :
  forall dir dir',
    add_all w dicomFolder l dir = Ok dir' ->
    ~ file_of_series l a0 k ->
    study_item dir a0 k = Ok x ->
    study_item dir' a0 k = Ok x.
Proof.
  induction l as [|[f dcm] r IH]; intros dir dir' H Hne Hx; simpl in H.
  - now injection H as <-.
  - bind_ok H dir1 E. eapply IH; [exact H| |].
    + intros [fd [Hin Hfd]]. apply Hne. exists fd. split; [now right|exact Hfd].
    + eapply CMRDir_add_file_keeps_item; [exact E| |exact Hx].
      intros Hfd. apply Hne. exists (f, dcm). split; [now left|exact Hfd].
Qed.

(** ** The queries of [CMRDir] on a scanned catalogue *)

Lemma set_add_In (s : list string) (x y : string) :
  In y (set_add String.eqb s x) <-> y = x \/ In y s.
Proof.
  induction s as [|z r IH]; simpl.
  - intuition.
  - destruct (String.eqb z x) eqn:E.
    + apply String.eqb_eq in E. subst. simpl. intuition.
    + simpl. rewrite IH. intuition.
Qed.

Lemma set_add_NoDup (s : list string) (x : string) :
  NoDup s -> NoDup (set_add String.eqb s x).
Proof.
  induction s as [|z r IH]; simpl; intros H.
  - constructor; [intros []|constructor].
  - destruct (String.eqb z x) eqn:E; [exact H|].
    inversion H as [|? ? Hz Hr]; subst. constructor; [|auto].
    rewrite set_add_In. intros [->|Hin]; [|contradiction].
    now rewrite String.eqb_refl in E.
Qed.

Lemma fold_set_add_In (l s : list string) (y : string) :
  In y (fold_left (set_add String.eqb) l s) <-> In y s \/ In y l.
Proof.
  revert s. induction l as [|x r IH]; intros s; simpl; [tauto|].
  rewrite IH, set_add_In. intuition (subst; auto).
Qed.

Lemma fold_set_add_NoDup (l s : list string) :
  NoDup s -> NoDup (fold_left (set_add String.eqb) l s).
Proof.
  revert s. induction l as [|x r IH]; intros s H; simpl; [exact H|].
  apply IH. now apply set_add_NoDup.
Qed.

Lemma set_of_list_In (l : list string) (y : string) :
  In y (set_of_list String.eqb l) <-> In y l.
Proof. unfold set_of_list. rewrite fold_set_add_In. simpl. tauto. Qed.

Lemma set_of_list_NoDup (l : list string) : NoDup (set_of_list String.eqb l).
Proof. apply fold_set_add_NoDup. constructor. Qed.

Lemma set_difference_In (s t : list string) (x : string) :
  In x (set_difference String.eqb s t) <-> In x s /\ ~ In x t.
Proof.
  unfold set_difference. rewrite filter_In, negb_true_iff.
  split; intros [H1 H2]; split; auto.
  - intros Hin. assert (E : existsb (fun y => String.eqb y x) t = true).
    { apply existsb_exists. exists x. split; [exact Hin|apply String.eqb_refl]. }
    congruence.
  - destruct (existsb _ t) eqn:E; [|reflexivity].
    apply existsb_exists in E. destruct E as [y [Hy E]].
    apply String.eqb_eq in E. subst. contradiction.
Qed.

(** [list(set.difference(set(keys), set(tags)))]: each key that is not a
    tag, once. *)
Lemma keys_minus_tags (w : World) (keys tags : list string) :
  set_order_permutes w ->
  NoDup (set_order w (set_difference String.eqb (set_of_list String.eqb keys)
                                     (set_of_list String.eqb tags)))
  /\ forall x,
       In x (set_order w (set_difference String.eqb (set_of_list String.eqb keys)
                                         (set_of_list String.eqb tags)))
       <-> In x keys /\ ~ In x tags.
Proof.
  intros Hperm.
  pose proof (Hperm _ (set_difference String.eqb (set_of_list String.eqb keys)
                                      (set_of_list String.eqb tags))) as P.
  split.
  - eapply Permutation_NoDup; [exact P|].
    unfold set_difference. apply NoDup_filter, set_of_list_NoDup.
  - intros x. split; intros H.
    + apply (Permutation_in _ (Permutation_sym P)) in H.
      apply set_difference_In in H. now rewrite !set_of_list_In in H.
    + apply (Permutation_in _ P). apply set_difference_In.
      now rewrite !set_of_list_In.
Qed.

Lemma mapM_total {A B : Type} (f : A -> result B) (P : A -> B -> Prop) (l : list A) :
  (forall x, In x l -> exists y, f x = Ok y /\ P x y) ->
  exists r, mapM f l = Ok r /\ Forall2 P l r.
Proof.
  induction l as [|x l IH]; intros H.
  - exists []. split; [reflexivity|constructor].
  - destruct (H x (or_introl eq_refl)) as [y [Hy Py]].
    destruct IH as [r [Hr Pr]]; [intros z Hz; apply H; now right|].
    exists (y :: r). simpl. rewrite Hy, Hr. split; [reflexivity|now constructor].
Qed.

Lemma add_all_keys (w : World) (dicomFolder : string) (l : list (string * Dataset)) :
  forall d dir',
    add_all w dicomFolder l (PDict d) = Ok dir' ->
    py_keys dir'
    = Ok (fold_left (set_add String.eqb) (uids_of StudyInstanceUID l) (dict_keys d)).
Proof.
  induction l as [|[f dcm] r IH]; intros d dir' H; simpl in H.
  - now injection H as <-.
  - bind_ok H dir1 E.
    destruct (CMRDir_add_file_shape _ _ _ _ _ _ E)
      as [a [b [c [d0 [sd [ed [inst [Hu [Hd [_ [_ [_ ->]]]]]]]]]]]].
    injection Hd as <-. unfold uids in Hu. injection Hu as Ha _ _.
    rewrite (IH _ _ H). unfold uids_of. simpl. rewrite Ha. simpl.
    now rewrite dict_keys_set.
Qed.

Lemma Forall2_In_r {A B : Type} (P : A -> B -> Prop) (l : list A) (r : list B)
      (y : B) :
  Forall2 P l r -> In y r -> exists x, In x l /\ P x y.
Proof.
  induction 1 as [|x0 y0 l r H0 _ IH]; intros Hin; [destruct Hin|].
  destruct Hin as [<-|Hin].
  - exists x0. split; [now left|assumption].
  - destruct (IH Hin) as [x [Hx Px]]. exists x. split; [now right|assumption].
Qed.

Lemma Forall2_In_l {A B : Type} (P : A -> B -> Prop) (l : list A) (r : list B)
      (x : A) :
  Forall2 P l r -> In x l -> exists y, In y r /\ P x y.
Proof.
  induction 1 as [|x0 y0 l r H0 _ IH]; intros Hin; [destruct Hin|].
  destruct Hin as [<-|Hin].
  - exists y0. split; [now left|assumption].
  - destruct (IH Hin) as [y [Hy Py]]. exists y. split; [now right|assumption].
Qed.

Lemma concatM_In {A B : Type} (f : A -> result (list B)) (l : list A)
      (r : list B) (y : B) :
  concatM f l = Ok r ->
  (In y r <-> exists x ys, In x l /\ f x = Ok ys /\ In y ys).
Proof.
  revert r. induction l as [|x0 l IH]; intros r H; simpl in H.
  - injection H as <-. split; [intros []|intros [x [ys [[] _]]]].
  - bind_ok H ys0 E0. bind_ok H zs E1. injection H as <-.
    rewrite in_app_iff, (IH zs eq_refl). split.
    + intros [Hy|[x [ys [Hx [Hf Hy]]]]].
      * exists x0, ys0. split; [now left|]. split; assumption.
      * exists x, ys. split; [now right|]. split; assumption.
    + intros [x [ys [[<-|Hx] [Hf Hy]]]].
      * left. rewrite E0 in Hf. now injection Hf as <-.
      * right. exists x, ys. split; [assumption|]. split; assumption.
Qed.

Lemma concatM_total {A B : Type} (f : A -> result (list B)) (l : list A) :
  (forall x, In x l -> exists ys, f x = Ok ys) -> exists r, concatM f l = Ok r.
Proof.
  induction l as [|x0 l IH]; intros H; simpl.
  - now exists [].
  - destruct (H x0 (or_introl eq_refl)) as [ys ->].
    destruct IH as [r ->]; [intros x Hx; apply H; now right|].
    simpl. now eexists.
Qed.

(** Two records that are each the last with the same identifiers are the
    same record. *)
Lemma split_twice {A : Type} (l1 l2 l1' l2' : list A) (x y : A) :
  l1 ++ x :: l2 = l1' ++ y :: l2' ->
  (l1 = l1' /\ x = y /\ l2 = l2') \/ In y l2 \/ In x l2'.
Proof.
  revert l1'. induction l1 as [|z l1 IH]; intros [|z' l1'] H; simpl in H.
  - injection H as -> ->. now left.
  - injection H as -> ->. right. left. apply in_or_app. right. now left.
  - injection H as -> <-. right. right. apply in_or_app. right. now left.
  - injection H as -> H. destruct (IH _ H) as [[-> [-> ->]]|[Hy|Hx]]; auto.
Qed.

Lemma last_with_unique (l : list (string * Dataset)) (fd fd' : string * Dataset) :
  last_with l fd -> last_with l fd' -> uids (snd fd) = uids (snd fd') -> fd = fd'.
Proof.
  intros [l1 [l2 [-> H2]]] [l1' [l2' [E H2']]] Hu.
  destruct (split_twice _ _ _ _ _ _ E) as [[_ [-> _]]|[Hin|Hin]]; auto.
  - now destruct (H2 _ Hin).
  - now destruct (H2' _ Hin).
Qed.

Lemma last_with_In (l : list (string * Dataset)) (fd : string * Dataset) :
  last_with l fd -> In fd l.
Proof. intros [l1 [l2 [-> _]]]. apply in_or_app. right. now left. Qed.

Lemma catalogue_study (w : World) (dicomFolder : string)
      (l : list (string * Dataset)) (d : list (string * pyval)) (a : string) :
  catalogue_ok w dicomFolder l d -> file_of_study l a ->
  exists sd, dict_get d a = Some (PDict sd) /\ study_ok w dicomFolder l a sd.
Proof. intros [Hkeys Hst] Ha. apply Hst. now apply Hkeys. Qed.

Lemma catalogue_series (w : World) (dicomFolder : string)
      (l : list (string * Dataset)) (d : list (string * pyval)) (a b : string) :
  catalogue_ok w dicomFolder l d -> file_of_series l a b ->
  ~ In b CMRDir.STUDY_TAGS ->
  exists sd ed,
    dict_get d a = Some (PDict sd) /\ study_ok w dicomFolder l a sd
    /\ dict_get sd b = Some (PDict ed) /\ series_ok w dicomFolder l a b ed.
Proof.
  intros Hok Hab Hb.
  assert (Ha : file_of_study l a).
  { destruct Hab as [fd [Hin [H _]]]. now exists fd. }
  destruct (catalogue_study _ _ _ _ _ Hok Ha) as [sd [Hsd Hst]].
  destruct Hst as [Hkeys Hser].
  destruct (Hser b Hb) as [ed [Hed Hse]]; [apply Hkeys; now right|].
  exists sd, ed. split; [exact Hsd|]. split; [split; assumption|].
  split; assumption.
Qed.

(** [get_filenames] is [get_something_from_series] for the file name,
    whatever the frame. *)
Lemma get_filenames_as_something (w : World) (self : CMRDir.t)
      (a b : string) (frame : pyval) :
  CMRDir.get_filenames w self a b frame
  = CMRDir.get_something_from_series w self a b "Filename".
Proof.
  unfold CMRDir.get_filenames, CMRDir.get_something_from_series.
  destruct (CMRDir.get_sop_uids w self a b) as [sops|]; simpl; [|reflexivity].
  destruct (mapM _ sops); simpl; [|reflexivity]. now destruct frame.
Qed.

(** The queries on a catalogue that holds the records [l]. *)
Section ScannedCatalogue.
Variable w : World.
Variable dicomFolder : string.
Variable l : list (string * Dataset).
Variable self : CMRDir.t.
Variable d : list (string * pyval).
Hypothesis Hd : CMRDir.dicomDir self = PDict d.
Hypothesis Hok : catalogue_ok w dicomFolder l d.
Hypothesis Hperm : set_order_permutes w.

Lemma scan_study_uids :
  exists studies,
    CMRDir.get_study_uids self = Ok studies
    /\ forall a, In a studies <-> file_of_study l a.
Proof.
  unfold CMRDir.get_study_uids. rewrite Hd. simpl. eexists. split; [reflexivity|].
  intros a. rewrite <- dict_mem_keys. apply Hok.
Qed.

Lemma scan_series_uids (a : string) :
  file_of_study l a ->
  exists sers,
    CMRDir.get_series_uids w self a = Ok sers
    /\ NoDup sers
    /\ forall b, In b sers <-> ~ In b CMRDir.STUDY_TAGS /\ file_of_series l a b.
Proof.
  intros Ha.
  destruct (catalogue_study _ _ _ _ _ Hok Ha) as [sd [Hsd [Hkeys _]]].
  destruct (keys_minus_tags w (dict_keys sd) CMRDir.STUDY_TAGS Hperm) as [Hnd Hin].
  assert (Hiff : forall b, In b (dict_keys sd) /\ ~ In b CMRDir.STUDY_TAGS
                           <-> ~ In b CMRDir.STUDY_TAGS /\ file_of_series l a b)
    by (intros b; rewrite <- dict_mem_keys, Hkeys; tauto).
  unfold CMRDir.get_series_uids. rewrite Hd. simpl. rewrite Hsd. simpl.
  eexists. split; [reflexivity|]. split; [exact Hnd|].
  intros b. rewrite <- (Hiff b). apply Hin.
Qed.

Lemma scan_sop_uids (a b : string) :
  file_of_series l a b -> ~ In b CMRDir.STUDY_TAGS ->
  exists sops,
    CMRDir.get_sop_uids w self a b = Ok sops
    /\ NoDup sops
    /\ forall c, In c sops
                 <-> ~ In c CMRDir.SERIES_TAGS /\ file_of_instance l a b c.
Proof.
  intros Hab Hb.
  destruct (catalogue_series _ _ _ _ _ _ Hok Hab Hb)
    as [sd [ed [Hsd [_ [Hed [Hkeys _]]]]]].
  destruct (keys_minus_tags w (dict_keys ed) CMRDir.SERIES_TAGS Hperm) as [Hnd Hin].
  assert (Hiff : forall c, In c (dict_keys ed) /\ ~ In c CMRDir.SERIES_TAGS
                           <-> ~ In c CMRDir.SERIES_TAGS
                               /\ file_of_instance l a b c)
    by (intros c; rewrite <- dict_mem_keys, Hkeys; tauto).
  unfold CMRDir.get_sop_uids. rewrite Hd. simpl. rewrite Hsd. simpl.
  rewrite Hed. simpl.
  eexists. split; [reflexivity|]. split; [exact Hnd|].
  intros c. rewrite <- (Hiff c). apply Hin.
Qed.

(** The instance the catalogue holds for an identifier that
    [get_sop_uids] lists. *)
Lemma scan_instance (a b c : string) (sops : list string) :
  file_of_series l a b -> ~ In b CMRDir.STUDY_TAGS ->
  CMRDir.get_sop_uids w self a b = Ok sops -> In c sops ->
  exists fd inst,
    instance_at (CMRDir.dicomDir self) a b c = Ok (PDict inst)
    /\ last_with l fd
    /\ uids (snd fd) = (Some a, Some b, Some c)
    /\ instance_of w dicomFolder (fst fd) (snd fd) inst.
Proof.
  intros Hab Hb Hsops Hc.
  destruct (scan_sop_uids a b Hab Hb) as [sops' [Hs' [_ Hin]]].
  rewrite Hsops in Hs'. injection Hs' as <-.
  destruct (catalogue_series _ _ _ _ _ _ Hok Hab Hb)
    as [sd [ed [Hsd [_ [Hed [Hkeys Hinst]]]]]].
  apply Hin in Hc. destruct Hc as [Hc Hfile].
  destruct (Hinst c Hc) as [inst [fd [H1 [H2 [H3 H4]]]]].
  { apply Hkeys. now right. }
  exists fd, inst. split; [|split; [exact H2|split; [exact H3|exact H4]]].
  unfold instance_at. rewrite Hd. simpl. rewrite Hsd. simpl. rewrite Hed. simpl.
  now rewrite H1.
Qed.

Lemma scan_values (a b something : string) :
  file_of_series l a b -> ~ In b CMRDir.STUDY_TAGS ->
  In something ("Filename" :: CMRDir.INSTANCE_TAGS) ->
  exists sops vals,
    CMRDir.get_sop_uids w self a b = Ok sops
    /\ CMRDir.get_something_from_series w self a b something = Ok vals
    /\ Forall2 (stored_value w dicomFolder l a b something) sops vals.
Proof.
  intros Hab Hb Hsome.
  destruct (scan_sop_uids a b Hab Hb) as [sops [Hsops _]].
  unfold CMRDir.get_something_from_series. rewrite Hsops. cbn [bind].
  destruct (mapM_total
              (fun s =>
                 let* study := py_getitem (CMRDir.dicomDir self) a in
                 let* series := py_getitem study b in
                 let* inst := py_getitem series s in
                 py_getitem inst something)
              (stored_value w dicomFolder l a b something) sops)
    as [vals [Hvals Hall]].
  - intros c Hc.
    destruct (scan_instance a b c sops Hab Hb Hsops Hc)
      as [fd [inst [Hat [Hlast [Hu Hinst]]]]].
    unfold instance_at in Hat.
    destruct (py_getitem (CMRDir.dicomDir self) a) as [st|]; [|discriminate].
    cbn [bind] in Hat |- *.
    destruct (py_getitem st b) as [se|]; [|discriminate].
    cbn [bind] in Hat |- *. rewrite Hat. cbn [bind].
    assert (Hv : exists v, dict_get inst something = Some v).
    { destruct Hinst as [Hname [Htags _]]. destruct Hsome as [<-|Hsome].
      - eexists. exact Hname.
      - destruct (Htags _ Hsome) as [v [_ Hv]]. now exists v. }
    destruct Hv as [v Hv]. exists v. split.
    + simpl. now rewrite Hv.
    + exists fd, inst. repeat (split; [assumption|]). exact Hv.
  - exists sops, vals. split; [reflexivity|]. split; assumption.
Qed.

Lemma scan_missing_key (a b something : string) (c : string) (sops : list string) :
  file_of_series l a b -> ~ In b CMRDir.STUDY_TAGS ->
  ~ In something ("Filename" :: CMRDir.INSTANCE_TAGS) ->
  CMRDir.get_sop_uids w self a b = Ok (c :: sops) ->
  CMRDir.get_something_from_series w self a b something
  = Raise (KeyError something).
Proof.
  intros Hab Hb Hsome Hsops.
  destruct (scan_instance a b c (c :: sops) Hab Hb Hsops (or_introl eq_refl))
    as [fd [inst [Hat [_ [_ [_ [_ Hkeys]]]]]]].
  unfold CMRDir.get_something_from_series. rewrite Hsops. cbn [bind mapM].
  unfold instance_at in Hat.
  destruct (py_getitem (CMRDir.dicomDir self) a) as [st|]; [|discriminate].
  cbn [bind] in Hat |- *.
  destruct (py_getitem st b) as [se|]; [|discriminate].
  cbn [bind] in Hat |- *. rewrite Hat. cbn [bind]. simpl.
  destruct (dict_get inst something) as [v|] eqn:E; [|reflexivity].
  exfalso. apply Hsome. destruct (Hkeys something (dict_mem_Some _ _ _ E)) as [->|H].
  - now left.
  - now right.
Qed.

Lemma scan_filenames (a b : string) (frame : pyval) :
  file_of_series l a b -> ~ In b CMRDir.STUDY_TAGS ->
  exists sops files,
    CMRDir.get_sop_uids w self a b = Ok sops
    /\ CMRDir.get_filenames w self a b frame = Ok files
    /\ Forall2 (fun c file =>
                  exists fd,
                    last_with l fd
                    /\ uids (snd fd) = (Some a, Some b, Some c)
                    /\ file = stored_name dicomFolder (fst fd)) sops files.
Proof.
  intros Hab Hb.
  destruct (scan_values a b "Filename" Hab Hb (or_introl eq_refl))
    as [sops [files [Hsops [Hfiles Hall]]]].
  exists sops, files. split; [exact Hsops|]. split.
  - now rewrite get_filenames_as_something.
  - eapply Forall2_impl; [|exact Hall].
    intros c v [fd [inst [H1 [H2 [[Hname _] Hv]]]]].
    exists fd. split; [exact H1|]. split; [exact H2|].
    rewrite Hname in Hv. now injection Hv as <-.
Qed.

Lemma scan_all_filenames :
  exists all,
    CMRDir.get_all_filenames w self = Ok all
    /\ forall v, In v all
                 <-> exists fd, last_with l fd /\ reachable (snd fd)
                                /\ v = stored_name dicomFolder (fst fd).
Proof.
  destruct scan_study_uids as [studies [Hstudies Hst]].
  pose (inner := fun studyUID seriesUID =>
          let* sops := CMRDir.get_sop_uids w self studyUID seriesUID in
          mapM (fun s =>
                  let* study := py_getitem (CMRDir.dicomDir self) studyUID in
                  let* series := py_getitem study seriesUID in
                  let* inst := py_getitem series s in
                  py_getitem inst "Filename") sops).
  pose (outer := fun studyUID =>
          let* sers := CMRDir.get_series_uids w self studyUID in
          concatM (inner studyUID) sers).
  assert (Hinner : forall a b, file_of_series l a b -> ~ In b CMRDir.STUDY_TAGS ->
            exists sops files,
              CMRDir.get_sop_uids w self a b = Ok sops
              /\ inner a b = Ok files
              /\ Forall2 (fun c file =>
                            exists fd,
                              last_with l fd
                              /\ uids (snd fd) = (Some a, Some b, Some c)
                              /\ file = stored_name dicomFolder (fst fd))
                         sops files).
  { intros a b Hab Hb.
    destruct (scan_filenames a b PNone Hab Hb) as [sops [files [H1 [H2 H3]]]].
    exists sops, files. split; [exact H1|]. split; [|exact H3].
    rewrite get_filenames_as_something in H2. exact H2. }
  assert (Houter : forall a, file_of_study l a ->
            exists sers files,
              CMRDir.get_series_uids w self a = Ok sers
              /\ outer a = Ok files
              /\ (forall b, In b sers
                            <-> ~ In b CMRDir.STUDY_TAGS /\ file_of_series l a b)).
  { intros a Ha. destruct (scan_series_uids a Ha) as [sers [Hsers [_ Hin]]].
    destruct (concatM_total (inner a) sers) as [files Hfiles].
    - intros b Hb. apply Hin in Hb. destruct Hb as [Hb Hab].
      destruct (Hinner a b Hab Hb) as [sops [files [_ [H _]]]]. now exists files.
    - exists sers, files. split; [exact Hsers|]. split; [|exact Hin].
      unfold outer. rewrite Hsers. exact Hfiles. }
  destruct (concatM_total outer studies) as [all Hall].
  { intros a Ha. apply Hst in Ha.
    destruct (Houter a Ha) as [sers [files [_ [H _]]]]. now exists files. }
  exists all. split.
  { unfold CMRDir.get_all_filenames. rewrite Hstudies. exact Hall. }
  intros v. rewrite (concatM_In outer studies all v Hall). split.
  - intros [a [files [Ha [Hfiles Hv]]]]. apply Hst in Ha.
    destruct (Houter a Ha) as [sers [files' [Hsers [Hf' Hin]]]].
    rewrite Hfiles in Hf'. injection Hf' as <-.
    unfold outer in Hfiles. rewrite Hsers in Hfiles. cbn [bind] in Hfiles.
    apply (concatM_In (inner a) sers files v Hfiles) in Hv.
    destruct Hv as [b [fs [Hb [Hfs Hv]]]].
    apply Hin in Hb. destruct Hb as [Hb Hab].
    destruct (Hinner a b Hab Hb) as [sops [fs' [Hsops [Hfs' Hall2]]]].
    rewrite Hfs in Hfs'. injection Hfs' as <-.
    destruct (Forall2_In_r _ _ _ _ Hall2 Hv) as [c [Hc [fd [H1 [H2 H3]]]]].
    exists fd. split; [exact H1|]. split; [|exact H3].
    exists a, b, c. split; [exact H2|]. split; [exact Hb|].
    destruct (scan_sop_uids a b Hab Hb) as [sops' [Hs' [_ Hin']]].
    rewrite Hsops in Hs'. injection Hs' as <-. now apply Hin' in Hc.
  - intros [fd [Hlast [[a [b [c [Hu [Hb Hc]]]]] ->]]].
    pose proof (last_with_In _ _ Hlast) as Hfd.
    assert (Ha : file_of_study l a).
    { exists fd. split; [exact Hfd|]. unfold uids in Hu. now injection Hu. }
    assert (Hab : file_of_series l a b).
    { exists fd. split; [exact Hfd|]. unfold uids in Hu. injection Hu. auto. }
    assert (Habc : file_of_instance l a b c) by (exists fd; auto).
    destruct (Houter a Ha) as [sers [files [Hsers [Hfiles Hin]]]].
    exists a, files. split; [now apply Hst|]. split; [exact Hfiles|].
    unfold outer in Hfiles. rewrite Hsers in Hfiles. cbn [bind] in Hfiles.
    apply (concatM_In (inner a) sers files _ Hfiles).
    destruct (Hinner a b Hab Hb) as [sops [fs [Hsops [Hfs Hall2]]]].
    exists b, fs. split; [apply Hin; auto|]. split; [exact Hfs|].
    destruct (scan_sop_uids a b Hab Hb) as [sops' [Hs' [_ Hin']]].
    rewrite Hsops in Hs'. injection Hs' as <-.
    assert (Hc' : In c sops) by (apply Hin'; auto).
    destruct (Forall2_In_l _ _ _ _ Hall2 Hc') as [file [Hfile [fd' [H1 [H2 ->]]]]].
    assert (fd' = fd) as ->; [|exact Hfile].
    apply last_with_unique with l; auto. now rewrite H2, Hu.
Qed.
End ScannedCatalogue.


(** ** [CMRDir]: what the queries answer after a scan *)

(** X1.  [get_study_uids] of the catalogue [CMRDir.from_folder] returns
    lists the StudyInstanceUIDs of the recognized files, each once, in
    the order in which the walk met them first. *)
Theorem CMRDir_get_study_uids_of_scan
        (w : World) (dicomFolder : string) (studyName : pyval) (quiet : bool)
        (D : CMRDir.t) (out : list event) :
  CMRDir.from_folder w dicomFolder studyName quiet = (Ok D, out) ->
  CMRDir.get_study_uids D
  = Ok (set_of_list String.eqb (uids_of StudyInstanceUID (scanned w dicomFolder))).
Proof.
  intros H. destruct (CMRDir_from_folder_add_all _ _ _ _ _ _ H) as [_ [_ [_ Hall]]].
  unfold CMRDir.get_study_uids. now rewrite (add_all_keys _ _ _ _ _ Hall).
Qed.

(** X2.  [get_series_uids] of a scanned catalogue, for a study of the
    folder: the SeriesInstanceUIDs of the recognized files of that study,
    each once, except those that are the name of a study tag. *)
Theorem CMRDir_get_series_uids_of_scan
        (w : World) (dicomFolder : string) (studyName : pyval) (quiet : bool)
        (D : CMRDir.t) (out : list event) (a : string) :
  set_order_permutes w ->
  CMRDir.from_folder w dicomFolder studyName quiet = (Ok D, out) ->
  file_of_study (scanned w dicomFolder) a ->
  exists sers,
    CMRDir.get_series_uids w D a = Ok sers
    /\ NoDup sers
    /\ forall b, In b sers
                 <-> ~ In b CMRDir.STUDY_TAGS
                     /\ file_of_series (scanned w dicomFolder) a b.
Proof.
  intros Hperm H Ha.
  destruct (CMRDir_from_folder_ok _ _ _ _ _ _ H) as [d [Hd Hok]].
  exact (scan_series_uids w dicomFolder _ D d Hd Hok Hperm a Ha).
Qed.

(** X3.  [get_sop_uids] of a scanned catalogue, for a series of the
    folder: the SOPInstanceUIDs of the recognized files of that series,
    each once, except those that are the name of a series tag. *)
Theorem CMRDir_get_sop_uids_of_scan
        (w : World) (dicomFolder : string) (studyName : pyval) (quiet : bool)
        (D : CMRDir.t) (out : list event) (a b : string) :
  set_order_permutes w ->
  CMRDir.from_folder w dicomFolder studyName quiet = (Ok D, out) ->
  file_of_series (scanned w dicomFolder) a b ->
  ~ In b CMRDir.STUDY_TAGS ->
  exists sops,
    CMRDir.get_sop_uids w D a b = Ok sops
    /\ NoDup sops
    /\ forall c, In c sops
                 <-> ~ In c CMRDir.SERIES_TAGS
                     /\ file_of_instance (scanned w dicomFolder) a b c.
Proof.
  intros Hperm H Hab Hb.
  destruct (CMRDir_from_folder_ok _ _ _ _ _ _ H) as [d [Hd Hok]].
  exact (scan_sop_uids w dicomFolder _ D d Hd Hok Hperm a b Hab Hb).
Qed.

(** X4.  Of the recognized files with the same three identifiers the
    catalogue keeps the last one of the walk: its instance stands under
    the identifiers, with its name and its tags.  A file is kept whenever
    no later file repeats its identifiers. *)
Theorem CMRDir_keeps_last_file_of_an_instance
        (w : World) (dicomFolder : string) (studyName : pyval) (quiet : bool)
        (D : CMRDir.t) (out : list event)
        (l1 l2 : list (string * Dataset)) (f : string) (dcm : Dataset) :
  CMRDir.from_folder w dicomFolder studyName quiet = (Ok D, out) ->
  scanned w dicomFolder = l1 ++ (f, dcm) :: l2 ->
  (forall fd, In fd l2 -> uids (snd fd) <> uids dcm) ->
  exists a b c inst,
    uids dcm = (Some a, Some b, Some c)
    /\ instance_at (CMRDir.dicomDir D) a b c = Ok (PDict inst)
    /\ instance_of w dicomFolder f dcm inst.
Proof.
  intros H Hl Hl2.
  destruct (CMRDir_from_folder_add_all _ _ _ _ _ _ H) as [_ [_ [_ Hall]]].
  rewrite Hl, add_all_app in Hall. bind_ok Hall dir1 E1.
  simpl in Hall. bind_ok Hall dir2 E2.
  destruct (CMRDir_add_file_shape _ _ _ _ _ _ E2)
    as [a [b [c [d [sd [ed [inst [Hu [-> [_ [_ [Hinst ->]]]]]]]]]]]].
  exists a, b, c. eexists. split; [exact Hu|]. split.
  - eapply add_all_keeps_instance; [exact Hall| |].
    + intros fd Hin. rewrite <- Hu. now apply Hl2.
    + unfold instance_at. simpl. rewrite !dict_get_set_same. simpl.
      rewrite !dict_get_set_same. simpl. now rewrite dict_get_set_same.
  - now apply instance_of_new.
Qed.

(** X5.  [get_filenames] of a scanned catalogue, for a series of the
    folder: for each identifier [get_sop_uids] lists, in the same order,
    the stored name of the last recognized file with that identifier. *)
Theorem CMRDir_get_filenames_of_scan
        (w : World) (dicomFolder : string) (studyName : pyval) (quiet : bool)
        (D : CMRDir.t) (out : list event) (a b : string) (frame : pyval) :
  set_order_permutes w ->
  CMRDir.from_folder w dicomFolder studyName quiet = (Ok D, out) ->
  file_of_series (scanned w dicomFolder) a b ->
  ~ In b CMRDir.STUDY_TAGS ->
  exists sops files,
    CMRDir.get_sop_uids w D a b = Ok sops
    /\ CMRDir.get_filenames w D a b frame = Ok files
    /\ Forall2 (fun c file =>
                  exists fd,
                    last_with (scanned w dicomFolder) fd
                    /\ uids (snd fd) = (Some a, Some b, Some c)
                    /\ file = stored_name dicomFolder (fst fd)) sops files.
Proof.
  intros Hperm H Hab Hb.
  destruct (CMRDir_from_folder_ok _ _ _ _ _ _ H) as [d [Hd Hok]].
  exact (scan_filenames w dicomFolder _ D d Hd Hok Hperm a b frame Hab Hb).
Qed.

(** X6.  [get_something_from_series] of a scanned catalogue, for a
    series of the folder.  For an instance tag it returns, for each
    identifier [get_sop_uids] lists, what [get_tag] gave for the last
    file with that identifier.  For a name that is neither an instance
    tag nor [Filename] it raises [KeyError] as soon as the series has an
    instance. *)
Theorem CMRDir_get_something_from_series_of_scan
        (w : World) (dicomFolder : string) (studyName : pyval) (quiet : bool)
        (D : CMRDir.t) (out : list event) (a b something : string) :
  set_order_permutes w ->
  CMRDir.from_folder w dicomFolder studyName quiet = (Ok D, out) ->
  file_of_series (scanned w dicomFolder) a b ->
  ~ In b CMRDir.STUDY_TAGS ->
  exists sops,
    CMRDir.get_sop_uids w D a b = Ok sops
    /\ (In something CMRDir.INSTANCE_TAGS ->
        exists vals,
          CMRDir.get_something_from_series w D a b something = Ok vals
          /\ Forall2 (fun c v =>
                        exists fd,
                          last_with (scanned w dicomFolder) fd
                          /\ uids (snd fd) = (Some a, Some b, Some c)
                          /\ CMRDir.get_tag w (snd fd) something = Ok v)
                     sops vals)
    /\ (~ In something ("Filename" :: CMRDir.INSTANCE_TAGS) -> sops <> [] ->
        CMRDir.get_something_from_series w D a b something
        = Raise (KeyError something)).
Proof.
  intros Hperm H Hab Hb.
  destruct (CMRDir_from_folder_ok _ _ _ _ _ _ H) as [d [Hd Hok]].
  destruct (scan_sop_uids w dicomFolder _ D d Hd Hok Hperm a b Hab Hb)
    as [sops [Hsops _]].
  exists sops. split; [exact Hsops|]. split.
  - intros Htag.
    destruct (scan_values w dicomFolder _ D d Hd Hok Hperm a b something Hab Hb
                          (or_intror Htag))
      as [sops' [vals [Hs' [Hvals Hall]]]].
    rewrite Hsops in Hs'. injection Hs' as <-.
    exists vals. split; [exact Hvals|].
    eapply Forall2_impl; [|exact Hall].
    intros c v [fd [inst [H1 [H2 [[_ [Htags _]] Hv]]]]].
    exists fd. split; [exact H1|]. split; [exact H2|].
    destruct (Htags _ Htag) as [v' [Hget Hv']]. congruence.
  - intros Hno Hne. destruct sops as [|c sops]; [congruence|].
    exact (scan_missing_key w dicomFolder _ D d Hd Hok Hperm a b something c sops
                            Hab Hb Hno Hsops).
Qed.

(** X7.  [get_all_filenames] of a scanned catalogue returns the stored
    names of the recognized files that are the last with their
    identifiers, and nothing else.  (A file whose series identifier is
    the name of a study tag, or whose instance identifier is the name of
    a series tag, is not listed.) *)
Theorem CMRDir_get_all_filenames_of_scan
        (w : World) (dicomFolder : string) (studyName : pyval) (quiet : bool)
        (D : CMRDir.t) (out : list event) :
  set_order_permutes w ->
  CMRDir.from_folder w dicomFolder studyName quiet = (Ok D, out) ->
  exists all,
    CMRDir.get_all_filenames w D = Ok all
    /\ forall v, In v all
                 <-> exists fd,
                       last_with (scanned w dicomFolder) fd
                       /\ reachable (snd fd)
                       /\ v = stored_name dicomFolder (fst fd).
Proof.
  intros Hperm H.
  destruct (CMRDir_from_folder_ok _ _ _ _ _ _ H) as [d [Hd Hok]].
  exact (scan_all_filenames w dicomFolder _ D d Hd Hok Hperm).
Qed.

(** ** [CMRDir]: study tags, emptiness, names and errors *)

Lemma study_tags_first (w : World) (dicomFolder : string)
      (l1 l2 : list (string * Dataset)) (f : string) (dcm : Dataset)
      (a tag : string) (dir : pyval) :
  add_all w dicomFolder (l1 ++ (f, dcm) :: l2) (PDict []) = Ok dir ->
  StudyInstanceUID dcm = Some a -> ~ file_of_study l1 a ->
  In tag CMRDir.STUDY_TAGS ->
  ~ file_of_series ((f, dcm) :: l2) a tag ->
  exists v, CMRDir.get_tag w dcm tag = Ok v /\ study_item dir a tag = Ok v.
Proof.
  intros Hall Ha Hfirst Htag Hno.
  rewrite add_all_app in Hall. bind_ok Hall dir1 E1.
  destruct (catalogue_ok_add_all w dicomFolder l1 [] [] _
              (catalogue_ok_nil w dicomFolder) E1) as [d1 [-> [Hkeys _]]].
  simpl in Hkeys. simpl in Hall. bind_ok Hall dir2 E2.
  destruct (CMRDir_add_file_shape _ _ _ _ _ _ E2)
    as [a' [b [c [d [sd [ed [inst [Hu [Hd [Hsd [_ [_ ->]]]]]]]]]]]].
  injection Hd as <-. unfold uids in Hu. injection Hu as Ha' Hb _.
  rewrite Ha in Ha'. injection Ha' as <-.
  assert (Hnone : dict_get d1 a = None).
  { apply dict_mem_get. destruct (dict_mem d1 a) eqn:E; [|reflexivity].
    now apply Hkeys in E. }
  rewrite Hnone in Hsd.
  destruct (dict_comp_get _ _ _ _ tag Hsd) as [Hin _].
  destruct (Hin Htag) as [v [Hv Hget]].
  exists v. split; [exact Hv|].
  eapply add_all_keeps_item; [exact Hall| |].
  - intros [fd [Hin' Hfd]]. apply Hno. exists fd. split; [now right|exact Hfd].
  - unfold study_item. simpl. rewrite dict_get_set_same. simpl.
    rewrite dict_get_set_other; [now rewrite Hget|].
    intros <-. apply Hno. exists (f, dcm). split; [now left|now split].
Qed.

(** X8.  The study tags of a scanned catalogue are those of the first
    recognized file of the study: a later file of the same study leaves
    them as they are, whatever its own values.  (No file may have the
    name of the tag as its series identifier.) *)
Theorem CMRDir_study_tags_of_first_file
        (w : World) (dicomFolder : string) (studyName : pyval) (quiet : bool)
        (D : CMRDir.t) (out : list event)
        (l1 l2 : list (string * Dataset)) (f : string) (dcm : Dataset)
        (a tag : string) :
  CMRDir.from_folder w dicomFolder studyName quiet = (Ok D, out) ->
  scanned w dicomFolder = l1 ++ (f, dcm) :: l2 ->
  StudyInstanceUID dcm = Some a -> ~ file_of_study l1 a ->
  In tag CMRDir.STUDY_TAGS ->
  (forall fd, In fd (scanned w dicomFolder) ->
              SeriesInstanceUID (snd fd) <> Some tag) ->
  exists v,
    CMRDir.get_tag w dcm tag = Ok v
    /\ study_item (CMRDir.dicomDir D) a tag = Ok v.
Proof.
  intros H Hl Ha Hfirst Htag Hno.
  destruct (CMRDir_from_folder_add_all _ _ _ _ _ _ H) as [_ [_ [_ Hall]]].
  rewrite Hl in Hall.
  apply (study_tags_first _ _ _ _ _ _ _ _ _ Hall Ha Hfirst Htag).
  intros [fd [Hin [_ Hfd]]]. apply (Hno fd); [|exact Hfd].
  rewrite Hl. apply in_or_app. now right.
Qed.

Lemma fold_set_add_head (l s : list string) (a : string) :
  exists t, fold_left (set_add String.eqb) l (a :: s) = a :: t.
Proof.
  revert s. induction l as [|x r IH]; intros s; simpl.
  - now exists s.
  - destruct (String.eqb a x); apply IH.
Qed.

Lemma scanned_keys (w : World) (dicomFolder : string) (l : list (string * Dataset))
      (f : string) (dcm : Dataset) (dir : pyval) :
  add_all w dicomFolder ((f, dcm) :: l) (PDict []) = Ok dir ->
  exists a d v rest,
    StudyInstanceUID dcm = Some a /\ dir = PDict ((a, v) :: d)
    /\ py_keys dir = Ok (a :: rest).
Proof.
  intros H. pose proof (add_all_keys _ _ _ _ _ H) as Hkeys.
  destruct (catalogue_ok_add_all w dicomFolder _ [] [] _
              (catalogue_ok_nil w dicomFolder) H) as [d [-> _]].
  simpl in H. bind_ok H dir1 E.
  destruct (CMRDir_add_file_shape _ _ _ _ _ _ E)
    as [a [b [c [_ [_ [_ [_ [Hu _]]]]]]]].
  unfold uids in Hu. injection Hu as Ha _ _.
  unfold uids_of in Hkeys. simpl in Hkeys. rewrite Ha in Hkeys. simpl in Hkeys.
  destruct (fold_set_add_head
              (flat_map (fun fd => match StudyInstanceUID (snd fd) with
                                   | Some u => [u]
                                   | None => []
                                   end) l) [] a) as [t Ht].
  rewrite Ht in Hkeys. simpl in Hkeys. injection Hkeys as Hkeys.
  destruct d as [|[k v] d]; [discriminate|]. simpl in Hkeys.
  injection Hkeys as -> Hkeys.
  exists a, d, v, t. split; [exact Ha|]. split; [reflexivity|].
  simpl. now rewrite Hkeys.
Qed.

(** X9.  [get_patient_id()] of a scanned catalogue answers with the
    PatientID of the first recognized file of the walk, as [get_tag]
    returns it, whatever the patients of the other files are. *)
Theorem CMRDir_get_patient_id_of_scan
        (w : World) (dicomFolder : string) (studyName : pyval) (quiet : bool)
        (D : CMRDir.t) (out : list event)
        (f : string) (dcm : Dataset) (rest : list (string * Dataset)) :
  CMRDir.from_folder w dicomFolder studyName quiet = (Ok D, out) ->
  scanned w dicomFolder = (f, dcm) :: rest ->
  (forall fd, In fd (scanned w dicomFolder) ->
              SeriesInstanceUID (snd fd) <> Some "PatientID") ->
  exists v,
    CMRDir.get_tag w dcm "PatientID" = Ok v
    /\ CMRDir.get_patient_id D None = Ok v.
Proof.
  intros H Hl Hno.
  destruct (CMRDir_from_folder_add_all _ _ _ _ _ _ H) as [_ [_ [_ Hall]]].
  rewrite Hl in Hall, Hno.
  destruct (scanned_keys _ _ _ _ _ _ Hall) as [a [d [v0 [t [Ha [Hd Hkeys]]]]]].
  destruct (study_tags_first w dicomFolder [] rest f dcm a "PatientID" _ Hall Ha)
    as [v [Hv Hitem]].
  - intros [fd [[] _]].
  - simpl. tauto.
  - intros [fd [Hin [_ Hfd]]]. exact (Hno fd Hin Hfd).
  - exists v. split; [exact Hv|].
    unfold CMRDir.get_patient_id. rewrite Hkeys. cbn [bind]. exact Hitem.
Qed.

(** X10.  [is_empty] of a scanned catalogue is [True] exactly when the
    folder has no recognized file. *)
Theorem CMRDir_is_empty_of_scan
        (w : World) (dicomFolder : string) (studyName : pyval) (quiet : bool)
        (D : CMRDir.t) (out : list event) :
  CMRDir.from_folder w dicomFolder studyName quiet = (Ok D, out) ->
  CMRDir.is_empty D
  = Ok (match scanned w dicomFolder with [] => true | _ :: _ => false end).
Proof.
  intros H.
  destruct (CMRDir_from_folder_add_all _ _ _ _ _ _ H) as [_ [_ [_ Hall]]].
  unfold CMRDir.is_empty.
  destruct (scanned w dicomFolder) as [|[f dcm] rest].
  - simpl in Hall. now injection Hall as <-.
  - destruct (scanned_keys _ _ _ _ _ _ Hall) as [a [d [v [t [_ [Hd _]]]]]].
    now rewrite Hd.
Qed.

Lemma has_char_append (c : ascii) (a b : string) :
  has_char c (a ++ b) = has_char c a || has_char c b.
Proof.
  unfold has_char. induction a as [|x a IH]; simpl; [reflexivity|].
  now rewrite IH, orb_assoc.
Qed.

Lemma basename_plain (n : string) : has_char slash n = false -> basename n = n.
Proof.
  destruct n as [|c r]; [reflexivity|]. unfold has_char.
  cbn [list_ascii_of_string existsb basename].
  intros H. apply orb_false_elim in H. destruct H as [Hc Hr].
  rewrite Hr. rewrite Ascii.eqb_sym in Hc. now rewrite Hc.
Qed.

Lemma basename_join (parent n : string) :
  has_char slash n = false -> basename (parent ++ "/" ++ n) = n.
Proof.
  intros Hn. induction parent as [|c p IH].
  - change ("" ++ "/" ++ n)%string with (String slash n).
    cbn [basename]. unfold has_char in Hn. rewrite Hn.
    now rewrite Ascii.eqb_refl.
  - change (String c p ++ "/" ++ n)%string with (String c (p ++ "/" ++ n)).
    cbn [basename].
    pose proof (has_char_append slash p ("/" ++ n)) as E.
    unfold has_char in E at 1. rewrite E.
    replace (has_char slash ("/" ++ n)) with true
      by (unfold has_char; cbn [append list_ascii_of_string existsb];
          now rewrite Ascii.eqb_refl).
    rewrite orb_true_r. exact IH.
Qed.

(** X11.  The catalogue remembers the folder as it was given.  Its
    study name is the name the caller gave; without one it is the last
    component of the folder, which is empty when the folder was given
    with a trailing separator. *)
Theorem CMRDir_from_folder_names_the_study
        (w : World) (dicomFolder : string) (studyName : pyval) (quiet : bool)
        (D : CMRDir.t) (out : list event) :
  CMRDir.from_folder w dicomFolder studyName quiet = (Ok D, out) ->
  CMRDir.source D = PStr dicomFolder
  /\ (studyName <> PNone -> CMRDir.studyName D = studyName)
  /\ (studyName = PNone ->
      (has_char slash dicomFolder = false ->
       CMRDir.studyName D = PStr dicomFolder)
      /\ forall parent n,
           dicomFolder = (parent ++ "/" ++ n)%string ->
           has_char slash n = false ->
           CMRDir.studyName D = PStr n).
Proof.
  intros H.
  destruct (CMRDir_from_folder_add_all _ _ _ _ _ _ H) as [_ [Hs [Hn _]]].
  split; [exact Hs|]. split.
  - intros Hne. rewrite Hn. now destruct studyName.
  - intros ->. rewrite Hn. split.
    + intros Hp. now rewrite basename_plain.
    + intros parent n -> Hp. now rewrite basename_join.
Qed.

(** X12.  A recognized file that lacks one of the three identifiers
    makes [CMRDir.from_folder] raise: no catalogue is returned. *)
Theorem CMRDir_from_folder_needs_identifiers
        (w : World) (dicomFolder : string) (studyName : pyval) (quiet : bool)
        (f : string) (dcm : Dataset) :
  In (f, dcm) (scanned w dicomFolder) ->
  StudyInstanceUID dcm = None \/ SeriesInstanceUID dcm = None
  \/ SOPInstanceUID dcm = None ->
  exists e, fst (CMRDir.from_folder w dicomFolder studyName quiet) = Raise e.
Proof.
  intros Hin Hnone.
  destruct (CMRDir.from_folder w dicomFolder studyName quiet) as [[D|e] out] eqn:E;
    [|now exists e].
  exfalso.
  destruct (CMRDir_from_folder_add_all _ _ _ _ _ _ E) as [_ [_ [_ Hall]]].
  pose proof (add_all_uids _ _ _ _ _ Hall) as Hu.
  rewrite Forall_forall in Hu. destruct (Hu _ Hin) as [a [b [c H]]].
  unfold uids in H. simpl in H. injection H as Ha Hb Hc.
  destruct Hnone as [H|[H|H]]; congruence.
Qed.

(** *** When the scan returns *)

Lemma dict_comp_total {V : Type} (f : string -> result V) (keys : list string) :
  (forall k, In k keys -> exists v, f k = Ok v) ->
  forall acc, exists d, dict_comp f keys acc = Ok d.
Proof.
  induction keys as [|k r IH]; intros H acc; simpl.
  - now exists acc.
  - destruct (H k (or_introl eq_refl)) as [v ->]. simpl.
    apply IH. intros k' Hk'. apply H. now right.
Qed.

Lemma CMRDir_add_file_runs (w : World) (dicomFolder f : string) (dcm : Dataset)
      (l : list (string * Dataset)) (d : list (string * pyval)) :
  catalogue_ok w dicomFolder l d -> indexable w dcm ->
  exists dir', CMRDir.add_file w dicomFolder f dcm (PDict d) = Ok dir'.
Proof.
  intros [Hkeys Hst] [[a [b [c [Hu Hb]]]] Htags].
  unfold uids in Hu. injection Hu as Ha Hb' Hc.
  assert (T1 : exists sd, dict_comp (CMRDir.get_tag w dcm) CMRDir.STUDY_TAGS []
                          = Ok sd).
  { apply dict_comp_total. intros k Hk. apply Htags. apply in_or_app. now left. }
  assert (T2 : exists ed, dict_comp (CMRDir.get_tag w dcm) CMRDir.SERIES_TAGS []
                          = Ok ed).
  { apply dict_comp_total. intros k Hk. apply Htags.
    apply in_or_app. right. apply in_or_app. now left. }
  assert (T3 : exists inst, dict_comp (CMRDir.get_tag w dcm) CMRDir.INSTANCE_TAGS []
                            = Ok inst).
  { apply dict_comp_total. intros k Hk. apply Htags.
    apply in_or_app. right. apply in_or_app. now right. }
  destruct T1 as [tags1 T1]. destruct T2 as [tags2 T2]. destruct T3 as [inst T3].
  (* once the study [sd] of the file is at hand *)
  assert (Hrest : forall d1 sd,
            (forall se, dict_get sd b = Some se -> exists ed, se = PDict ed) ->
            exists dir',
              (let* known := py_contains b (PDict sd) in
               let* study :=
                 if negb known then
                   let* tags := dict_comp (CMRDir.get_tag w dcm)
                                          CMRDir.SERIES_TAGS [] in
                   py_setitem (PDict sd) b (PDict tags)
                 else Ok (PDict sd) in
               let* newInstance := dict_comp (CMRDir.get_tag w dcm)
                                             CMRDir.INSTANCE_TAGS [] in
               let newInstance :=
                 dict_set newInstance "Filename"
                          (PStr (str_replace f (path_join dicomFolder "") "")) in
               let* series := py_getitem study b in
               let* sop := Ok c in
               let* series := py_setitem series sop (PDict newInstance) in
               let* study := py_setitem study b series in
               py_setitem (PDict d1) a study) = Ok dir').
  { intros d1 sd Hser. cbn [py_contains bind].
    destruct (dict_mem sd b) eqn:E; cbn [negb bind].
    - rewrite T3. cbn [bind py_getitem].
      unfold dict_mem in E. destruct (dict_get sd b) as [se|] eqn:Es; [|discriminate].
      destruct (Hser se eq_refl) as [ed ->]. cbn [bind py_setitem]. now eexists.
    - rewrite T2. cbn [bind py_setitem]. rewrite T3. cbn [bind py_getitem].
      rewrite dict_get_set_same. cbn [bind py_setitem]. now eexists. }
  unfold CMRDir.add_file, dcm_uid. rewrite Ha, Hb', Hc.
  cbn [bind py_contains].
  destruct (dict_mem d a) eqn:E; cbn [negb bind].
  - destruct (Hst a E) as [sd [Hsd [_ Hser]]].
    cbn [py_getitem]. rewrite Hsd. cbn [bind].
    apply (Hrest d sd).
    intros se Hse. destruct (Hser b Hb (dict_mem_Some _ _ _ Hse)) as [ed [He _]].
    exists ed. congruence.
  - rewrite T1. cbn [bind py_setitem py_getitem]. rewrite dict_get_set_same.
    cbn [bind]. apply (Hrest (dict_set d a (PDict tags1)) tags1).
    intros se Hse. exfalso. apply Hb.
    apply (dict_comp_mem _ _ _ b T1). now apply dict_mem_Some with se.
Qed.

Lemma CMRDir_add_files_run (w : World) (dicomFolder : string) (quiet : bool)
      (allFiles : list string) :
  forall l d out,
    catalogue_ok w dicomFolder l d ->
    (forall f, In f allFiles -> exists r, read_dicom w f = Ok r) ->
    (forall fd, In fd (recognized w allFiles) -> indexable w (snd fd)) ->
    exists dir' out',
      CMRDir.add_files w dicomFolder quiet allFiles (PDict d) out = (Ok dir', out').
Proof.
  induction allFiles as [|f rest IH]; intros l d out Hok Hread Hidx; simpl.
  - now exists (PDict d), out.
  - destruct (Hread f (or_introl eq_refl)) as [r Hr].
    simpl in Hidx. rewrite Hr in Hidx |- *. destruct r as [dcm|].
    + destruct (CMRDir_add_file_runs w dicomFolder f dcm l d Hok)
        as [dir1 E]; [apply (Hidx (f, dcm)); now left|].
      rewrite E.
      destruct (CMRDir_add_file_shape _ _ _ _ _ _ E)
        as [a [b [c [_ [_ [_ [_ [Hu _]]]]]]]].
      destruct (catalogue_ok_add w dicomFolder l f dcm a b c Hu d dir1 Hok E)
        as [d1 [-> Hok1]].
      apply (IH _ _ _ Hok1).
      * intros f' Hf'. apply Hread. now right.
      * intros fd Hfd. apply Hidx. now right.
    + apply (IH _ _ _ Hok).
      * intros f' Hf'. apply Hread. now right.
      * exact Hidx.
Qed.

(** X13.  [CMRDir.from_folder] returns a catalogue whenever the path is
    a folder, pydicom reads every file of it without an exception, and
    every recognized file has the three identifiers (the series
    identifier not being the name of a study tag) and values that
    [get_tag] can convert. *)
Theorem CMRDir_from_folder_returns
        (w : World) (dicomFolder : string) (studyName : pyval) (quiet : bool) :
  isdir w dicomFolder = true ->
  all_read w dicomFolder ->
  (forall fd, In fd (scanned w dicomFolder) -> indexable w (snd fd)) ->
  exists D out, CMRDir.from_folder w dicomFolder studyName quiet = (Ok D, out).
Proof.
  intros Hdir Hread Hidx. unfold CMRDir.from_folder. rewrite Hdir. simpl.
  assert (Hinit : forall name, CMRDir.dicomDir (CMRDir.init name) = PDict [])
    by reflexivity.
  destruct (CMRDir_add_files_run w dicomFolder quiet (walk_files w dicomFolder)
              [] [] [PrintCount (List.length (walk_files w dicomFolder))]
              (catalogue_ok_nil w dicomFolder) Hread Hidx) as [dir' [out' E]].
  destruct studyName; rewrite Hinit, E; now eexists; eexists.
Qed.

(** ** [CMRStudy.from_folder] *)

Lemma set_tags_comp (w : World) (dcm : Dataset) (tags : list string) :
  forall acc,
    CMRStudy.set_tags w dcm tags (PDict acc)
    = let* d := dict_comp (CMRStudy.get_tag w dcm) tags acc in Ok (PDict d).
Proof.
  induction tags as [|t r IH]; intros acc; simpl; [reflexivity|].
  destruct (CMRStudy.get_tag w dcm t); simpl; [apply IH|reflexivity].
Qed.

Lemma when_Ok (b : bool) (m : M unit) (out out' : list event) (u : unit) :
  CMRStudy.when b m out = (Ok u, out') ->
  if b then m out = (Ok u, out') else out' = out.
Proof.
  destruct b; simpl; [auto|]. unfold mret. now intros [= _ <-].
Qed.

(** The dict of the study after a file was added, written out. *)
Lemma CMRStudy_add_file_shape (w : World) (folder_name : string) (verbose : bool)
      (f : string) (dcm : Dataset) (su su' : option string) (dd dd' : pyval)
      (out out' : list event) :
  CMRStudy.add_file w folder_name verbose f dcm (su, dd) out = (Ok (su', dd'), out') ->
  exists a b c d0 sers ser insts inst,
    uids dcm = (Some a, Some b, Some c)
    /\ su' = Some a
    /\ match su with
       | None =>
           (let* dd1 := CMRStudy.set_tags w dcm CMRStudy.STUDY_TAGS dd in
            py_setitem dd1 "Series" (PDict [])) = Ok (PDict d0)
       | Some a0 => a0 = a /\ dd = PDict d0
       end
    /\ dict_get d0 "Series" = Some (PDict sers)
    /\ match dict_get sers b with
       | Some se => se = PDict ser
       | None =>
           exists tags,
             dict_comp (CMRStudy.get_tag w dcm) CMRStudy.SERIES_TAGS [] = Ok tags
             /\ ser = dict_set tags "Instances" (PDict [])
       end
    /\ dict_get ser "Instances" = Some (PDict insts)
    /\ dict_get insts c = None
    /\ dict_comp (CMRStudy.get_tag w dcm) CMRStudy.INSTANCE_TAGS [] = Ok inst
    /\ dd'
       = PDict
           (dict_set d0 "Series"
              (PDict
                 (dict_set sers b
                    (PDict
                       (dict_set ser "Instances"
                          (PDict
                             (dict_set insts c
                                (PDict
                                   (dict_set inst "Filename"
                                      (PStr (str_replace f
                                               (path_join folder_name "")
                                               ""))))))))))).
Proof.
  unfold CMRStudy.add_file. cbn [fst snd]. intros H.
  apply mbind_Ok in H. destruct H as [[study_iuid dd0] [out1 [Hfirst H]]].
  apply mbind_lift_Ok in H. destruct H as [u [Hu H]].
  apply mbind_lift_Ok in H. destruct H as [[] [Hsame H]].
  apply assert_Ok in Hsame. apply String.eqb_eq in Hsame. subst study_iuid.
  apply mbind_lift_Ok in H. destruct H as [b [Hser H]].
  apply mbind_lift_Ok in H. destruct H as [all_series [Hall H]].
  apply mbind_lift_Ok in H. destruct H as [known [Hknown H]].
  apply mbind_Ok in H. destruct H as [all_series1 [out2 [Hnew H]]].
  apply mbind_lift_Ok in H. destruct H as [c [Hsop H]].
  apply mbind_lift_Ok in H. destruct H as [series1 [Hseries1 H]].
  apply mbind_lift_Ok in H. destruct H as [instances1 [Hinst1 H]].
  apply mbind_lift_Ok in H. destruct H as [dup [Hdup H]].
  apply mbind_lift_Ok in H. destruct H as [[] [Hnodup H]].
  apply assert_Ok in Hnodup. apply negb_true_iff in Hnodup. subst dup.
  apply mbind_lift_Ok in H. destruct H as [inst [Hinst H]].
  apply mbind_lift_Ok in H. destruct H as [c' [Hsop' H]].
  rewrite Hsop in Hsop'. injection Hsop' as <-.
  apply mbind_lift_Ok in H. destruct H as [instances2 [Hinst2 H]].
  apply mbind_lift_Ok in H. destruct H as [series2 [Hseries2 H]].
  apply mbind_lift_Ok in H. destruct H as [all_series2 [Hall2 H]].
  apply mbind_lift_Ok in H. destruct H as [dd2 [Hdd2 H]].
  unfold mret in H. injection H as <- <- <-.
  apply dcm_uid_Some in Hu, Hser, Hsop.
  (* the dict after the study step *)
  destruct dd0 as [| | | | | | | | |d0|]; try discriminate Hall.
  simpl in Hall.
  destruct (dict_get d0 "Series") as [x|] eqn:Hd0; [|discriminate].
  injection Hall as ->.
  destruct all_series as [| | | | | | | | |sers|]; try discriminate Hknown.
  simpl in Hknown. injection Hknown as <-.
  (* the series *)
  assert (Hse : exists ser,
            all_series1 = PDict (dict_set sers b (PDict ser))
            /\ series1 = PDict ser
            /\ match dict_get sers b with
               | Some se => se = PDict ser
               | None =>
                   exists tags,
                     dict_comp (CMRStudy.get_tag w dcm) CMRStudy.SERIES_TAGS []
                     = Ok tags
                     /\ ser = dict_set tags "Instances" (PDict [])
               end).
  { unfold dict_mem in Hnew. destruct (dict_get sers b) as [se|] eqn:Eb.
    - simpl in Hnew. unfold mret in Hnew. injection Hnew as <- _.
      simpl in Hseries1. rewrite Eb in Hseries1. injection Hseries1 as ->.
      destruct series1 as [| | | | | | | | |ser|]; try discriminate Hinst1.
      exists ser. split; [|split; reflexivity].
      now rewrite (dict_set_get_id _ _ _ Eb).
    - simpl in Hnew.
      apply mbind_lift_Ok in Hnew. destruct Hnew as [tags [Htags Hnew]].
      apply mbind_lift_Ok in Hnew. destruct Hnew as [as1 [Has1 Hnew]].
      apply mbind_lift_Ok in Hnew. destruct Hnew as [s1 [Hs1 Hnew]].
      apply mbind_lift_Ok in Hnew. destruct Hnew as [s2 [Hs2 Hnew]].
      apply mbind_lift_Ok in Hnew. destruct Hnew as [as2 [Has2 Hnew]].
      apply mbind_Ok in Hnew. destruct Hnew as [[] [out3 [_ Hnew]]].
      unfold mret in Hnew. injection Hnew as <- _.
      simpl in Has1. injection Has1 as <-.
      simpl in Hs1. rewrite dict_get_set_same in Hs1. injection Hs1 as <-.
      simpl in Hs2. injection Hs2 as <-.
      simpl in Has2. injection Has2 as <-.
      simpl in Hseries1. rewrite dict_set_set, dict_get_set_same in Hseries1.
      injection Hseries1 as <-.
      eexists. split; [now rewrite dict_set_set|]. split; [reflexivity|].
      exists tags. split; [exact Htags|reflexivity]. }
  destruct Hse as [ser [-> [-> Hser']]].
  simpl in Hinst1.
  destruct (dict_get ser "Instances") as [y|] eqn:Hi; [|discriminate].
  injection Hinst1 as ->.
  destruct instances1 as [| | | | | | | | |insts|]; try discriminate Hdup.
  simpl in Hdup. injection Hdup as Hdup. apply dict_mem_get in Hdup.
  simpl in Hinst2. injection Hinst2 as <-.
  simpl in Hseries2. injection Hseries2 as <-.
  simpl in Hall2. injection Hall2 as <-.
  simpl in Hdd2. injection Hdd2 as <-.
  exists u, b, c, d0, sers, ser, insts, inst.
  unfold uids. rewrite Hu, Hser, Hsop.
  split; [reflexivity|]. split; [reflexivity|]. split.
  { destruct su as [a0|].
    - unfold mret in Hfirst. injection Hfirst as -> -> _. now split.
    - apply mbind_lift_Ok in Hfirst. destruct Hfirst as [a1 [_ Hfirst]].
      apply mbind_Ok in Hfirst. destruct Hfirst as [[] [out3 [_ Hfirst]]].
      apply mbind_lift_Ok in Hfirst. destruct Hfirst as [dd1 [Hdd1 Hfirst]].
      apply mbind_lift_Ok in Hfirst. destruct Hfirst as [dd3 [Hdd3 Hfirst]].
      unfold mret in Hfirst. injection Hfirst as _ <- _.
      rewrite Hdd1. exact Hdd3. }
  split; [exact Hd0|]. split; [exact Hser'|]. split; [exact Hi|].
  split; [exact Hdup|]. split; [exact Hinst|].
  now rewrite !dict_set_set.
Qed.

(** *** The loop over the files *)

Lemma CMRStudy_add_files_recognized (w : World) (folder_name : string)
      (verbose : bool) (all_files : list string) :
  forall st out st' out',
    CMRStudy.add_files w folder_name verbose all_files st out = (Ok st', out') ->
    study_add_all w folder_name verbose (recognized w all_files) st out
    = (Ok st', out').
Proof.
  induction all_files as [|f rest IH]; intros st out st' out' H; simpl in H |- *.
  - exact H.
  - unfold mbind, lift in H.
    destruct (read_dicom w f) as [[dcm|]|e]; try discriminate.
    + simpl. unfold mbind.
      destruct (CMRStudy.add_file w folder_name verbose f dcm st out)
        as [[st1|e] out1]; try discriminate.
      apply IH. exact H.
    + apply IH. exact H.
Qed.

Lemma study_add_all_app (w : World) (folder_name : string) (verbose : bool)
      (l1 l2 : list (string * Dataset)) :
  forall st out,
    study_add_all w folder_name verbose (l1 ++ l2) st out
    = mbind (study_add_all w folder_name verbose l1 st)
            (fun st1 => study_add_all w folder_name verbose l2 st1) out.
Proof.
  induction l1 as [|[f dcm] r IH]; intros st out; simpl; [reflexivity|].
  unfold mbind in *.
  destruct (CMRStudy.add_file w folder_name verbose f dcm st out)
    as [[st1|e] out1]; auto.
Qed.

Lemma CMRStudy_from_folder_add_all (w : World) (folder_name : string)
      (verbose : bool) (S : CMRStudy.t) (out out' : list event) :
  CMRStudy.from_folder w folder_name verbose out = (Ok S, out') ->
  isdir w folder_name = true
  /\ exists su dd out1,
       study_add_all w folder_name verbose (scanned w folder_name)
                     (None, PDict []) out1 = (Ok (su, dd), out')
       /\ S = CMRStudy.init (PStr folder_name)
                (match su with Some u => PStr u | None => PNone end) dd.
Proof.
  unfold CMRStudy.from_folder. destruct (isdir w folder_name); [|discriminate].
  simpl. intros H. split; [reflexivity|].
  apply mbind_Ok in H. destruct H as [[] [out1 [_ H]]].
  apply mbind_Ok in H. destruct H as [[su dd] [out2 [H H']]].
  unfold mret in H'. injection H' as <- <-.
  apply CMRStudy_add_files_recognized in H.
  exists su, dd, out1. split; [exact H|reflexivity].
Qed.

Lemma study_add_all_Some (w : World) (folder_name : string) (verbose : bool)
      (l : list (string * Dataset)) (a : string) :
  forall dd out su' dd' out',
    study_add_all w folder_name verbose l (Some a, dd) out = (Ok (su', dd'), out') ->
    su' = Some a /\ forall fd, In fd l -> StudyInstanceUID (snd fd) = Some a.
Proof.
  induction l as [|[f dcm] r IH]; intros dd out su' dd' out' H; simpl in H.
  - unfold mret in H. injection H as <- _ _. split; [reflexivity|intros fd []].
  - apply mbind_Ok in H. destruct H as [[su1 dd1] [out1 [H1 H]]].
    destruct (CMRStudy_add_file_shape _ _ _ _ _ _ _ _ _ _ _ H1)
      as [a' [b [c [d0 [sers [ser [insts [inst [Hu [-> [[<- _] _]]]]]]]]]]].
    destruct (IH _ _ _ _ _ H) as [-> Hall]. split; [reflexivity|].
    intros fd [<-|Hin]; [|now apply Hall].
    unfold uids in Hu. simpl. now injection Hu.
Qed.

Lemma dict_set_not_nil {V : Type} (d : list (string * V)) (k : string) (v : V) :
  dict_set d k v <> [].
Proof.
  destruct d as [|[k0 v0] r]; simpl; [discriminate|].
  destruct (String.eqb k0 k); discriminate.
Qed.

Lemma study_add_all_first (w : World) (folder_name : string) (verbose : bool)
      (f : string) (dcm : Dataset) (r : list (string * Dataset)) :
  forall su dd out su' dd' out',
    study_add_all w folder_name verbose ((f, dcm) :: r) (su, dd) out
    = (Ok (su', dd'), out') ->
    exists a,
      StudyInstanceUID dcm = Some a /\ su' = Some a
      /\ (forall fd, In fd r -> StudyInstanceUID (snd fd) = Some a).
Proof.
  intros su dd out su' dd' out' H. simpl in H.
  apply mbind_Ok in H. destruct H as [[su1 dd1] [out1 [H1 H]]].
  destruct (CMRStudy_add_file_shape _ _ _ _ _ _ _ _ _ _ _ H1)
    as [a [b [c [d0 [sers [ser [insts [inst [Hu [-> _]]]]]]]]]].
  destruct (study_add_all_Some _ _ _ _ _ _ _ _ _ _ H) as [-> Hall].
  exists a. unfold uids in Hu. injection Hu as Ha _ _. auto.
Qed.

Lemma study_add_all_dict (w : World) (folder_name : string) (verbose : bool)
      (l : list (string * Dataset)) :
  forall st out su' dd' out',
    study_add_all w folder_name verbose l st out = (Ok (su', dd'), out') ->
    l <> [] -> exists d, dd' = PDict d /\ d <> [].
Proof.
  induction l as [|[f dcm] r IH]; intros [su dd] out su' dd' out' H Hne;
    [congruence|].
  simpl in H. apply mbind_Ok in H. destruct H as [[su1 dd1] [out1 [H1 H]]].
  destruct r as [|fd r].
  - simpl in H. unfold mret in H. injection H as <- <- _.
    destruct (CMRStudy_add_file_shape _ _ _ _ _ _ _ _ _ _ _ H1)
      as [a [b [c [d0 [sers [ser [insts [inst [_ [_ [_ [_ [_ [_ [_ [_ ->]]]]]]]]]]]]]]]].
    eexists. split; [reflexivity|apply dict_set_not_nil].
  - apply (IH _ _ _ _ _ H). discriminate.
Qed.

(** *** What a later file leaves as it is *)

Lemma CMRStudy_add_file_keeps_instance (w : World) (folder_name : string)
      (verbose : bool) (f : string) (dcm : Dataset) (a0 : string)
      (su' : option string) (dd dd' : pyval) (out out' : list event)
      (b0 c0 : string) (x : pyval) :
  CMRStudy.add_file w folder_name verbose f dcm (Some a0, dd) out
  = (Ok (su', dd'), out') ->
  study_instance_at dd b0 c0 = Ok x ->
  study_instance_at dd' b0 c0 = Ok x.
Proof.
  intros H Hx.
  destruct (CMRStudy_add_file_shape _ _ _ _ _ _ _ _ _ _ _ H)
    as [a [b [c [d0 [sers [ser [insts [inst
         [_ [_ [[_ ->] [Hd0 [Hser [Hi [Hdup [_ ->]]]]]]]]]]]]]]]].
  unfold study_instance_at in *. simpl in Hx |- *.
  rewrite Hd0 in Hx. rewrite dict_get_set_same. simpl in Hx |- *.
  destruct (string_dec b b0) as [<-|Hb];
    [|now rewrite dict_get_set_other by assumption].
  rewrite dict_get_set_same.
  destruct (dict_get sers b) as [se|]; [|discriminate]. subst se.
  simpl in Hx |- *. rewrite Hi in Hx. rewrite dict_get_set_same.
  simpl in Hx |- *.
  destruct (string_dec c c0) as [<-|Hc];
    [|now rewrite dict_get_set_other by assumption].
  now rewrite Hdup in Hx.
Qed.

Lemma CMRStudy_add_file_keeps_tag (w : World) (folder_name : string)
      (verbose : bool) (f : string) (dcm : Dataset) (a0 : string)
      (su' : option string) (dd dd' : pyval) (out out' : list event)
      (k : string) :
  CMRStudy.add_file w folder_name verbose f dcm (Some a0, dd) out
  = (Ok (su', dd'), out') ->
  k <> "Series" ->
  py_getitem dd' k = py_getitem dd k.
Proof.
  intros H Hk.
  destruct (CMRStudy_add_file_shape _ _ _ _ _ _ _ _ _ _ _ H)
    as [a [b [c [d0 [sers [ser [insts [inst
         [_ [_ [[_ ->] [_ [_ [_ [_ [_ ->]]]]]]]]]]]]]]]].
  simpl. rewrite dict_get_set_other; [reflexivity|congruence].
Qed.

Lemma study_add_all_keeps (w : World) (folder_name : string) (verbose : bool)
      (l : list (string * Dataset)) :
  forall a dd out su' dd' out',
    study_add_all w folder_name verbose l (Some a, dd) out = (Ok (su', dd'), out') ->
    (forall b c x, study_instance_at dd b c = Ok x ->
                   study_instance_at dd' b c = Ok x)
    /\ (forall k, k <> "Series" -> py_getitem dd' k = py_getitem dd k).
Proof.
  induction l as [|[f dcm] r IH]; intros a dd out su' dd' out' H; simpl in H.
  - unfold mret in H. injection H as _ <- _. split; auto.
  - apply mbind_Ok in H. destruct H as [[su1 dd1] [out1 [H1 H]]].
    destruct (CMRStudy_add_file_shape _ _ _ _ _ _ _ _ _ _ _ H1)
      as [a' [_ [_ [_ [_ [_ [_ [_ [_ [Hsu _]]]]]]]]]].
    subst su1. destruct (IH _ _ _ _ _ _ H) as [Hk1 Hk2]. split.
    + intros b c x Hx. apply Hk1.
      eapply CMRStudy_add_file_keeps_instance; [exact H1|exact Hx].
    + intros k Hk. rewrite (Hk2 k Hk).
      eapply CMRStudy_add_file_keeps_tag; [exact H1|exact Hk].
Qed.

Lemma study_instance_of_new (w : World) (folder_name f : string) (dcm : Dataset)
      (inst : list (string * pyval)) :
  dict_comp (CMRStudy.get_tag w dcm) CMRStudy.INSTANCE_TAGS [] = Ok inst ->
  study_instance_of w folder_name f dcm
    (dict_set inst "Filename" (PStr (str_replace f (path_join folder_name "") ""))).
Proof.
  intros H. split; [apply dict_get_set_same|]. split.
  - intros tag Htag.
    destruct (dict_comp_get _ _ _ _ tag H) as [Hin _].
    destruct (Hin Htag) as [v [Hv Hget]]. exists v. split; auto.
    rewrite dict_get_set_other; auto.
    intros <-. simpl in Htag. intuition discriminate.
  - intros k Hk. apply dict_mem_set in Hk. destruct Hk as [<-|Hk]; [now left|].
    right. now apply (dict_comp_mem _ _ _ k H).
Qed.

Lemma init_dcmdir (src uid : pyval) (d : list (string * pyval)) :
  CMRStudy.dcmdir (CMRStudy.init src uid (PDict d)) = PDict d.
Proof. reflexivity. Qed.

(** X14.  [CMRStudy.from_folder] files every recognized file: the study
    it returns carries the StudyInstanceUID of the file, and holds under
    the series and the instance identifier of the file an instance with
    its name and its tags.  No file replaces another. *)
Theorem CMRStudy_from_folder_files_every_image
        (w : World) (folder_name : string) (verbose : bool)
        (S : CMRStudy.t) (out out' : list event) (f : string) (dcm : Dataset) :
  CMRStudy.from_folder w folder_name verbose out = (Ok S, out') ->
  In (f, dcm) (scanned w folder_name) ->
  exists a b c inst,
    uids dcm = (Some a, Some b, Some c)
    /\ CMRStudy.study_instance_uid S = PStr a
    /\ study_instance_at (CMRStudy.dcmdir S) b c = Ok (PDict inst)
    /\ study_instance_of w folder_name f dcm inst.
Proof.
  intros H Hin.
  destruct (CMRStudy_from_folder_add_all _ _ _ _ _ _ H)
    as [_ [su [dd [out1 [Hall ->]]]]].
  destruct (in_split _ _ Hin) as [l1 [l2 Hl]]. rewrite Hl in Hall.
  rewrite study_add_all_app in Hall.
  apply mbind_Ok in Hall. destruct Hall as [[su1 dd1] [out2 [_ Hall]]].
  simpl in Hall.
  apply mbind_Ok in Hall. destruct Hall as [[su2 dd2] [out3 [H2 Hall]]].
  destruct (CMRStudy_add_file_shape _ _ _ _ _ _ _ _ _ _ _ H2)
    as [a [b [c [d0 [sers [ser [insts [inst
         [Hu [-> [_ [_ [_ [_ [_ [Hinst Hdd2]]]]]]]]]]]]]]]].
  destruct (study_add_all_Some _ _ _ _ _ _ _ _ _ _ Hall) as [-> _].
  destruct (study_add_all_keeps _ _ _ _ _ _ _ _ _ _ Hall) as [Hkeep _].
  exists a, b, c. eexists. split; [exact Hu|]. split; [reflexivity|]. split.
  - assert (Hfull : study_add_all w folder_name verbose ((f, dcm) :: l2)
                                  (su1, dd1) out2 = (Ok (Some a, dd), out')).
    { simpl. unfold mbind. rewrite H2. exact Hall. }
    destruct (study_add_all_dict w folder_name verbose _ _ _ _ _ _ Hfull)
      as [d [-> _]]; [discriminate|].
    rewrite init_dcmdir.
    apply Hkeep. rewrite Hdd2. unfold study_instance_at. simpl.
    rewrite !dict_get_set_same. simpl. rewrite !dict_get_set_same. simpl.
    rewrite !dict_get_set_same. simpl. now rewrite dict_get_set_same.
  - now apply study_instance_of_new.
Qed.

(** X15.  The study tags [CMRStudy.from_folder] returns, the PatientID
    among them, are those of the first recognized file of the walk, as
    [get_tag] returns them: the tags of the later files are not looked
    at. *)
Theorem CMRStudy_study_tags_of_first_file
        (w : World) (folder_name : string) (verbose : bool)
        (S : CMRStudy.t) (out out' : list event)
        (f : string) (dcm : Dataset) (rest : list (string * Dataset))
        (tag : string) :
  CMRStudy.from_folder w folder_name verbose out = (Ok S, out') ->
  scanned w folder_name = (f, dcm) :: rest ->
  In tag CMRStudy.STUDY_TAGS ->
  exists v,
    CMRStudy.get_tag w dcm tag = Ok v
    /\ py_getitem (CMRStudy.dcmdir S) tag = Ok v.
Proof.
  intros H Hl Htag.
  destruct (CMRStudy_from_folder_add_all _ _ _ _ _ _ H)
    as [_ [su [dd [out1 [Hall ->]]]]].
  rewrite Hl in Hall.
  destruct (study_add_all_dict _ _ _ _ _ _ _ _ _ Hall) as [d [-> _]];
    [discriminate|].
  rewrite init_dcmdir. simpl in Hall.
  apply mbind_Ok in Hall. destruct Hall as [[su2 dd2] [out3 [H2 Hall]]].
  destruct (CMRStudy_add_file_shape _ _ _ _ _ _ _ _ _ _ _ H2)
    as [a [b [c [d0 [sers [ser [insts [inst
         [_ [-> [Hd0 [_ [_ [_ [_ [_ Hdd2]]]]]]]]]]]]]]]].
  destruct (study_add_all_keeps _ _ _ _ _ _ _ _ _ _ Hall) as [_ Hkeep].
  assert (Hne : tag <> "Series").
  { intros ->. simpl in Htag. intuition discriminate. }
  rewrite (Hkeep tag Hne), Hdd2.
  rewrite set_tags_comp in Hd0.
  destruct (dict_comp (CMRStudy.get_tag w dcm) CMRStudy.STUDY_TAGS [])
    as [tags|] eqn:E; [|discriminate].
  simpl in Hd0. injection Hd0 as <-.
  destruct (dict_comp_get _ _ _ _ tag E) as [Hin _].
  destruct (Hin Htag) as [v [Hv Hget]]. exists v. split; [exact Hv|].
  simpl. rewrite !dict_get_set_other by congruence. now rewrite Hget.
Qed.

(** X16.  [is_empty] of the study [CMRStudy.from_folder] returns is
    [True] exactly when the folder has no recognized file; its
    [study_instance_uid] is then [None], and otherwise the
    StudyInstanceUID of the first recognized file. *)
Theorem CMRStudy_is_empty_of_scan
        (w : World) (folder_name : string) (verbose : bool)
        (S : CMRStudy.t) (out out' : list event) :
  CMRStudy.from_folder w folder_name verbose out = (Ok S, out') ->
  CMRStudy.is_empty S
  = Ok (match scanned w folder_name with [] => true | _ :: _ => false end)
  /\ CMRStudy.study_instance_uid S
     = match scanned w folder_name with
       | [] => PNone
       | (_, dcm) :: _ =>
           match StudyInstanceUID dcm with Some a => PStr a | None => PNone end
       end.
Proof.
  intros H.
  destruct (CMRStudy_from_folder_add_all _ _ _ _ _ _ H)
    as [_ [su [dd [out1 [Hall ->]]]]].
  destruct (scanned w folder_name) as [|[f dcm] rest].
  - simpl in Hall. unfold mret in Hall. injection Hall as <- <- _.
    split; reflexivity.
  - destruct (study_add_all_dict _ _ _ _ _ _ _ _ _ Hall) as [d [-> Hd]];
      [discriminate|].
    destruct (study_add_all_first _ _ _ _ _ _ _ _ _ _ _ _ Hall)
      as [a [Ha [-> _]]].
    split.
    + unfold CMRStudy.is_empty. rewrite init_dcmdir. simpl.
      destruct d; [congruence|reflexivity].
    + simpl. now rewrite Ha.
Qed.

(** X17.  With [verbose] on, which is the default, [CMRStudy.from_folder]
    reads the StudyDescription of the first recognized file in order to
    print it: when the file has none the call raises [AttributeError],
    after the line that counts the files was printed. *)
Theorem CMRStudy_verbose_needs_the_description
        (w : World) (folder_name : string) (out : list event)
        (skipped rest : list string) (f : string) (dcm : Dataset) (a : string) :
  isdir w folder_name = true ->
  walk_files w folder_name = skipped ++ f :: rest ->
  (forall g, In g skipped -> read_dicom w g = Ok None) ->
  read_dicom w f = Ok (Some dcm) ->
  StudyInstanceUID dcm = Some a ->
  dcm_lookup dcm "StudyDescription" = None ->
  CMRStudy.from_folder w folder_name true out
  = (Raise (AttributeError "StudyDescription"),
     out ++ [PrintFound (List.length (walk_files w folder_name)) folder_name]).
Proof.
  intros Hdir Hwalk Hskip Hread Ha Hdesc.
  assert (Hfile : forall st0,
            CMRStudy.add_file w folder_name true f dcm (None, PDict []) st0
            = (Raise (AttributeError "StudyDescription"), st0)).
  { intros st0. unfold CMRStudy.add_file. cbn [fst snd CMRStudy.when].
    unfold mbind, lift, dcm_uid, dcm_getattr. now rewrite Ha, Hdesc. }
  assert (Hloop : forall st0,
            CMRStudy.add_files w folder_name true (skipped ++ f :: rest)
                               (None, PDict []) st0
            = (Raise (AttributeError "StudyDescription"), st0)).
  { intros st0. rewrite CMRStudy_add_files_app. unfold mbind.
    rewrite (CMRStudy_add_files_none _ _ _ _ Hskip).
    cbn [CMRStudy.add_files]. unfold mbind, lift. rewrite Hread.
    now rewrite Hfile. }
  unfold CMRStudy.from_folder. rewrite Hdir. cbn [negb CMRStudy.when].
  unfold mbind, print. rewrite Hwalk. now rewrite Hloop.
Qed.

(** *** When the scan returns *)

Lemma series_wf_app (l : list (string * Dataset)) (x : string * Dataset)
      (sers : list (string * pyval)) :
  series_wf l sers -> series_wf (l ++ [x]) sers.
Proof.
  intros H b se Hse. destruct (H b se Hse) as [ser [insts [H1 [H2 H3]]]].
  exists ser, insts. split; [exact H1|]. split; [exact H2|].
  intros c Hc. destruct (H3 c Hc) as [fd [Hin Hk]].
  exists fd. split; [apply in_or_app; now left|exact Hk].
Qed.

Lemma study_state_ok_add (w : World) (folder_name : string) (verbose : bool)
      (f : string) (dcm : Dataset) (a : string) (l : list (string * Dataset))
      (st st' : option string * pyval) (out out' : list event) :
  study_state_ok a l st ->
  StudyInstanceUID dcm = Some a ->
  CMRStudy.add_file w folder_name verbose f dcm st out = (Ok st', out') ->
  study_state_ok a (l ++ [(f, dcm)]) st'.
Proof.
  intros Hok Ha H. destruct st as [su dd], st' as [su' dd'].
  destruct (CMRStudy_add_file_shape _ _ _ _ _ _ _ _ _ _ _ H)
    as [a' [b [c [d0 [sers [ser [insts [inst
         [Hu [-> [Hfirst [Hd0 [Hser [Hi [Hdup [_ ->]]]]]]]]]]]]]]]].
  unfold uids in Hu. injection Hu as Ha' Hb Hc.
  rewrite Ha in Ha'. injection Ha' as <-.
  unfold study_state_ok in *. cbn [fst snd] in *.
  split; [reflexivity|]. eexists. eexists. split; [reflexivity|].
  split; [apply dict_get_set_same|].
  (* the series the catalogue had before *)
  assert (Hold : series_wf l sers).
  { destruct su as [a0|].
    - destruct Hok as [_ [d1 [sers1 [Hdd [Hs1 Hwf]]]]].
      destruct Hfirst as [_ ->]. injection Hdd as <-.
      rewrite Hd0 in Hs1. now injection Hs1 as <-.
    - destruct Hok as [_ ->]. rewrite set_tags_comp in Hfirst.
      destruct (dict_comp _ _ _) as [tags|]; [|discriminate].
      simpl in Hfirst. injection Hfirst as <-.
      rewrite dict_get_set_same in Hd0. injection Hd0 as <-.
      intros b0 se0 Hse0. discriminate. }
  intros b0 se0 Hse0. destruct (string_dec b b0) as [<-|Hne].
  - rewrite dict_get_set_same in Hse0. injection Hse0 as <-.
    eexists. eexists. split; [reflexivity|]. split; [apply dict_get_set_same|].
    intros c0 Hc0. apply dict_mem_set in Hc0. destruct Hc0 as [<-|Hc0].
    + exists (f, dcm). split; [apply in_or_app; right; now left|].
      unfold instance_key. simpl. now rewrite Hb, Hc.
    + destruct (dict_get sers b) as [se|] eqn:Eb.
      * subst se. destruct (Hold b _ Eb) as [ser1 [insts1 [E1 [E2 E3]]]].
        injection E1 as <-. rewrite Hi in E2. injection E2 as <-.
        destruct (E3 c0 Hc0) as [fd [Hin Hk]].
        exists fd. split; [apply in_or_app; now left|exact Hk].
      * destruct Hser as [tags [_ ->]].
        rewrite dict_get_set_same in Hi. injection Hi as <-. discriminate.
  - rewrite dict_get_set_other in Hse0 by assumption.
    exact (series_wf_app _ _ _ Hold b0 se0 Hse0).
Qed.

Lemma mbind_lift_eq {S A B : Type} (r : result A) (k : A -> St S B) (s : S) (a : A) :
  r = Ok a -> mbind (lift r) k s = k a s.
Proof. now intros ->. Qed.

Lemma CMRStudy_add_file_runs (w : World) (folder_name : string) (verbose : bool)
      (f : string) (dcm : Dataset) (a b c : string) (l : list (string * Dataset))
      (st : option string * pyval) (out : list event) :
  study_state_ok a l st ->
  uids dcm = (Some a, Some b, Some c) ->
  study_tags_readable w dcm ->
  (verbose = true ->
   dcm_has dcm "StudyDescription" = true
   /\ dcm_has dcm "SeriesDescription" = true) ->
  ~ In (Some b, Some c) (map instance_key l) ->
  exists st' out',
    CMRStudy.add_file w folder_name verbose f dcm st out = (Ok st', out').
Proof.
  intros Hok Hu Htags Hdesc Hnew. destruct st as [su dd].
  unfold uids in Hu. injection Hu as Ha Hb Hc.
  assert (Ua : dcm_uid StudyInstanceUID "StudyInstanceUID" dcm = Ok a)
    by (unfold dcm_uid; now rewrite Ha).
  assert (Ub : dcm_uid SeriesInstanceUID "SeriesInstanceUID" dcm = Ok b)
    by (unfold dcm_uid; now rewrite Hb).
  assert (Uc : dcm_uid SOPInstanceUID "SOPInstanceUID" dcm = Ok c)
    by (unfold dcm_uid; now rewrite Hc).
  assert (T1 : exists tags, dict_comp (CMRStudy.get_tag w dcm) CMRStudy.STUDY_TAGS []
                            = Ok tags).
  { apply dict_comp_total. intros k Hk. apply Htags. apply in_or_app. now left. }
  assert (T2 : exists tags, dict_comp (CMRStudy.get_tag w dcm) CMRStudy.SERIES_TAGS []
                            = Ok tags).
  { apply dict_comp_total. intros k Hk. apply Htags.
    apply in_or_app. right. apply in_or_app. now left. }
  assert (T3 : exists inst, dict_comp (CMRStudy.get_tag w dcm)
                                      CMRStudy.INSTANCE_TAGS [] = Ok inst).
  { apply dict_comp_total. intros k Hk. apply Htags.
    apply in_or_app. right. apply in_or_app. now right. }
  destruct T1 as [tags1 T1]. destruct T2 as [tags2 T2]. destruct T3 as [inst T3].
  assert (D1 : verbose = true ->
               exists v, dcm_getattr dcm "StudyDescription" = Ok v).
  { intros Hv. destruct (Hdesc Hv) as [H _]. unfold dcm_has in H.
    unfold dcm_getattr. destruct (dcm_lookup dcm "StudyDescription"); [|discriminate].
    now eexists. }
  assert (D2 : verbose = true ->
               exists v, dcm_getattr dcm "SeriesDescription" = Ok v).
  { intros Hv. destruct (Hdesc Hv) as [_ H]. unfold dcm_has in H.
    unfold dcm_getattr. destruct (dcm_lookup dcm "SeriesDescription"); [|discriminate].
    now eexists. }
  (* the dict of the study once the study is set *)
  assert (Hfirst : exists d0 sers out1,
            match su with
            | None =>
                (study_iuid <- lift (dcm_uid StudyInstanceUID "StudyInstanceUID" dcm) ;;
                 _ <- CMRStudy.when verbose
                        (_ <- lift (dcm_getattr dcm "StudyDescription") ;;
                         print (PrintStudy study_iuid)) ;;
                 dd <- lift (CMRStudy.set_tags w dcm CMRStudy.STUDY_TAGS dd) ;;
                 dd <- lift (py_setitem dd "Series" (PDict [])) ;;
                 mret (study_iuid, dd))
            | Some study_iuid => mret (study_iuid, dd)
            end out = (Ok (a, PDict d0), out1)
            /\ dict_get d0 "Series" = Some (PDict sers)
            /\ series_wf l sers).
  { unfold study_state_ok in Hok. cbn [fst snd] in Hok. destruct su as [a0|].
    - destruct Hok as [-> [d0 [sers [-> [Hs Hwf]]]]].
      exists d0, sers, out. split; [reflexivity|]. split; assumption.
    - destruct Hok as [_ ->].
      exists (dict_set tags1 "Series" (PDict [])), [].
      rewrite (mbind_lift_eq _ _ _ _ Ua).
      destruct verbose.
      + destruct (D1 eq_refl) as [v Hv]. eexists. split.
        * unfold mbind at 1. cbn [CMRStudy.when].
          rewrite (mbind_lift_eq _ _ _ _ Hv). unfold print.
          rewrite set_tags_comp, T1. reflexivity.
        * split; [apply dict_get_set_same|]. intros b0 se0 H0. discriminate.
      + eexists. split.
        * unfold mbind at 1. cbn [CMRStudy.when]. unfold mret at 1.
          rewrite set_tags_comp, T1. reflexivity.
        * split; [apply dict_get_set_same|]. intros b0 se0 H0. discriminate. }
  destruct Hfirst as [d0 [sers [out1 [Hfirst [Hd0 Hwf]]]]].
  unfold CMRStudy.add_file. cbn [fst snd]. unfold mbind at 1. rewrite Hfirst.
  rewrite (mbind_lift_eq _ _ _ _ Ua).
  rewrite String.eqb_refl. unfold assert at 1.
  rewrite (mbind_lift_eq _ _ _ _ eq_refl).
  rewrite (mbind_lift_eq _ _ _ _ Ub).
  cbn [py_getitem]. rewrite Hd0.
  rewrite (mbind_lift_eq _ _ _ _ eq_refl).
  cbn [py_contains].
  rewrite (mbind_lift_eq _ _ _ _ eq_refl).
  (* the series of the file, and its instances *)
  assert (Hser : exists ser insts out2,
            (if negb (dict_mem sers b)
             then
               tags <- lift (dict_comp (CMRStudy.get_tag w dcm)
                                       CMRStudy.SERIES_TAGS []) ;;
               all_series <- lift (py_setitem (PDict sers) b (PDict tags)) ;;
               series <- lift (py_getitem all_series b) ;;
               series <- lift (py_setitem series "Instances" (PDict [])) ;;
               all_series <- lift (py_setitem all_series b series) ;;
               _ <- CMRStudy.when verbose
                      (desc <- lift (dcm_getattr dcm "SeriesDescription") ;;
                       print (PrintNewSeries b desc)) ;;
               mret all_series
             else mret (PDict sers)) out1
            = (Ok (PDict (dict_set sers b (PDict ser))), out2)
            /\ dict_get ser "Instances" = Some (PDict insts)
            /\ dict_mem insts c = false).
  { unfold dict_mem at 1. destruct (dict_get sers b) as [se|] eqn:Eb; cbn [negb].
    - destruct (Hwf b se Eb) as [ser [insts [-> [Hi Hin]]]].
      exists ser, insts, out1. split.
      + unfold mret. now rewrite (dict_set_get_id _ _ _ Eb).
      + split; [exact Hi|]. destruct (dict_mem insts c) eqn:E; [|reflexivity].
        exfalso. apply Hnew. destruct (Hin c E) as [fd [Hfd Hk]].
        rewrite <- Hk. now apply in_map.
    - exists (dict_set tags2 "Instances" (PDict [])), [].
      rewrite (mbind_lift_eq _ _ _ _ T2). cbn [py_setitem].
      rewrite (mbind_lift_eq _ _ _ _ eq_refl). cbn [py_getitem].
      rewrite dict_get_set_same.
      rewrite (mbind_lift_eq _ _ _ _ eq_refl). cbn [py_setitem].
      rewrite (mbind_lift_eq _ _ _ _ eq_refl).
      rewrite (mbind_lift_eq _ _ _ _ eq_refl).
      rewrite dict_set_set.
      destruct verbose.
      + destruct (D2 eq_refl) as [v Hv]. eexists. split.
        * unfold mbind at 1. cbn [CMRStudy.when].
          rewrite (mbind_lift_eq _ _ _ _ Hv). unfold print. reflexivity.
        * split; [apply dict_get_set_same|reflexivity].
      + eexists. split.
        * unfold mbind at 1. cbn [CMRStudy.when]. reflexivity.
        * split; [apply dict_get_set_same|reflexivity]. }
  destruct Hser as [ser [insts [out2 [Hser [Hi Hdup]]]]].
  unfold mbind at 1. rewrite Hser.
  rewrite (mbind_lift_eq _ _ _ _ Uc).
  cbn [py_getitem]. rewrite dict_get_set_same.
  rewrite (mbind_lift_eq _ _ _ _ eq_refl). cbn [py_getitem]. rewrite Hi.
  rewrite (mbind_lift_eq _ _ _ _ eq_refl).
  cbn [py_contains]. rewrite (mbind_lift_eq _ _ _ _ eq_refl).
  rewrite Hdup. cbn [negb assert].
  rewrite (mbind_lift_eq _ _ _ _ eq_refl).
  rewrite (mbind_lift_eq _ _ _ _ T3).
  rewrite (mbind_lift_eq _ _ _ _ Uc).
  cbn [py_setitem].
  rewrite !(mbind_lift_eq _ _ _ _ eq_refl).
  unfold mret. now eexists; eexists.
Qed.

Lemma study_add_all_runs (w : World) (folder_name : string) (verbose : bool)
      (a : string) (r : list (string * Dataset)) :
  forall l st out,
    study_state_ok a l st ->
    one_study w verbose a (l ++ r) ->
    exists st' out',
      study_add_all w folder_name verbose r st out = (Ok st', out').
Proof.
  induction r as [|[f dcm] r IH]; intros l st out Hok [Hall Hnd]; simpl.
  - now exists st, out.
  - destruct (Hall (f, dcm)) as [[b [c Hu]] [Htags Hdesc]];
      [apply in_or_app; right; now left|].
    simpl in Hu, Htags, Hdesc.
    assert (Hnew : ~ In (Some b, Some c) (map instance_key l)).
    { rewrite map_app in Hnd. simpl in Hnd. apply NoDup_remove_2 in Hnd.
      unfold instance_key at 1 in Hnd. simpl in Hnd.
      unfold uids in Hu. injection Hu as _ Hb Hc. rewrite Hb, Hc in Hnd.
      intros Hin. apply Hnd. apply in_or_app. now left. }
    destruct (CMRStudy_add_file_runs w folder_name verbose f dcm a b c l st out
                Hok Hu Htags Hdesc Hnew) as [st1 [out1 H1]].
    unfold mbind. rewrite H1.
    apply (IH (l ++ [(f, dcm)])).
    + eapply study_state_ok_add; [exact Hok| |exact H1].
      unfold uids in Hu. now injection Hu.
    + rewrite <- app_assoc. split; assumption.
Qed.

Lemma CMRStudy_add_files_as_add_all (w : World) (folder_name : string)
      (verbose : bool) (all_files : list string) :
  (forall f, In f all_files -> exists r, read_dicom w f = Ok r) ->
  forall st out,
    CMRStudy.add_files w folder_name verbose all_files st out
    = study_add_all w folder_name verbose (recognized w all_files) st out.
Proof.
  induction all_files as [|f rest IH]; intros Hread st out; simpl.
  - reflexivity.
  - destruct (Hread f (or_introl eq_refl)) as [r Hr].
    unfold mbind at 1, lift. rewrite Hr.
    assert (Hrest : forall g, In g rest -> exists r, read_dicom w g = Ok r)
      by (intros g Hg; apply Hread; now right).
    destruct r as [dcm|]; simpl.
    + unfold mbind.
      destruct (CMRStudy.add_file w folder_name verbose f dcm st out)
        as [[st1|e] out1]; [|reflexivity].
      now apply IH.
    + now apply IH.
Qed.

(** X18.  [CMRStudy.from_folder] returns a study whenever the path is a
    folder, pydicom reads every file of it without an exception, and the
    recognized files are of one study, have the three identifiers and
    values that [get_tag] can convert, no two of them the same series and
    instance identifier, and, if [verbose] is on, the two descriptions. *)
Theorem CMRStudy_from_folder_returns
        (w : World) (folder_name : string) (verbose : bool) (out : list event)
        (a : string) :
  isdir w folder_name = true ->
  all_read w folder_name ->
  one_study w verbose a (scanned w folder_name) ->
  exists S out', CMRStudy.from_folder w folder_name verbose out = (Ok S, out').
Proof.
  intros Hdir Hread Hone. unfold CMRStudy.from_folder. rewrite Hdir. cbn [negb].
  unfold mbind at 1.
  assert (Hprint : exists out1,
            CMRStudy.when verbose
              (print (PrintFound (List.length (walk_files w folder_name))
                                 folder_name)) out = (Ok tt, out1)).
  { destruct verbose; simpl; now eexists. }
  destruct Hprint as [out1 ->].
  unfold mbind at 1. rewrite (CMRStudy_add_files_as_add_all _ _ _ _ Hread).
  destruct (study_add_all_runs w folder_name verbose a (scanned w folder_name)
              [] (None, PDict []) out1) as [[su dd] [out2 H]].
  - split; reflexivity.
  - exact Hone.
  - unfold scanned in H. rewrite H. unfold mret. now eexists; eexists.
Qed.

(** ** [DicomDir.scan] *)

Lemma make_tag_study (dcmdir : pyval) (f : string) (dcm : Dataset)
      (t : list (string * pyval)) :
  DicomDir.make_tag dcmdir f dcm = Ok t ->
  DicomDir.restrict t DicomDir.STUDY_TAGS = Ok (raw_study_tags dcm).
Proof.
  unfold DicomDir.make_tag, raw_study_tags. intros H.
  destruct (DicomDir.strip_root dcmdir f) as [name|] eqn:Es;
    cbn [bind] in H; try discriminate.
  unfold DicomDir.second_attempt in H.
  remember (DicomDir.attr_or_none dcm) as g eqn:Hg. clear Hg.
  cbv in H.
  destruct (g "ImageOrientationPatient") eqn:E1;
    destruct (g "ImagePositionPatient") eqn:E2;
    injection H as <-; reflexivity.
Qed.

Lemma collect_recognized (w : World) (dcmdir : pyval) (all_files : list string) :
  forall all_tags,
    DicomDir.collect w dcmdir all_files = Ok all_tags ->
    Forall2 (fun fd t => DicomDir.make_tag dcmdir (fst fd) (snd fd) = Ok t)
            (recognized w all_files) all_tags.
Proof.
  induction all_files as [|f rest IH]; intros all_tags H; simpl in H |- *.
  - injection H as <-. constructor.
  - destruct (read_dicom w f) as [[dcm|]|]; cbn [bind] in H; try discriminate.
    + bind_ok H t Et. bind_ok H ts Ets. injection H as <-.
      constructor; [exact Et|]. now apply IH.
    + bind_ok H x Ex. now apply IH.
Qed.

Lemma collect_ext (w : World) (s s' : pyval) (all_files : list string) :
  py_getitem s "RootFolder" = py_getitem s' "RootFolder" ->
  DicomDir.collect w s all_files = DicomDir.collect w s' all_files.
Proof.
  intros E.
  assert (Hstrip : forall f, DicomDir.strip_root s f = DicomDir.strip_root s' f)
    by (intros f; unfold DicomDir.strip_root; now rewrite E).
  induction all_files as [|f rest IH]; simpl; [reflexivity|].
  destruct (read_dicom w f) as [[dcm|]|]; cbn [bind]; [| |reflexivity].
  - unfold DicomDir.make_tag. rewrite Hstrip, IH. reflexivity.
  - rewrite Hstrip, IH. reflexivity.
Qed.

(** One turn of the loop over the series, and the loop. *)
Lemma add_series_entry (all_tags : list (list (string * pyval)))
      (ser : pyval * pyval) (d : list (string * pyval)) (l : list pyval) :
  dict_get d "Series" = Some (PList l) ->
  DicomDir.add_series all_tags ser (PDict d)
  = match series_entry all_tags ser with
    | Ok e => (Ok tt, PDict (dict_set d "Series" (PList (l ++ [e]))))
    | Raise x => (Raise x, PDict d)
    end.
Proof.
  intros Hd. unfold DicomDir.add_series, series_entry.
  unfold mbind, lift, DicomDir.get_self, DicomDir.put_self.
  destruct (DicomDir.filterM _ all_tags) as [items|]; cbn [bind]; [|reflexivity].
  destruct items as [|t0 r]; cbn [bind]; [reflexivity|].
  destruct (DicomDir.restrict t0 DicomDir.SERIES_TAGS); cbn [bind]; [|reflexivity].
  destruct (mapM _ (t0 :: r)); cbn [bind]; [|reflexivity].
  cbn [py_getitem]. rewrite Hd. reflexivity.
Qed.

Lemma for_each_entries (all_tags : list (list (string * pyval)))
      (sers : list (pyval * pyval)) :
  forall (d : list (string * pyval)) (l : list pyval),
    dict_get d "Series" = Some (PList l) ->
    (forall s', DicomDir.for_each (DicomDir.add_series all_tags) sers (PDict d)
                = (Ok tt, s') ->
                exists es, mapM (series_entry all_tags) sers = Ok es
                           /\ s' = PDict (dict_set d "Series" (PList (l ++ es))))
    /\ (forall es, mapM (series_entry all_tags) sers = Ok es ->
                   DicomDir.for_each (DicomDir.add_series all_tags) sers (PDict d)
                   = (Ok tt, PDict (dict_set d "Series" (PList (l ++ es))))).
Proof.
  induction sers as [|ser r IH]; intros d l Hd; simpl.
  - split.
    + intros s' H. unfold mret in H. injection H as <-. exists [].
      split; [reflexivity|]. rewrite app_nil_r. now rewrite dict_set_get_id.
    + intros es H. injection H as <-. unfold mret.
      rewrite app_nil_r. now rewrite dict_set_get_id.
  - unfold mbind. rewrite (add_series_entry _ _ _ _ Hd).
    destruct (series_entry all_tags ser) as [e|x]; cbn [bind].
    + destruct (IH (dict_set d "Series" (PList (l ++ [e]))) (l ++ [e])
                   (dict_get_set_same _ _ _)) as [IH1 IH2].
      split.
      * intros s' H. destruct (IH1 _ H) as [es [Hes ->]].
        exists (e :: es). rewrite Hes. split; [reflexivity|].
        now rewrite dict_set_set, <- app_assoc.
      * intros es H. destruct (mapM (series_entry all_tags) r) as [es'|] eqn:E;
          cbn [bind] in H; [|discriminate].
        injection H as <-. rewrite (IH2 _ eq_refl).
        now rewrite dict_set_set, <- app_assoc.
    + split; [intros s' H; discriminate|intros es H; discriminate].
Qed.

(** The directory [scan] leaves, written out. *)
Lemma scan_explicit (w : World) (folder : string) (d : list (string * pyval))
      (s' : pyval) :
  dict_get d "RootFolder" = Some (PStr folder) ->
  DicomDir.scan w None (PDict d) = (Ok tt, s') ->
  exists all_tags first study series es,
    scan_finds w folder (PDict d) all_tags first study series
    /\ mapM (series_entry all_tags) (set_order w series) = Ok es
    /\ s' = PDict (dict_set (dict_update (dict_set d "RootFolder" (PStr folder))
                                         study)
                            "Series" (PList es)).
Proof.
  intros Hroot. unfold DicomDir.scan. intros H.
  apply mbind_Ok in H. destruct H as [folder' [s0 [H0 H]]].
  assert (folder' = folder /\ s0 = PDict d) as [-> ->].
  { unfold mbind, DicomDir.get_self, lift in H0. cbn [py_getitem] in H0.
    rewrite Hroot in H0. injection H0 as <- <-. auto. }
  clear H0.
  apply mbind_Ok in H. destruct H as [dcmdir [s0 [H0 H]]].
  unfold DicomDir.get_self in H0. injection H0 as <- <-.
  apply mbind_lift_Ok in H. destruct H as [all_tags [Htags H]].
  apply mbind_lift_Ok in H. destruct H as [uids [Huids H]].
  apply mbind_lift_Ok in H. destruct H as [studies [Hstudies H]].
  apply mbind_lift_Ok in H. destruct H as [[] [Hone H]].
  apply mbind_lift_Ok in H. destruct H as [ids [Hids H]].
  apply mbind_lift_Ok in H. destruct H as [patients [Hpatients H]].
  apply mbind_lift_Ok in H. destruct H as [[] [Hone' H]].
  apply mbind_lift_Ok in H. destruct H as [dcmdir1 [Hd1 H]].
  apply mbind_Ok in H. destruct H as [[] [s1 [H1 H]]].
  unfold DicomDir.put_self in H1. injection H1 as <-.
  apply mbind_lift_Ok in H. destruct H as [first [Hfirst H]].
  apply mbind_lift_Ok in H. destruct H as [study [Hstudy H]].
  apply mbind_lift_Ok in H. destruct H as [dcmdir2 [Hd2 H]].
  apply mbind_Ok in H. destruct H as [[] [s2 [H2 H]]].
  unfold DicomDir.put_self in H2. injection H2 as <-.
  apply mbind_lift_Ok in H. destruct H as [dcmdir3 [Hd3 H]].
  apply mbind_Ok in H. destruct H as [[] [s3 [H3 H]]].
  unfold DicomDir.put_self in H3. injection H3 as <-.
  apply mbind_lift_Ok in H. destruct H as [keys [Hkeys H]].
  apply mbind_lift_Ok in H. destruct H as [series [Hseries H]].
  simpl in Hd1. injection Hd1 as <-. injection Hd2 as <-.
  simpl in Hd3. injection Hd3 as <-.
  destruct (for_each_entries all_tags (set_order w series)
              (dict_set (dict_update (dict_set d "RootFolder" (PStr folder)) study)
                        "Series" (PList [])) []
              (dict_get_set_same _ _ _)) as [Hback _].
  destruct (Hback _ H) as [es [Hes ->]].
  exists all_tags, first, study, series, es.
  split; [|split; [exact Hes|now rewrite dict_set_set]].
  split; [exact Htags|]. split.
  { exists uids, studies. repeat split; auto.
    unfold assert in Hone. destruct (Nat.eqb_spec (List.length studies) 1); auto.
    discriminate. }
  split.
  { exists ids, patients. repeat split; auto.
    unfold assert in Hone'. destruct (Nat.eqb_spec (List.length patients) 1); auto.
    discriminate. }
  split.
  { destruct all_tags as [|t rest]; [discriminate|]. injection Hfirst as <-.
    now exists rest. }
  split; [exact Hstudy|]. exists keys. split; assumption.
Qed.

Lemma scan_forward (w : World) (folder : string) (d : list (string * pyval))
      (all_tags : list (list (string * pyval)))
      (first study : list (string * pyval)) (series : list (pyval * pyval))
      (es : list pyval) :
  dict_get d "RootFolder" = Some (PStr folder) ->
  scan_finds w folder (PDict d) all_tags first study series ->
  mapM (series_entry all_tags) (set_order w series) = Ok es ->
  DicomDir.scan w None (PDict d)
  = (Ok tt,
     PDict (dict_set (dict_update (dict_set d "RootFolder" (PStr folder)) study)
                     "Series" (PList es))).
Proof.
  intros Hroot [Htags [[uids [studies [Hu [Hs Hone]]]]
                  [[ids [patients [Hi [Hp Hone']]]]
                     [[rest Hfirst] [Hstudy [keys [Hkeys Hseries]]]]]]] Hes.
  unfold DicomDir.scan.
  unfold mbind at 1. unfold mbind at 1. unfold DicomDir.get_self at 1.
  cbn [py_getitem]. rewrite Hroot. unfold mbind at 1, lift at 1. unfold lift at 1.
  unfold mbind at 1. unfold DicomDir.get_self at 1.
  rewrite (mbind_lift_eq _ _ _ _ Htags).
  rewrite (mbind_lift_eq _ _ _ _ Hu).
  rewrite (mbind_lift_eq _ _ _ _ Hs).
  rewrite Hone. cbn [Nat.eqb assert].
  rewrite (mbind_lift_eq _ _ _ _ eq_refl).
  rewrite (mbind_lift_eq _ _ _ _ Hi).
  rewrite (mbind_lift_eq _ _ _ _ Hp).
  rewrite Hone'. cbn [Nat.eqb assert].
  rewrite (mbind_lift_eq _ _ _ _ eq_refl).
  cbn [py_setitem].
  rewrite (mbind_lift_eq _ _ _ _ eq_refl).
  unfold mbind at 1. unfold DicomDir.put_self at 1.
  rewrite Hfirst.
  rewrite (mbind_lift_eq _ _ _ _ eq_refl).
  rewrite (mbind_lift_eq _ _ _ _ Hstudy).
  rewrite (mbind_lift_eq _ _ _ _ eq_refl).
  unfold mbind at 1. unfold DicomDir.put_self at 1.
  cbn [py_setitem].
  rewrite (mbind_lift_eq _ _ _ _ eq_refl).
  unfold mbind at 1. unfold DicomDir.put_self at 1.
  rewrite <- Hfirst.
  change (fun t => let* u := DicomDir.item t "SeriesInstanceUID" in
                   let* n := DicomDir.item t "SeriesNumber" in Ok (u, n))
    with series_key.
  rewrite (mbind_lift_eq _ _ _ _ Hkeys).
  rewrite (mbind_lift_eq _ _ _ _ Hseries).
  destruct (for_each_entries all_tags (set_order w series)
              (dict_set (dict_update (dict_set d "RootFolder" (PStr folder)) study)
                        "Series" (PList [])) []
              (dict_get_set_same _ _ _)) as [_ Hfwd].
  rewrite (Hfwd _ Hes). now rewrite dict_set_set.
Qed.

(** What the later steps of [scan] read in the tags of a file. *)
Lemma make_tag_parts (d : list (string * pyval)) (folder f : string)
      (dcm : Dataset) (t : list (string * pyval)) :
  dict_get d "RootFolder" = Some (PStr folder) ->
  DicomDir.make_tag (PDict d) f dcm = Ok t ->
  DicomDir.restrict t DicomDir.SERIES_TAGS = Ok (raw_series_tags dcm)
  /\ (let* i := DicomDir.restrict t ("Filename" :: DicomDir.IMAGE_TAGS) in
      Ok (PDict i)) = Ok (image_entry folder (f, dcm))
  /\ series_key t = Ok (file_key (f, dcm))
  /\ forall ser, DicomDir.in_series (fst ser) (snd ser) t
                 = Ok (same_series ser (f, dcm)).
Proof.
  intros Hroot H.
  unfold DicomDir.make_tag, DicomDir.strip_root in H. cbn [py_getitem] in H.
  rewrite Hroot in H. cbn [bind] in H.
  unfold raw_series_tags, image_entry, image_value, stored_geometry,
    same_series, DicomDir.pair_eqb, file_key, DicomDir.in_series, series_key.
  cbn [fst snd].
  cbn [DicomDir.second_attempt] in H.
  remember (str_replace f folder "") as name eqn:Hn. clear Hn.
  remember (DicomDir.attr_or_none dcm) as g eqn:Hg. clear Hg.
  cbv in H.
  destruct (g "ImageOrientationPatient") eqn:E1;
    destruct (g "ImagePositionPatient") eqn:E2;
    injection H as <-;
    (split; [reflexivity|]; split; [cbv; rewrite ?E1, ?E2; reflexivity|];
     split; [reflexivity|]; intros [u n]; cbv [fst snd];
     cbv [DicomDir.item py_getitem dict_get String.eqb Ascii.eqb Bool.eqb bind];
     destruct (py_eqb (g "SeriesInstanceUID") u); reflexivity).
Qed.

Section ScanOfFiles.

Variables (w : World) (folder : string) (d : list (string * pyval)).
Hypothesis Hroot : dict_get d "RootFolder" = Some (PStr folder).

Lemma tags_keys (files : list (string * Dataset))
      (all_tags : list (list (string * pyval))) :
  Forall2 (tagged d) files all_tags ->
  mapM series_key all_tags = Ok (map file_key files).
Proof.
  induction 1 as [|[f dcm] t files all_tags Ht _ IH]; [reflexivity|].
  destruct (make_tag_parts d folder f dcm t Hroot Ht) as [_ [_ [Hk _]]].
  cbn [mapM map]. rewrite Hk, IH. reflexivity.
Qed.

Lemma tags_filter (ser : pyval * pyval) (files : list (string * Dataset))
      (all_tags : list (list (string * pyval))) :
  Forall2 (tagged d) files all_tags ->
  exists items,
    DicomDir.filterM (DicomDir.in_series (fst ser) (snd ser)) all_tags = Ok items
    /\ Forall2 (tagged d) (filter (same_series ser) files) items.
Proof.
  induction 1 as [|[f dcm] t files all_tags Ht _ [items [IH1 IH2]]].
  - exists []. split; [reflexivity|constructor].
  - destruct (make_tag_parts d folder f dcm t Hroot Ht) as [_ [_ [_ Hin]]].
    cbn [DicomDir.filterM filter]. rewrite Hin, IH1. cbn [bind].
    destruct (same_series ser (f, dcm)).
    + exists (t :: items). split; [reflexivity|]. constructor; assumption.
    + exists items. split; [reflexivity|assumption].
Qed.

Lemma tags_images (files : list (string * Dataset))
      (items : list (list (string * pyval))) :
  Forall2 (tagged d) files items ->
  mapM (fun ss =>
          let* i := DicomDir.restrict ss ("Filename" :: DicomDir.IMAGE_TAGS) in
          Ok (PDict i)) items
  = Ok (map (image_entry folder) files).
Proof.
  induction 1 as [|[f dcm] t files items Ht _ IH]; [reflexivity|].
  destruct (make_tag_parts d folder f dcm t Hroot Ht) as [_ [Hi _]].
  cbn [mapM map]. rewrite Hi, IH. reflexivity.
Qed.

(** The entry of a pair, from the files. *)
Lemma series_entry_of_files (ser : pyval * pyval)
      (files : list (string * Dataset))
      (all_tags : list (list (string * pyval))) :
  Forall2 (tagged d) files all_tags ->
  series_entry all_tags ser
  = match filter (same_series ser) files with
    | [] => Raise IndexError
    | fd :: rest =>
        Ok (PDict (raw_series_tags (snd fd)
                     ++ [("Images",
                          PList (map (image_entry folder) (fd :: rest)))]))
    end.
Proof.
  intros Hall. unfold series_entry.
  destruct (tags_filter ser files all_tags Hall) as [items [Hf Hitems]].
  rewrite Hf. cbn [bind].
  rewrite (tags_images _ _ Hitems).
  destruct Hitems as [|[f dcm] t files' items' Ht Hrest]; [reflexivity|].
  destruct (make_tag_parts d folder f dcm t Hroot Ht) as [Hs _].
  cbn [bind]. rewrite Hs. reflexivity.
Qed.

Lemma series_entries_listed (files : list (string * Dataset))
      (all_tags : list (list (string * pyval))) (sers : list (pyval * pyval)) :
  Forall2 (tagged d) files all_tags ->
  forall es,
    mapM (series_entry all_tags) sers = Ok es ->
    Forall2 (fun ser e =>
               exists fd rest,
                 filter (same_series ser) files = fd :: rest
                 /\ e = PDict (raw_series_tags (snd fd)
                                 ++ [("Images",
                                      PList (map (image_entry folder)
                                                 (fd :: rest)))]))
            sers es.
Proof.
  intros Hall. induction sers as [|ser r IH]; intros es H; simpl in H.
  - injection H as <-. constructor.
  - rewrite (series_entry_of_files ser _ _ Hall) in H.
    destruct (filter (same_series ser) files) as [|fd rest] eqn:Ef;
      cbn [bind] in H; [discriminate|].
    bind_ok H es' Ees. injection H as <-.
    constructor; [|now apply IH]. exists fd, rest. split; [exact Ef|reflexivity].
Qed.

Lemma series_entries_run (files : list (string * Dataset))
      (all_tags : list (list (string * pyval))) (sers : list (pyval * pyval)) :
  Forall2 (tagged d) files all_tags ->
  (forall ser, In ser sers -> filter (same_series ser) files <> []) ->
  exists es, mapM (series_entry all_tags) sers = Ok es.
Proof.
  intros Hall. induction sers as [|ser r IH]; intros Hne; simpl.
  - now exists [].
  - rewrite (series_entry_of_files ser _ _ Hall).
    destruct (filter (same_series ser) files) as [|fd rest] eqn:Ef.
    + exfalso. apply (Hne ser); [now left|exact Ef].
    + cbn [bind]. destruct IH as [es Hes].
      { intros s Hs. apply Hne. now right. }
      rewrite Hes. cbn [bind]. eauto.
Qed.

(** The directory a scan leaves, from the recognized files. *)
Lemma scan_directory (s' : pyval) :
  DicomDir.scan w None (PDict d) = (Ok tt, s') ->
  exists fd rest es,
    scanned w folder = fd :: rest
    /\ Forall2 (series_listed w folder) (series_pairs w folder) es
    /\ s' = PDict (dict_set (dict_update (dict_set d "RootFolder" (PStr folder))
                                         (raw_study_tags (snd fd)))
                            "Series" (PList es)).
Proof.
  intros H.
  destruct (scan_explicit w folder d s' Hroot H)
    as [all_tags [first [study [series [es [Hfinds [Hes ->]]]]]]].
  destruct Hfinds as [Htags [_ [_ [[rest Hfirst] [Hstudy [keys [Hkeys Hseries]]]]]]].
  pose proof (collect_recognized w (PDict d) _ _ Htags) as Hall.
  fold (scanned w folder) in Hall.
  assert (Hpairs : set_order w series = series_pairs w folder).
  { unfold series_pairs. f_equal.
    rewrite (tags_keys _ _ Hall) in Hkeys. injection Hkeys as <-.
    unfold DicomDir.py_set_pairs in Hseries.
    destruct (forallb _ _); [|discriminate]. now injection Hseries as <-. }
  rewrite Hpairs in Hes.
  pose proof (series_entries_listed _ _ _ Hall es Hes) as Hlisted.
  subst all_tags. inversion Hall as [|[f dcm] t files tl Ht Hr Efiles Etl].
  subst. exists (f, dcm), files, es.
  split; [reflexivity|]. split; [exact Hlisted|].
  rewrite (make_tag_study _ _ _ _ Ht) in Hstudy. injection Hstudy as <-.
  reflexivity.
Qed.

End ScanOfFiles.

(** ** When [scan] returns *)

Lemma make_tag_total (d : list (string * pyval)) (folder f : string)
      (dcm : Dataset) :
  dict_get d "RootFolder" = Some (PStr folder) ->
  exists t, DicomDir.make_tag (PDict d) f dcm = Ok t.
Proof.
  intros Hroot.
  unfold DicomDir.make_tag, DicomDir.strip_root. cbn [py_getitem].
  rewrite Hroot. cbn [bind DicomDir.second_attempt].
  remember (str_replace f folder "") as name eqn:Hn. clear Hn.
  remember (DicomDir.attr_or_none dcm) as g eqn:Hg. clear Hg.
  cbv.
  destruct (g "ImageOrientationPatient"); destruct (g "ImagePositionPatient");
    eexists; reflexivity.
Qed.

Lemma collect_total (w : World) (d : list (string * pyval)) (folder : string)
      (all_files : list string) :
  dict_get d "RootFolder" = Some (PStr folder) ->
  (forall f, In f all_files -> exists r, read_dicom w f = Ok r) ->
  exists all_tags, DicomDir.collect w (PDict d) all_files = Ok all_tags.
Proof.
  intros Hroot. induction all_files as [|f rest IH]; intros Hread;
    cbn [DicomDir.collect].
  - now exists [].
  - destruct (Hread f (or_introl eq_refl)) as [r ->].
    destruct IH as [ts Hts]; [intros g Hg; apply Hread; now right|].
    destruct r as [dcm|]; cbn [bind].
    + destruct (make_tag_total d folder f dcm Hroot) as [t ->].
      cbn [bind]. rewrite Hts. cbn [bind]. eauto.
    + unfold DicomDir.strip_root. cbn [py_getitem]. rewrite Hroot.
      cbn [bind]. rewrite Hts. eauto.
Qed.

Lemma tags_attr (d : list (string * pyval)) (tag : string)
      (files : list (string * Dataset))
      (all_tags : list (list (string * pyval))) :
  tag = "StudyInstanceUID" \/ tag = "PatientID" ->
  Forall2 (fun fd t => DicomDir.make_tag (PDict d) (fst fd) (snd fd) = Ok t)
          files all_tags ->
  mapM (fun t => DicomDir.item t tag) all_tags
  = Ok (map (fun fd => DicomDir.attr_or_none (snd fd) tag) files).
Proof.
  intros Htag. induction 1 as [|[f dcm] t files all_tags Ht _ IH]; [reflexivity|].
  destruct (make_tag_spec _ _ _ _ Ht)
    as [name [_ [_ [_ [_ [_ [_ [Hs Hp]]]]]]]].
  cbn [mapM map snd]. rewrite IH. unfold DicomDir.item. cbn [py_getitem].
  destruct Htag as [-> | ->]; [rewrite Hs|rewrite Hp]; reflexivity.
Qed.

Lemma fold_set_add_same (x0 : pyval) (l : list pyval) :
  Forall (fun x => py_eqb x0 x = true) l ->
  fold_left (set_add py_eqb) l [x0] = [x0].
Proof.
  induction 1 as [|x l Hx _ IH]; [reflexivity|].
  cbn [fold_left set_add]. rewrite Hx. exact IH.
Qed.

Lemma py_set_agree (tag : string) (fd0 : string * Dataset)
      (rest : list (string * Dataset)) :
  agree_on tag fd0 (fd0 :: rest) ->
  exists s,
    DicomDir.py_set (map (fun fd => DicomDir.attr_or_none (snd fd) tag)
                         (fd0 :: rest)) = Ok s
    /\ List.length s = 1.
Proof.
  intros Hagree. unfold DicomDir.py_set.
  assert (Hh : forallb hashable
                       (map (fun fd => DicomDir.attr_or_none (snd fd) tag)
                            (fd0 :: rest)) = true).
  { apply forallb_forall. intros v Hv. apply in_map_iff in Hv.
    destruct Hv as [fd [<- Hfd]]. apply (Hagree fd Hfd). }
  rewrite Hh. eexists. split; [reflexivity|].
  unfold set_of_list. cbn [map fold_left set_add].
  rewrite fold_set_add_same; [reflexivity|].
  apply Forall_forall. intros v Hv. apply in_map_iff in Hv.
  destruct Hv as [fd [<- Hfd]]. apply (Hagree fd). now right.
Qed.

(** ** [DicomDir.__init__] *)

Lemma init_scan (w : World) (folder : string) (self : DicomDir.t) :
  DicomDir.init w folder = Ok self ->
  isdir w folder = true
  /\ DicomDir.scan w None (PDict [("RootFolder", PStr folder)])
     = (Ok tt, DicomDir.dcmdir self).
Proof.
  unfold DicomDir.init. intros H.
  destruct (isdir w folder); cbn [assert bind] in H; [|discriminate].
  destruct (DicomDir.scan w None (PDict [("RootFolder", PStr folder)]))
    as [[[]|] s'] eqn:Hscan; try discriminate.
  injection H as <-. split; reflexivity.
Qed.

Lemma scan_init (w : World) (folder : string) (s' : pyval) :
  isdir w folder = true ->
  DicomDir.scan w None (PDict [("RootFolder", PStr folder)]) = (Ok tt, s') ->
  DicomDir.init w folder = Ok (DicomDir.mk s').
Proof.
  intros Hdir Hscan. unfold DicomDir.init. rewrite Hdir. cbn [assert bind].
  now rewrite Hscan.
Qed.

(** X19. The directory of a [DicomDir] that was built has eight keys, in
    this order: [RootFolder], the folder as it was given; the six study
    tags, each with the attribute of the first recognized file of the
    walk, or [None] where that file does not have it; and [Series]. *)
Theorem DicomDir_directory_of_first_file
        (w : World) (folder : string) (self : DicomDir.t) :
  DicomDir.init w folder = Ok self ->
  exists fd rest series,
    scanned w folder = fd :: rest
    /\ DicomDir.dcmdir self
       = PDict (("RootFolder", PStr folder)
                  :: raw_study_tags (snd fd) ++ [("Series", PList series)]).
Proof.
  intros Hinit. destruct (init_scan w folder self Hinit) as [_ Hscan].
  destruct (scan_directory w folder [("RootFolder", PStr folder)] eq_refl _ Hscan)
    as [fd [rest [es [Hfiles [_ ->]]]]].
  exists fd, rest, es. split; [exact Hfiles|reflexivity].
Qed.

(** X20. The [Series] of a [DicomDir] that was built has one entry for
    each pair (SeriesInstanceUID, SeriesNumber) of the set of the pairs of
    the recognized files, in the order in which the set is gone through.
    The entry holds the five series tags of the first recognized file that
    compares equal to the pair, and under [Images] one image for each
    such file, in the order of the walk: its name with the root folder
    removed, and its thirteen image tags. *)
Theorem DicomDir_series_of_scan
        (w : World) (folder : string) (self : DicomDir.t) :
  DicomDir.init w folder = Ok self ->
  exists series,
    py_getitem (DicomDir.dcmdir self) "Series" = Ok (PList series)
    /\ Forall2 (series_listed w folder) (series_pairs w folder) series.
Proof.
  intros Hinit. destruct (init_scan w folder self Hinit) as [_ Hscan].
  destruct (scan_directory w folder [("RootFolder", PStr folder)] eq_refl _ Hscan)
    as [fd [rest [es [_ [Hlisted ->]]]]].
  exists es. split; [|exact Hlisted].
  cbn [py_getitem]. now rewrite dict_get_set_same.
Qed.

(** X21. Scanning again with no argument, while the folder has not
    changed, returns and leaves the directory as it is. *)
Theorem DicomDir_scan_again
        (w : World) (folder : string) (self : DicomDir.t) :
  DicomDir.init w folder = Ok self ->
  DicomDir.scan w None (DicomDir.dcmdir self) = (Ok tt, DicomDir.dcmdir self).
Proof.
  intros Hinit. destruct (init_scan w folder self Hinit) as [_ Hscan].
  destruct (scan_explicit w folder [("RootFolder", PStr folder)] _ eq_refl Hscan)
    as [all_tags [first [study [series [es [Hfinds [Hes Hs]]]]]]].
  rewrite Hs.
  assert (Hstudy : exists dcm, study = raw_study_tags dcm).
  { destruct Hfinds as [Htags [_ [_ [[rest Hfirst] [Hstudy _]]]]].
    pose proof (collect_recognized w _ _ _ Htags) as Hall.
    subst all_tags. inversion Hall as [|[f dcm] t files tl Ht Hr Efiles Etl].
    subst. rewrite (make_tag_study _ _ _ _ Ht) in Hstudy.
    injection Hstudy as <-. now exists dcm. }
  destruct Hstudy as [dcm ->].
  remember (dict_set (dict_update (dict_set [("RootFolder", PStr folder)]
                                            "RootFolder" (PStr folder))
                                  (raw_study_tags dcm))
                     "Series" (PList es)) as D eqn:HD.
  assert (Hroot : dict_get D "RootFolder" = Some (PStr folder))
    by (subst D; reflexivity).
  assert (Hfinds' : scan_finds w folder (PDict D) all_tags first
                               (raw_study_tags dcm) series).
  { destruct Hfinds as [Htags Hrest]. split; [|exact Hrest].
    rewrite <- Htags. apply collect_ext. cbn [py_getitem]. now rewrite Hroot. }
  rewrite (scan_forward w folder D _ _ _ _ _ Hroot Hfinds' Hes).
  subst D. reflexivity.
Qed.

(** X22. A [DicomDir] is built whenever the folder is a directory whose
    files pydicom reads without an exception, at least one is recognized,
    the recognized files agree on StudyInstanceUID and on PatientID, and
    the pair (SeriesInstanceUID, SeriesNumber) of each can be put in a set
    and compares equal to itself. *)
Theorem DicomDir_init_returns
        (w : World) (folder : string) (fd0 : string * Dataset)
        (rest : list (string * Dataset)) :
  isdir w folder = true ->
  all_read w folder ->
  set_order_permutes w ->
  scanned w folder = fd0 :: rest ->
  agree_on "StudyInstanceUID" fd0 (fd0 :: rest) ->
  agree_on "PatientID" fd0 (fd0 :: rest) ->
  (forall fd, In fd (fd0 :: rest) -> series_told fd) ->
  exists self, DicomDir.init w folder = Ok self.
Proof.
  intros Hdir Hread Horder Hfiles Hstudy Hpatient Htold.
  set (d := [("RootFolder", PStr folder)]).
  assert (Hroot : dict_get d "RootFolder" = Some (PStr folder)) by reflexivity.
  destruct (collect_total w d folder (walk_files w folder) Hroot Hread)
    as [all_tags Htags].
  pose proof (collect_recognized w _ _ _ Htags) as Hall.
  fold (scanned w folder) in Hall. rewrite Hfiles in Hall.
  assert (Hfirst : exists t ts, all_tags = t :: ts
                                /\ DicomDir.make_tag (PDict d) (fst fd0) (snd fd0)
                                   = Ok t).
  { inversion Hall as [|x t l ts Ht Hr]. subst. eauto. }
  destruct Hfirst as [t [ts [Ets Ht]]].
  destruct (py_set_agree _ _ _ Hstudy) as [studies [Hstudies Hone]].
  destruct (py_set_agree _ _ _ Hpatient) as [patients [Hpatients Hone']].
  assert (Hhash : forallb (fun p => hashable (fst p) && hashable (snd p))
                          (map file_key (fd0 :: rest)) = true).
  { apply forallb_forall. intros p Hp. apply in_map_iff in Hp.
    destruct Hp as [fd [<- Hfd]]. destruct (Htold fd Hfd) as [H1 [H2 _]].
    now rewrite H1, H2. }
  assert (Hfinds : scan_finds w folder (PDict d) all_tags t
                              (raw_study_tags (snd fd0))
                              (set_of_list DicomDir.pair_eqb
                                           (map file_key (fd0 :: rest)))).
  { split; [exact Htags|]. split.
    { exists (map (fun fd => DicomDir.attr_or_none (snd fd) "StudyInstanceUID")
                  (fd0 :: rest)), studies.
      split; [|split; assumption].
      apply (tags_attr d); [now left|exact Hall]. }
    split.
    { exists (map (fun fd => DicomDir.attr_or_none (snd fd) "PatientID")
                  (fd0 :: rest)), patients.
      split; [|split; assumption].
      apply (tags_attr d); [now right|exact Hall]. }
    split; [now exists ts|]. split; [exact (make_tag_study _ _ _ _ Ht)|].
    exists (map file_key (fd0 :: rest)). split.
    - exact (tags_keys folder d Hroot _ _ Hall).
    - unfold DicomDir.py_set_pairs. now rewrite Hhash. }
  destruct (series_entries_run folder d Hroot (fd0 :: rest) all_tags
              (set_order w (set_of_list DicomDir.pair_eqb
                                        (map file_key (fd0 :: rest)))) Hall)
    as [es Hes].
  { intros ser Hser Hnone.
    apply (Permutation_in _ (Permutation_sym (Horder _ _))) in Hser.
    apply set_of_list_sub in Hser. apply in_map_iff in Hser.
    destruct Hser as [fd [<- Hfd]].
    destruct (Htold fd Hfd) as [_ [_ Hself]].
    assert (Hin : In fd (filter (same_series (file_key fd)) (fd0 :: rest)))
      by (apply filter_In; split; assumption).
    rewrite Hnone in Hin. exact Hin. }
  eexists. apply scan_init; [exact Hdir|].
  exact (scan_forward w folder d _ _ _ _ _ Hroot Hfinds Hes).
Qed.

(** ** [CMRDir.save] and [CMRDir.from_file] *)




(** ** The theorems at work on the cine image *)

Lemma get_tag_normalizes_witness :
  dcm_lookup cine_record "ImagePosition" = Some (PBytes "-120.5\-98\14")
  /\ utf8_bytes "-120.5\-98\14" = true
  /\ exists parts,
       CMRDir.get_tag cine_world cine_record "ImagePosition"
       = Ok (PList (map PStr parts))
       /\ str_join (String backslash EmptyString) parts = "-120.5\-98\14"
       /\ Forall (fun p => has_char backslash p = false) parts.
Proof.
  assert (H1 : dcm_lookup cine_record "ImagePosition"
               = Some (PBytes "-120.5\-98\14")) by reflexivity.
  assert (H2 : utf8_bytes "-120.5\-98\14" = true) by reflexivity.
  split; [exact H1|]. split; [exact H2|].
  exact (proj1 (proj2 (proj2
           (get_tag_normalizes cine_world cine_record "ImagePosition")))
           _ H1 H2).
Defined.

Lemma read_dicom_classifies_witness :
  read_file cine_world "data/a.dcm" true = Ok cine_image
  /\ 1 < dcm_len cine_image
  /\ exists r,
       read_dicom cine_world "data/a.dcm" = Ok (Some r)
       /\ same_elements r cine_image
       /\ dict_get (file_meta r) "TransferSyntaxUID" = Some ImplicitVRLittleEndian
       /\ (forall k, k <> "TransferSyntaxUID" ->
             dict_get (file_meta r) k = dict_get (file_meta cine_image) k).
Proof.
  assert (H1 : read_file cine_world "data/a.dcm" true = Ok cine_image)
    by reflexivity.
  assert (H2 : 1 < dcm_len cine_image) by (vm_compute; lia).
  split; [exact H1|]. split; [exact H2|].
  exact (proj2 (proj1 (read_dicom_classifies cine_world "data/a.dcm") _ H1) H2).
Defined.

Lemma CMRDir_snapshot_round_trip_witness :
  proper_values cine_world
  /\ unique_keys PNone
  /\ CMRDir.from_folder cine_world "data" PNone true
     = (Ok cine_catalogue, [PrintCount 1])
  /\ CMRDir.save cine_catalogue "cine.json" no_files = (Ok tt, cine_saved)
  /\ exists D' st'',
       CMRDir.from_file "cine.json" cine_saved = (Ok D', st'')
       /\ same_catalogue D' cine_catalogue.
Proof.
  assert (H1 : proper_values cine_world).
  { intros p force dcm H. injection H as <-. repeat constructor. }
  assert (H2 : unique_keys PNone) by exact I.
  assert (H3 : CMRDir.from_folder cine_world "data" PNone true
               = (Ok cine_catalogue, [PrintCount 1]))
    by (vm_compute; reflexivity).
  assert (H4 : CMRDir.save cine_catalogue "cine.json" no_files
               = (Ok tt, cine_saved))
    by (vm_compute; reflexivity).
  split; [exact H1|]. split; [exact H2|]. split; [exact H3|]. split; [exact H4|].
  exact (CMRDir_snapshot_round_trip cine_world "data" PNone true cine_catalogue
           [PrintCount 1] "cine.json" no_files cine_saved H1 H2 H3 H4).
Defined.

Lemma DicomDir_geometry_falls_back_witness :
  set_order_complete cine_world
  /\ In ("ImageOrientationPatient", "ImageOrientation")
        [("ImageOrientationPatient", "ImageOrientation");
         ("ImagePositionPatient", "ImagePosition")]
  /\ DicomDir.init cine_world "data" = Ok cine_directory
  /\ In "data/a.dcm" (walk_files cine_world "data")
  /\ read_dicom cine_world "data/a.dcm" = Ok (Some cine_record)
  /\ exists all_series series images image,
       py_getitem (DicomDir.dcmdir cine_directory) "Series" = Ok (PList all_series)
       /\ In (PDict series) all_series
       /\ dict_get series "Images" = Some (PList images)
       /\ In (PDict image) images
       /\ dict_get image "Filename" = Some (PStr "/a.dcm")
       /\ dict_get image "ImageOrientationPatient"
          = Some (PMultiValue [DS 1 0; DS 0 0; DS 0 0; DS 0 0; DS 1 0; DS 0 0])
       /\ (dcm_has cine_record "ImageOrientationPatient" = false ->
           forall v, dcm_lookup cine_record "ImageOrientation" = Some v ->
                     dict_get image "ImageOrientationPatient" = Some v)
       /\ (dict_get image "ImageOrientationPatient" = Some PNone ->
           DicomDir.attr_or_none cine_record "ImageOrientationPatient" = PNone
           /\ DicomDir.attr_or_none cine_record "ImageOrientation" = PNone).
Proof.
  assert (H1 : set_order_complete cine_world) by (intros A l x H; exact H).
  assert (H2 : In ("ImageOrientationPatient", "ImageOrientation")
                  [("ImageOrientationPatient", "ImageOrientation");
                   ("ImagePositionPatient", "ImagePosition")])
    by (left; reflexivity).
  assert (H3 : DicomDir.init cine_world "data" = Ok cine_directory)
    by (vm_compute; reflexivity).
  assert (H4 : In "data/a.dcm" (walk_files cine_world "data"))
    by (left; reflexivity).
  assert (H5 : read_dicom cine_world "data/a.dcm" = Ok (Some cine_record))
    by reflexivity.
  split; [exact H1|]. split; [exact H2|]. split; [exact H3|]. split; [exact H4|].
  split; [exact H5|].
  exact (DicomDir_geometry_falls_back cine_world "data" cine_directory
           "data/a.dcm" cine_record "ImageOrientationPatient" "ImageOrientation"
           H1 H2 H3 H4 H5).
Defined.

(** ** The further properties at work on the sample folders *)

Lemma ward_order : set_order_permutes ward_world.
Proof. intros A l. apply Permutation_refl. Qed.

Lemma ward_scan :
  CMRDir.from_folder ward_world "ward" PNone true
  = (Ok ward_catalogue, [PrintCount 4]).
Proof. vm_compute. reflexivity. Qed.

Lemma ward_files :
  scanned ward_world "ward"
  = [("ward/a.dcm", ward_a); ("ward/b.dcm", ward_b); ("ward/sub/c.dcm", ward_c)].
Proof. vm_compute. reflexivity. Qed.

Lemma ward_study : file_of_study (scanned ward_world "ward") "1.2".
Proof.
  exists ("ward/a.dcm", ward_a). rewrite ward_files.
  split; [left; reflexivity|reflexivity].
Qed.

Lemma ward_series : file_of_series (scanned ward_world "ward") "1.2" "1.2.3".
Proof.
  exists ("ward/a.dcm", ward_a). rewrite ward_files.
  split; [left; reflexivity|split; reflexivity].
Qed.

Lemma ward_series_no_tag : ~ In "1.2.3" CMRDir.STUDY_TAGS.
Proof. cbv. intuition discriminate. Qed.

Lemma CMRDir_get_study_uids_of_scan_witness :
  CMRDir.from_folder ward_world "ward" PNone true
  = (Ok ward_catalogue, [PrintCount 4])
  /\ CMRDir.get_study_uids ward_catalogue = Ok ["1.2"; "1.7"].
Proof.
  split; [exact ward_scan|].
  exact (CMRDir_get_study_uids_of_scan ward_world "ward" PNone true
           ward_catalogue [PrintCount 4] ward_scan).
Defined.

Lemma CMRDir_get_series_uids_of_scan_witness :
  set_order_permutes ward_world
  /\ CMRDir.from_folder ward_world "ward" PNone true
     = (Ok ward_catalogue, [PrintCount 4])
  /\ file_of_study (scanned ward_world "ward") "1.2"
  /\ exists sers,
       CMRDir.get_series_uids ward_world ward_catalogue "1.2" = Ok sers
       /\ NoDup sers
       /\ forall b, In b sers
                    <-> ~ In b CMRDir.STUDY_TAGS
                        /\ file_of_series (scanned ward_world "ward") "1.2" b.
Proof.
  split; [exact ward_order|]. split; [exact ward_scan|].
  split; [exact ward_study|].
  exact (CMRDir_get_series_uids_of_scan ward_world "ward" PNone true
           ward_catalogue [PrintCount 4] "1.2" ward_order ward_scan ward_study).
Defined.

Lemma CMRDir_get_sop_uids_of_scan_witness :
  set_order_permutes ward_world
  /\ CMRDir.from_folder ward_world "ward" PNone true
     = (Ok ward_catalogue, [PrintCount 4])
  /\ file_of_series (scanned ward_world "ward") "1.2" "1.2.3"
  /\ ~ In "1.2.3" CMRDir.STUDY_TAGS
  /\ exists sops,
       CMRDir.get_sop_uids ward_world ward_catalogue "1.2" "1.2.3" = Ok sops
       /\ NoDup sops
       /\ forall c, In c sops
                    <-> ~ In c CMRDir.SERIES_TAGS
                        /\ file_of_instance (scanned ward_world "ward")
                                            "1.2" "1.2.3" c.
Proof.
  split; [exact ward_order|]. split; [exact ward_scan|].
  split; [exact ward_series|]. split; [exact ward_series_no_tag|].
  exact (CMRDir_get_sop_uids_of_scan ward_world "ward" PNone true
           ward_catalogue [PrintCount 4] "1.2" "1.2.3"
           ward_order ward_scan ward_series ward_series_no_tag).
Defined.

Lemma CMRDir_keeps_last_file_of_an_instance_witness :
  CMRDir.from_folder ward_world "ward" PNone true
  = (Ok ward_catalogue, [PrintCount 4])
  /\ scanned ward_world "ward"
     = [("ward/a.dcm", ward_a)] ++ ("ward/b.dcm", ward_b)
                                :: [("ward/sub/c.dcm", ward_c)]
  /\ (forall fd, In fd [("ward/sub/c.dcm", ward_c)] ->
                 uids (snd fd) <> uids ward_b)
  /\ exists a b c inst,
       uids ward_b = (Some a, Some b, Some c)
       /\ instance_at (CMRDir.dicomDir ward_catalogue) a b c = Ok (PDict inst)
       /\ instance_of ward_world "ward" "ward/b.dcm" ward_b inst.
Proof.
  assert (H3 : forall fd, In fd [("ward/sub/c.dcm", ward_c)] ->
                          uids (snd fd) <> uids ward_b).
  { intros fd [<-|[]]. discriminate. }
  split; [exact ward_scan|]. split; [exact ward_files|]. split; [exact H3|].
  exact (CMRDir_keeps_last_file_of_an_instance ward_world "ward" PNone true
           ward_catalogue [PrintCount 4] [("ward/a.dcm", ward_a)]
           [("ward/sub/c.dcm", ward_c)] "ward/b.dcm" ward_b
           ward_scan ward_files H3).
Defined.

Lemma CMRDir_get_filenames_of_scan_witness :
  set_order_permutes ward_world
  /\ CMRDir.from_folder ward_world "ward" PNone true
     = (Ok ward_catalogue, [PrintCount 4])
  /\ file_of_series (scanned ward_world "ward") "1.2" "1.2.3"
  /\ ~ In "1.2.3" CMRDir.STUDY_TAGS
  /\ exists sops files,
       CMRDir.get_sop_uids ward_world ward_catalogue "1.2" "1.2.3" = Ok sops
       /\ CMRDir.get_filenames ward_world ward_catalogue "1.2" "1.2.3" PNone
          = Ok files
       /\ Forall2 (fun c file =>
                     exists fd,
                       last_with (scanned ward_world "ward") fd
                       /\ uids (snd fd) = (Some "1.2", Some "1.2.3", Some c)
                       /\ file = stored_name "ward" (fst fd)) sops files.
Proof.
  split; [exact ward_order|]. split; [exact ward_scan|].
  split; [exact ward_series|]. split; [exact ward_series_no_tag|].
  exact (CMRDir_get_filenames_of_scan ward_world "ward" PNone true
           ward_catalogue [PrintCount 4] "1.2" "1.2.3" PNone
           ward_order ward_scan ward_series ward_series_no_tag).
Defined.

Lemma CMRDir_get_something_from_series_of_scan_witness :
  set_order_permutes ward_world
  /\ CMRDir.from_folder ward_world "ward" PNone true
     = (Ok ward_catalogue, [PrintCount 4])
  /\ file_of_series (scanned ward_world "ward") "1.2" "1.2.3"
  /\ ~ In "1.2.3" CMRDir.STUDY_TAGS
  /\ exists sops,
       CMRDir.get_sop_uids ward_world ward_catalogue "1.2" "1.2.3" = Ok sops
       /\ (In "Rows" CMRDir.INSTANCE_TAGS ->
           exists vals,
             CMRDir.get_something_from_series ward_world ward_catalogue
                                              "1.2" "1.2.3" "Rows" = Ok vals
             /\ Forall2 (fun c v =>
                           exists fd,
                             last_with (scanned ward_world "ward") fd
                             /\ uids (snd fd) = (Some "1.2", Some "1.2.3", Some c)
                             /\ CMRDir.get_tag ward_world (snd fd) "Rows" = Ok v)
                        sops vals)
       /\ (~ In "Rows" ("Filename" :: CMRDir.INSTANCE_TAGS) -> sops <> [] ->
           CMRDir.get_something_from_series ward_world ward_catalogue
                                            "1.2" "1.2.3" "Rows"
           = Raise (KeyError "Rows")).
Proof.
  split; [exact ward_order|]. split; [exact ward_scan|].
  split; [exact ward_series|]. split; [exact ward_series_no_tag|].
  exact (CMRDir_get_something_from_series_of_scan ward_world "ward" PNone true
           ward_catalogue [PrintCount 4] "1.2" "1.2.3" "Rows"
           ward_order ward_scan ward_series ward_series_no_tag).
Defined.

Lemma CMRDir_get_all_filenames_of_scan_witness :
  set_order_permutes ward_world
  /\ CMRDir.from_folder ward_world "ward" PNone true
     = (Ok ward_catalogue, [PrintCount 4])
  /\ exists all,
       CMRDir.get_all_filenames ward_world ward_catalogue = Ok all
       /\ forall v, In v all
                    <-> exists fd,
                          last_with (scanned ward_world "ward") fd
                          /\ reachable (snd fd)
                          /\ v = stored_name "ward" (fst fd).
Proof.
  split; [exact ward_order|]. split; [exact ward_scan|].
  exact (CMRDir_get_all_filenames_of_scan ward_world "ward" PNone true
           ward_catalogue [PrintCount 4] ward_order ward_scan).
Defined.

Lemma ward_no_tag_series (tag : string) :
  In tag CMRDir.STUDY_TAGS ->
  forall fd, In fd (scanned ward_world "ward") ->
             SeriesInstanceUID (snd fd) <> Some tag.
Proof.
  intros Htag fd Hfd. rewrite ward_files in Hfd.
  cbv [CMRDir.STUDY_TAGS In] in Htag, Hfd.
  decompose [or] Htag; decompose [or] Hfd; subst; try contradiction;
    discriminate.
Qed.

Lemma CMRDir_study_tags_of_first_file_witness :
  CMRDir.from_folder ward_world "ward" PNone true
  = (Ok ward_catalogue, [PrintCount 4])
  /\ scanned ward_world "ward"
     = [] ++ ("ward/a.dcm", ward_a)
          :: [("ward/b.dcm", ward_b); ("ward/sub/c.dcm", ward_c)]
  /\ StudyInstanceUID ward_a = Some "1.2"
  /\ ~ file_of_study [] "1.2"
  /\ In "PatientID" CMRDir.STUDY_TAGS
  /\ (forall fd, In fd (scanned ward_world "ward") ->
                 SeriesInstanceUID (snd fd) <> Some "PatientID")
  /\ exists v,
       CMRDir.get_tag ward_world ward_a "PatientID" = Ok v
       /\ study_item (CMRDir.dicomDir ward_catalogue) "1.2" "PatientID" = Ok v.
Proof.
  assert (H3 : StudyInstanceUID ward_a = Some "1.2") by reflexivity.
  assert (H4 : ~ file_of_study [] "1.2") by (intros [fd [[] _]]).
  assert (H5 : In "PatientID" CMRDir.STUDY_TAGS) by (cbv; tauto).
  split; [exact ward_scan|]. split; [exact ward_files|]. split; [exact H3|].
  split; [exact H4|]. split; [exact H5|].
  split; [exact (ward_no_tag_series "PatientID" H5)|].
  exact (CMRDir_study_tags_of_first_file ward_world "ward" PNone true
           ward_catalogue [PrintCount 4] []
           [("ward/b.dcm", ward_b); ("ward/sub/c.dcm", ward_c)]
           "ward/a.dcm" ward_a "1.2" "PatientID"
           ward_scan ward_files H3 H4 H5 (ward_no_tag_series "PatientID" H5)).
Defined.

Lemma CMRDir_get_patient_id_of_scan_witness :
  CMRDir.from_folder ward_world "ward" PNone true
  = (Ok ward_catalogue, [PrintCount 4])
  /\ scanned ward_world "ward"
     = ("ward/a.dcm", ward_a)
         :: [("ward/b.dcm", ward_b); ("ward/sub/c.dcm", ward_c)]
  /\ (forall fd, In fd (scanned ward_world "ward") ->
                 SeriesInstanceUID (snd fd) <> Some "PatientID")
  /\ exists v,
       CMRDir.get_tag ward_world ward_a "PatientID" = Ok v
       /\ CMRDir.get_patient_id ward_catalogue None = Ok v.
Proof.
  assert (H5 : In "PatientID" CMRDir.STUDY_TAGS) by (cbv; tauto).
  split; [exact ward_scan|]. split; [exact ward_files|].
  split; [exact (ward_no_tag_series "PatientID" H5)|].
  exact (CMRDir_get_patient_id_of_scan ward_world "ward" PNone true
           ward_catalogue [PrintCount 4] "ward/a.dcm" ward_a
           [("ward/b.dcm", ward_b); ("ward/sub/c.dcm", ward_c)]
           ward_scan ward_files (ward_no_tag_series "PatientID" H5)).
Defined.

Lemma CMRDir_is_empty_of_scan_witness :
  CMRDir.from_folder ward_world "ward" PNone true
  = (Ok ward_catalogue, [PrintCount 4])
  /\ CMRDir.is_empty ward_catalogue = Ok false.
Proof.
  split; [exact ward_scan|].
  exact (CMRDir_is_empty_of_scan ward_world "ward" PNone true
           ward_catalogue [PrintCount 4] ward_scan).
Defined.

Lemma CMRDir_from_folder_names_the_study_witness :
  CMRDir.from_folder trailing_world "ward/" PNone true
  = (Ok trailing_catalogue, [PrintCount 1])
  /\ CMRDir.source trailing_catalogue = PStr "ward/"
  /\ (PNone <> PNone -> CMRDir.studyName trailing_catalogue = PNone)
  /\ (PNone = PNone ->
      (has_char slash "ward/" = false ->
       CMRDir.studyName trailing_catalogue = PStr "ward/")
      /\ forall parent n,
           "ward/" = (parent ++ "/" ++ n)%string ->
           has_char slash n = false ->
           CMRDir.studyName trailing_catalogue = PStr n).
Proof.
  assert (H1 : CMRDir.from_folder trailing_world "ward/" PNone true
               = (Ok trailing_catalogue, [PrintCount 1]))
    by (vm_compute; reflexivity).
  split; [exact H1|].
  exact (CMRDir_from_folder_names_the_study trailing_world "ward/" PNone true
           trailing_catalogue [PrintCount 1] H1).
Defined.

Lemma CMRDir_from_folder_needs_identifiers_witness :
  In ("data/a.dcm", unidentified_record) (scanned unidentified_world "data")
  /\ (StudyInstanceUID unidentified_record = None
      \/ SeriesInstanceUID unidentified_record = None
      \/ SOPInstanceUID unidentified_record = None)
  /\ exists e,
       fst (CMRDir.from_folder unidentified_world "data" PNone true) = Raise e.
Proof.
  assert (H1 : In ("data/a.dcm", unidentified_record)
                  (scanned unidentified_world "data"))
    by (left; reflexivity).
  assert (H2 : StudyInstanceUID unidentified_record = None
               \/ SeriesInstanceUID unidentified_record = None
               \/ SOPInstanceUID unidentified_record = None)
    by (right; right; reflexivity).
  split; [exact H1|]. split; [exact H2|].
  exact (CMRDir_from_folder_needs_identifiers unidentified_world "data" PNone
           true "data/a.dcm" unidentified_record H1 H2).
Defined.

Lemma ward_all_read : all_read ward_world "ward".
Proof.
  intros f Hf. vm_compute in Hf.
  decompose [or] Hf; subst; try contradiction; eexists; vm_compute; reflexivity.
Qed.

Lemma ward_indexable :
  forall fd, In fd (scanned ward_world "ward") -> indexable ward_world (snd fd).
Proof.
  intros fd Hfd. rewrite ward_files in Hfd.
  assert (Hread : forall dcm, In dcm [ward_a; ward_b; ward_c] ->
                              tags_readable ward_world dcm).
  { intros dcm Hdcm tag Htag.
    cbv [CMRDir.STUDY_TAGS CMRDir.SERIES_TAGS CMRDir.INSTANCE_TAGS app In]
      in Htag, Hdcm.
    decompose [or] Hdcm; subst; try contradiction;
      decompose [or] Htag; subst; try contradiction;
      eexists; vm_compute; reflexivity. }
  cbv [In] in Hfd. decompose [or] Hfd; subst; try contradiction; cbn [snd];
    (split; [do 3 eexists; split; [reflexivity|cbv; intuition discriminate]
            |apply Hread; cbv [In]; tauto]).
Qed.

Lemma CMRDir_from_folder_returns_witness :
  isdir ward_world "ward" = true
  /\ all_read ward_world "ward"
  /\ (forall fd, In fd (scanned ward_world "ward") ->
                 indexable ward_world (snd fd))
  /\ exists D out, CMRDir.from_folder ward_world "ward" PNone true = (Ok D, out).
Proof.
  assert (H1 : isdir ward_world "ward" = true) by reflexivity.
  split; [exact H1|]. split; [exact ward_all_read|].
  split; [exact ward_indexable|].
  exact (CMRDir_from_folder_returns ward_world "ward" PNone true
           H1 ward_all_read ward_indexable).
Defined.

Lemma study_scan :
  CMRStudy.from_folder study_world "ward" true []
  = (Ok study_catalogue,
     [PrintFound 4 "ward"; PrintStudy "1.2";
      PrintNewSeries "1.2.3" (PStr "cine");
      PrintNewSeries "1.2.9" (PStr "cine")]).
Proof. vm_compute. reflexivity. Qed.

Lemma study_files :
  scanned study_world "ward"
  = ("ward/a.dcm", ward_a)
      :: [("ward/b.dcm", ward_b); ("ward/sub/c.dcm", study_c)].
Proof. vm_compute. reflexivity. Qed.

Lemma CMRStudy_from_folder_files_every_image_witness :
  CMRStudy.from_folder study_world "ward" true []
  = (Ok study_catalogue,
     [PrintFound 4 "ward"; PrintStudy "1.2";
      PrintNewSeries "1.2.3" (PStr "cine");
      PrintNewSeries "1.2.9" (PStr "cine")])
  /\ In ("ward/sub/c.dcm", study_c) (scanned study_world "ward")
  /\ exists a b c inst,
       uids study_c = (Some a, Some b, Some c)
       /\ CMRStudy.study_instance_uid study_catalogue = PStr a
       /\ study_instance_at (CMRStudy.dcmdir study_catalogue) b c
          = Ok (PDict inst)
       /\ study_instance_of study_world "ward" "ward/sub/c.dcm" study_c inst.
Proof.
  assert (H2 : In ("ward/sub/c.dcm", study_c) (scanned study_world "ward"))
    by (rewrite study_files; right; right; left; reflexivity).
  split; [exact study_scan|]. split; [exact H2|].
  exact (CMRStudy_from_folder_files_every_image study_world "ward" true
           study_catalogue [] _ "ward/sub/c.dcm" study_c study_scan H2).
Defined.

Lemma CMRStudy_study_tags_of_first_file_witness :
  CMRStudy.from_folder study_world "ward" true []
  = (Ok study_catalogue,
     [PrintFound 4 "ward"; PrintStudy "1.2";
      PrintNewSeries "1.2.3" (PStr "cine");
      PrintNewSeries "1.2.9" (PStr "cine")])
  /\ scanned study_world "ward"
     = ("ward/a.dcm", ward_a)
         :: [("ward/b.dcm", ward_b); ("ward/sub/c.dcm", study_c)]
  /\ In "PatientID" CMRStudy.STUDY_TAGS
  /\ exists v,
       CMRStudy.get_tag study_world ward_a "PatientID" = Ok v
       /\ py_getitem (CMRStudy.dcmdir study_catalogue) "PatientID" = Ok v.
Proof.
  assert (H3 : In "PatientID" CMRStudy.STUDY_TAGS) by (cbv; tauto).
  split; [exact study_scan|]. split; [exact study_files|]. split; [exact H3|].
  exact (CMRStudy_study_tags_of_first_file study_world "ward" true
           study_catalogue [] _ "ward/a.dcm" ward_a
           [("ward/b.dcm", ward_b); ("ward/sub/c.dcm", study_c)] "PatientID"
           study_scan study_files H3).
Defined.

Lemma CMRStudy_is_empty_of_scan_witness :
  CMRStudy.from_folder study_world "ward" true []
  = (Ok study_catalogue,
     [PrintFound 4 "ward"; PrintStudy "1.2";
      PrintNewSeries "1.2.3" (PStr "cine");
      PrintNewSeries "1.2.9" (PStr "cine")])
  /\ CMRStudy.is_empty study_catalogue = Ok false
  /\ CMRStudy.study_instance_uid study_catalogue = PStr "1.2".
Proof.
  split; [exact study_scan|].
  exact (CMRStudy_is_empty_of_scan study_world "ward" true study_catalogue
           [] _ study_scan).
Defined.

Lemma CMRStudy_verbose_needs_the_description_witness :
  isdir plain_world "data" = true
  /\ walk_files plain_world "data" = [] ++ "data/a.dcm" :: []
  /\ (forall g, In g [] -> read_dicom plain_world g = Ok None)
  /\ read_dicom plain_world "data/a.dcm" = Ok (Some plain_record)
  /\ StudyInstanceUID plain_record = Some "1.2"
  /\ dcm_lookup plain_record "StudyDescription" = None
  /\ CMRStudy.from_folder plain_world "data" true []
     = (Raise (AttributeError "StudyDescription"), [PrintFound 1 "data"]).
Proof.
  assert (H1 : isdir plain_world "data" = true) by reflexivity.
  assert (H2 : walk_files plain_world "data" = [] ++ "data/a.dcm" :: [])
    by reflexivity.
  assert (H3 : forall g, In g [] -> read_dicom plain_world g = Ok None)
    by (intros g []).
  assert (H4 : read_dicom plain_world "data/a.dcm" = Ok (Some plain_record))
    by reflexivity.
  assert (H5 : StudyInstanceUID plain_record = Some "1.2") by reflexivity.
  assert (H6 : dcm_lookup plain_record "StudyDescription" = None)
    by reflexivity.
  split; [exact H1|]. split; [exact H2|]. split; [exact H3|].
  split; [exact H4|]. split; [exact H5|]. split; [exact H6|].
  exact (CMRStudy_verbose_needs_the_description plain_world "data" [] [] []
           "data/a.dcm" plain_record "1.2" H1 H2 H3 H4 H5 H6).
Defined.

Lemma study_all_read : all_read study_world "ward".
Proof.
  intros f Hf. vm_compute in Hf.
  decompose [or] Hf; subst; try contradiction; eexists; vm_compute; reflexivity.
Qed.

Lemma study_one_study : one_study study_world true "1.2" (scanned study_world "ward").
Proof.
  rewrite study_files. split.
  - intros fd Hfd.
    assert (Hread : forall dcm, In dcm [ward_a; ward_b; study_c] ->
                                study_tags_readable study_world dcm).
    { intros dcm Hdcm tag Htag.
      cbv [CMRStudy.STUDY_TAGS CMRStudy.SERIES_TAGS CMRStudy.INSTANCE_TAGS app In]
        in Htag, Hdcm.
      decompose [or] Hdcm; subst; try contradiction;
        decompose [or] Htag; subst; try contradiction;
        eexists; vm_compute; reflexivity. }
    cbv [In] in Hfd. decompose [or] Hfd; subst; try contradiction; cbn [snd];
      (split; [do 2 eexists; reflexivity|];
       split; [apply Hread; cbv [In]; tauto|intros _; split; reflexivity]).
  - cbv [map instance_key snd]. cbn.
    repeat constructor; cbv [In]; intuition discriminate.
Qed.

Lemma CMRStudy_from_folder_returns_witness :
  isdir study_world "ward" = true
  /\ all_read study_world "ward"
  /\ one_study study_world true "1.2" (scanned study_world "ward")
  /\ exists S out',
       CMRStudy.from_folder study_world "ward" true [] = (Ok S, out').
Proof.
  assert (H1 : isdir study_world "ward" = true) by reflexivity.
  split; [exact H1|]. split; [exact study_all_read|].
  split; [exact study_one_study|].
  exact (CMRStudy_from_folder_returns study_world "ward" true [] "1.2"
           H1 study_all_read study_one_study).
Defined.

Lemma study_order : set_order_permutes study_world.
Proof. intros A l. apply Permutation_refl. Qed.

Lemma study_init : DicomDir.init study_world "ward" = Ok study_directory.
Proof. vm_compute. reflexivity. Qed.

Lemma DicomDir_directory_of_first_file_witness :
  DicomDir.init study_world "ward" = Ok study_directory
  /\ exists fd rest series,
       scanned study_world "ward" = fd :: rest
       /\ DicomDir.dcmdir study_directory
          = PDict (("RootFolder", PStr "ward")
                     :: raw_study_tags (snd fd) ++ [("Series", PList series)]).
Proof.
  split; [exact study_init|].
  exact (DicomDir_directory_of_first_file study_world "ward" study_directory
           study_init).
Defined.

Lemma DicomDir_series_of_scan_witness :
  DicomDir.init study_world "ward" = Ok study_directory
  /\ exists series,
       py_getitem (DicomDir.dcmdir study_directory) "Series" = Ok (PList series)
       /\ Forall2 (series_listed study_world "ward")
                  [(PStr "1.2.3", PInt 3); (PStr "1.2.9", PInt 9)] series.
Proof.
  split; [exact study_init|].
  exact (DicomDir_series_of_scan study_world "ward" study_directory study_init).
Defined.

Lemma DicomDir_scan_again_witness :
  DicomDir.init study_world "ward" = Ok study_directory
  /\ DicomDir.scan study_world None (DicomDir.dcmdir study_directory)
     = (Ok tt, DicomDir.dcmdir study_directory).
Proof.
  split; [exact study_init|].
  exact (DicomDir_scan_again study_world "ward" study_directory study_init).
Defined.

Lemma study_agree (tag : string) :
  tag = "StudyInstanceUID" \/ tag = "PatientID" ->
  agree_on tag ("ward/a.dcm", ward_a)
           (("ward/a.dcm", ward_a)
              :: [("ward/b.dcm", ward_b); ("ward/sub/c.dcm", study_c)]).
Proof.
  intros Htag fd Hfd. cbv [In] in Hfd.
  decompose [or] Htag; decompose [or] Hfd; subst; try contradiction;
    split; vm_compute; reflexivity.
Qed.

Lemma study_told :
  forall fd, In fd (("ward/a.dcm", ward_a)
                      :: [("ward/b.dcm", ward_b); ("ward/sub/c.dcm", study_c)]) ->
             series_told fd.
Proof.
  intros fd Hfd. cbv [In] in Hfd.
  decompose [or] Hfd; subst; try contradiction;
    (split; [|split]; vm_compute; reflexivity).
Qed.

Lemma DicomDir_init_returns_witness :
  isdir study_world "ward" = true
  /\ all_read study_world "ward"
  /\ set_order_permutes study_world
  /\ scanned study_world "ward"
     = ("ward/a.dcm", ward_a)
         :: [("ward/b.dcm", ward_b); ("ward/sub/c.dcm", study_c)]
  /\ agree_on "StudyInstanceUID" ("ward/a.dcm", ward_a)
              (("ward/a.dcm", ward_a)
                 :: [("ward/b.dcm", ward_b); ("ward/sub/c.dcm", study_c)])
  /\ agree_on "PatientID" ("ward/a.dcm", ward_a)
              (("ward/a.dcm", ward_a)
                 :: [("ward/b.dcm", ward_b); ("ward/sub/c.dcm", study_c)])
  /\ (forall fd,
        In fd (("ward/a.dcm", ward_a)
                 :: [("ward/b.dcm", ward_b); ("ward/sub/c.dcm", study_c)]) ->
        series_told fd)
  /\ exists self, DicomDir.init study_world "ward" = Ok self.
Proof.
  assert (H1 : isdir study_world "ward" = true) by reflexivity.
  split; [exact H1|]. split; [exact study_all_read|].
  split; [exact study_order|]. split; [exact study_files|].
  split; [exact (study_agree "StudyInstanceUID" (or_introl eq_refl))|].
  split; [exact (study_agree "PatientID" (or_intror eq_refl))|].
  split; [exact study_told|].
  exact (DicomDir_init_returns study_world "ward" ("ward/a.dcm", ward_a)
           [("ward/b.dcm", ward_b); ("ward/sub/c.dcm", study_c)]
           H1 study_all_read study_order study_files
           (study_agree "StudyInstanceUID" (or_introl eq_refl))
           (study_agree "PatientID" (or_intror eq_refl))
           study_told).
Defined.


Lemma DicomDir_rejects_second_study_or_patient_witness :
  In "ward/a.dcm" (walk_files ward_world "ward")
  /\ In "ward/sub/c.dcm" (walk_files ward_world "ward")
  /\ read_dicom ward_world "ward/a.dcm" = Ok (Some ward_a)
  /\ read_dicom ward_world "ward/sub/c.dcm" = Ok (Some ward_c)
  /\ StudyInstanceUID ward_a <> StudyInstanceUID ward_c
  /\ exists e, DicomDir.init ward_world "ward" = Raise e.
Proof.
  assert (H1 : In "ward/a.dcm" (walk_files ward_world "ward"))
    by (left; reflexivity).
  assert (H2 : In "ward/sub/c.dcm" (walk_files ward_world "ward"))
    by (right; right; right; left; reflexivity).
  assert (H3 : read_dicom ward_world "ward/a.dcm" = Ok (Some ward_a))
    by reflexivity.
  assert (H4 : read_dicom ward_world "ward/sub/c.dcm" = Ok (Some ward_c))
    by reflexivity.
  assert (H5 : StudyInstanceUID ward_a <> StudyInstanceUID ward_c)
    by discriminate.
  split; [exact H1|]. split; [exact H2|]. split; [exact H3|].
  split; [exact H4|]. split; [exact H5|].
  exact (DicomDir_rejects_second_study_or_patient ward_world "ward"
           "ward/a.dcm" "ward/sub/c.dcm" ward_a ward_c H1 H2 H3 H4
           (or_introl H5)).
Defined.

Lemma CMRStudy_rejects_second_study_witness :
  In "ward/a.dcm" (walk_files ward_world "ward")
  /\ In "ward/sub/c.dcm" (walk_files ward_world "ward")
  /\ read_dicom ward_world "ward/a.dcm" = Ok (Some ward_a)
  /\ read_dicom ward_world "ward/sub/c.dcm" = Ok (Some ward_c)
  /\ StudyInstanceUID ward_a <> StudyInstanceUID ward_c
  /\ exists e, fst (CMRStudy.from_folder ward_world "ward" true []) = Raise e.
Proof.
  assert (H1 : In "ward/a.dcm" (walk_files ward_world "ward"))
    by (left; reflexivity).
  assert (H2 : In "ward/sub/c.dcm" (walk_files ward_world "ward"))
    by (right; right; right; left; reflexivity).
  assert (H3 : read_dicom ward_world "ward/a.dcm" = Ok (Some ward_a))
    by reflexivity.
  assert (H4 : read_dicom ward_world "ward/sub/c.dcm" = Ok (Some ward_c))
    by reflexivity.
  assert (H5 : StudyInstanceUID ward_a <> StudyInstanceUID ward_c)
    by discriminate.
  split; [exact H1|]. split; [exact H2|]. split; [exact H3|].
  split; [exact H4|]. split; [exact H5|].
  exact (CMRStudy_rejects_second_study ward_world "ward" true []
           "ward/a.dcm" "ward/sub/c.dcm" ward_a ward_c H1 H2 H3 H4 H5).
Defined.

Lemma CMRStudy_rejects_duplicate_instance_witness :
  walk_files duplicate_world "data" = [] ++ "data/a.dcm" :: [] ++ "data/b.dcm" :: []
  /\ (exists d1 d2,
        read_dicom duplicate_world "data/a.dcm" = Ok (Some d1)
        /\ read_dicom duplicate_world "data/b.dcm" = Ok (Some d2)
        /\ SeriesInstanceUID d1 = SeriesInstanceUID d2
        /\ SOPInstanceUID d1 = SOPInstanceUID d2)
  /\ exists e, fst (CMRStudy.from_folder duplicate_world "data" true []) = Raise e.
Proof.
  assert (H1 : walk_files duplicate_world "data"
               = [] ++ "data/a.dcm" :: [] ++ "data/b.dcm" :: [])
    by reflexivity.
  pose (d1 := set_file_meta (image "1.2" "1.2.3" "1.2.3.4" [("Rows", PInt 1)])
                            "TransferSyntaxUID" ImplicitVRLittleEndian).
  pose (d2 := set_file_meta (image "1.2" "1.2.3" "1.2.3.4" [("Rows", PInt 2)])
                            "TransferSyntaxUID" ImplicitVRLittleEndian).
  assert (H2 : read_dicom duplicate_world "data/a.dcm" = Ok (Some d1))
    by reflexivity.
  assert (H3 : read_dicom duplicate_world "data/b.dcm" = Ok (Some d2))
    by reflexivity.
  assert (H4 : SeriesInstanceUID d1 = SeriesInstanceUID d2) by reflexivity.
  assert (H5 : SOPInstanceUID d1 = SOPInstanceUID d2) by reflexivity.
  split; [exact H1|].
  split; [exists d1, d2; repeat split; assumption|].
  exact (CMRStudy_rejects_duplicate_instance duplicate_world "data" true []
           [] [] [] "data/a.dcm" "data/b.dcm" d1 d2 H1 H2 H3 H4 H5).
Defined.

Lemma DicomDir_folder_without_images_witness :
  isdir text_only_world "data" = true
  /\ no_image text_only_world "data"
  /\ DicomDir.init text_only_world "data" = Raise (AssertionError PNone).
Proof.
  assert (H1 : isdir text_only_world "data" = true) by reflexivity.
  assert (H2 : no_image text_only_world "data").
  { intros f Hf. vm_compute in Hf. destruct Hf as [<-|[]]. reflexivity. }
  split; [exact H1|]. split; [exact H2|].
  exact (DicomDir_folder_without_images text_only_world "data" H1 H2).
Defined.

Lemma Filename_relative_when_root_not_repeated_witness :
  dir_at ward_world "ward"
  = Some (Dir ["a.dcm"; "b.dcm"; "notes.txt"] [("sub", Dir ["c.dcm"] [])])
  /\ "ward" <> ""
  /\ well_named (Dir ["a.dcm"; "b.dcm"; "notes.txt"] [("sub", Dir ["c.dcm"] [])])
  /\ walk_files ward_world "ward"
     = ["ward/a.dcm"; "ward/b.dcm"; "ward/notes.txt"; "ward/sub/c.dcm"]
  /\ forall p, ~ occurs "ward/" p ->
               str_replace ("ward/" ++ p)%string "ward/" "" = p.
Proof.
  assert (H1 : dir_at ward_world "ward"
               = Some (Dir ["a.dcm"; "b.dcm"; "notes.txt"]
                           [("sub", Dir ["c.dcm"] [])]))
    by reflexivity.
  assert (H2 : "ward" <> "") by discriminate.
  assert (H3 : well_named (Dir ["a.dcm"; "b.dcm"; "notes.txt"]
                               [("sub", Dir ["c.dcm"] [])])).
  { cbn [well_named]. unfold plain_name.
    repeat (split || constructor); discriminate. }
  split; [exact H1|]. split; [exact H2|]. split; [exact H3|].
  exact (Filename_relative_when_root_not_repeated ward_world "ward" _ H1 H2 H3).
Defined.

Lemma CMRDir_keeps_both_geometry_tags_witness :
  In "ImageOrientation" ["ImageOrientation"; "ImageOrientationPatient";
                         "ImagePosition"; "ImagePositionPatient"]
  /\ CMRDir.add_file cine_world "data" "data/a.dcm" cine_record (PDict [])
     = Ok (CMRDir.dicomDir cine_catalogue)
  /\ exists study series sop st se inst v,
       StudyInstanceUID cine_record = Some study
       /\ SeriesInstanceUID cine_record = Some series
       /\ SOPInstanceUID cine_record = Some sop
       /\ py_getitem (CMRDir.dicomDir cine_catalogue) study = Ok st
       /\ py_getitem st series = Ok se
       /\ py_getitem se sop = Ok (PDict inst)
       /\ CMRDir.get_tag cine_world cine_record "ImageOrientation" = Ok v
       /\ dict_get inst "ImageOrientation" = Some v
       /\ (v = PNone ->
           dcm_lookup cine_record "ImageOrientation" = None
           \/ dcm_lookup cine_record "ImageOrientation" = Some PNone).
Proof.
  assert (H1 : In "ImageOrientation"
                  ["ImageOrientation"; "ImageOrientationPatient";
                   "ImagePosition"; "ImagePositionPatient"])
    by (left; reflexivity).
  assert (H2 : CMRDir.add_file cine_world "data" "data/a.dcm" cine_record
                               (PDict [])
               = Ok (CMRDir.dicomDir cine_catalogue))
    by (vm_compute; reflexivity).
  split; [exact H1|]. split; [exact H2|].
  exact (CMRDir_keeps_both_geometry_tags cine_world "data" "data/a.dcm"
           cine_record (PDict []) _ "ImageOrientation" H1 H2).
Defined.
